(** * An in-memory to-do service (Flask, [app.py]): model and properties

    The module-level globals [TODOS] (a dict from id to task dict) and
    [NEXT_ID] are threaded explicitly as a [state].  Every route handler is a
    computation in a small state-and-exception monad: a handler either returns
    a response (body and status code) or raises a Python exception, and in
    both cases the globals keep whatever was written before.

    Request bodies are JSON values as [request.get_json] delivers them, so
    the coercions [bool(...)] and [int(...)] of the source are modelled on
    arbitrary JSON values. *)

From Stdlib Require Import ZArith List String Ascii Bool Lia Permutation Sorted.
Import ListNotations.
Open Scope string_scope.
Open Scope list_scope.
Open Scope Z_scope.

(* ------------------------------------------------------------------ *)
(** ** JSON values and the Python builtins applied to them *)

(** A Python float by its value: not-a-number, an infinity, or the finite
    number [m * 2^e].  The handlers never compute with floats; they only
    test them for zero, truncate them and compare them with integers. *)
Inductive pyfloat : Type :=
| FNan
| FInf (negative : bool)
| FFinite (m e : Z).

#[local] Set Warnings "-register-all".
Inductive json : Type :=
| JNull
| JBool (b : bool)
| JInt (z : Z)
| JFloat (f : pyfloat)
| JStr (s : string)
| JArr (items : list json)
| JObj (members : list (string * json)).

Inductive exn : Type :=
| TypeError | ValueError | OverflowError | AttributeError | KeyError.

(** [bool(v)]: Python truthiness. *)
Definition truthy (v : json) : bool :=
  match v with
  | JNull => false
  | JBool b => b
  | JInt z => negb (z =? 0)
  | JFloat (FFinite m _) => negb (m =? 0)
  | JFloat _ => true
  | JStr s => negb (s =? "")%string
  | JArr l => match l with [] => false | _ => true end
  | JObj l => match l with [] => false | _ => true end
  end.

(** Truncation of the finite float [m * 2^e] towards zero. *)
Definition float_trunc (m e : Z) : Z :=
  if 0 <=? e then m * 2 ^ e else Z.quot m (2 ^ (- e)).

Definition float_is_integer (m e : Z) : bool :=
  (0 <=? e) || (Z.rem m (2 ^ (- e)) =? 0).

(** The integer a JSON scalar compares equal to under Python's [==], if
    any ([True == 1], [2.0 == 2]). *)
Definition as_int (v : json) : option Z :=
  match v with
  | JBool b => Some (if b then 1 else 0)
  | JInt z => Some z
  | JFloat (FFinite m e) =>
      if float_is_integer m e then Some (float_trunc m e) else None
  | _ => None
  end.

Definition hashable (v : json) : bool :=
  match v with
  | JArr _ | JObj _ => false
  | _ => true
  end.

Fixpoint lookup (key : string) (l : list (string * json)) : option json :=
  match l with
  | [] => None
  | (k, v) :: l' => if (k =? key)%string then Some v else lookup key l'
  end.

Fixpoint str_contains (needle hay : string) : bool :=
  String.prefix needle hay ||
  match hay with
  | EmptyString => false
  | String _ hay' => str_contains needle hay'
  end.

(** [request.get_json(silent=True) or {}]; [None] stands for a body that
    is absent or does not parse. *)
Definition get_json_or_empty (body : option json) : json :=
  match body with
  | Some v => if truthy v then v else JObj []
  | None => JObj []
  end.

(** [data.get(key, default)]: only a dict has the method. *)
Definition py_get (data : json) (key : string) (default : json) : exn + json :=
  match data with
  | JObj l => inr (match lookup key l with Some v => v | None => default end)
  | _ => inl AttributeError
  end.

(** [key in data] for a string [key]. *)
Definition py_in (key : string) (data : json) : exn + bool :=
  match data with
  | JObj l => inr (match lookup key l with Some _ => true | None => false end)
  | JArr l =>
      inr (existsb (fun v => match v with
                             | JStr s => (s =? key)%string
                             | _ => false
                             end) l)
  | JStr s => inr (str_contains key s)
  | _ => inl TypeError
  end.

(** [data[key]] for a string [key]. *)
Definition py_getitem (data : json) (key : string) : exn + json :=
  match data with
  | JObj l => match lookup key l with Some v => inr v | None => inl KeyError end
  | _ => inl TypeError
  end.

(** [all(f in data for f in fields)] and [any(...)], both short-circuiting
    in iteration order. *)
Fixpoint py_all_in (fields : list string) (data : json) : exn + bool :=
  match fields with
  | [] => inr true
  | f :: rest =>
      match py_in f data with
      | inl e => inl e
      | inr true => py_all_in rest data
      | inr false => inr false
      end
  end.

Fixpoint py_any_in (fields : list string) (data : json) : exn + bool :=
  match fields with
  | [] => inr false
  | f :: rest =>
      match py_in f data with
      | inl e => inl e
      | inr true => inr true
      | inr false => py_any_in rest data
      end
  end.

Definition lower_ascii (c : ascii) : ascii :=
  let n := N_of_ascii c in
  if ((65 <=? n) && (n <=? 90))%N then ascii_of_N (n + 32) else c.

Fixpoint lower (s : string) : string :=
  match s with
  | EmptyString => EmptyString
  | String c s' => String (lower_ascii c) (lower s')
  end.

(** A plain signed-decimal reader, used as a sample string parser when the
    model is run on concrete requests. *)
Fixpoint digits_value (s : string) (acc : Z) : option Z :=
  match s with
  | EmptyString => Some acc
  | String c s' =>
      let n := N_of_ascii c in
      if ((48 <=? n) && (n <=? 57))%N
      then digits_value s' (10 * acc + Z.of_N (n - 48))
      else None
  end.

Definition decimal_of_string (s : string) : option Z :=
  match s with
  | EmptyString => None
  | String "-"%char (String c s') =>
      option_map Z.opp (digits_value (String c s') 0)
  | String "+"%char (String c s') => digits_value (String c s') 0
  | _ => digits_value s 0
  end.

(* ------------------------------------------------------------------ *)
(** ** Tasks, the store and its dict operations *)

Record todo : Type := mkTodo {
  id : Z;
  title : json;
  is_done : bool;
  priority : Z;
  position : Z
}.

Definition set_title (v : json) (t : todo) : todo :=
  mkTodo (id t) v (is_done t) (priority t) (position t).
Definition set_is_done (b : bool) (t : todo) : todo :=
  mkTodo (id t) (title t) b (priority t) (position t).
Definition set_priority (p : Z) (t : todo) : todo :=
  mkTodo (id t) (title t) (is_done t) p (position t).
Definition set_position (p : Z) (t : todo) : todo :=
  mkTodo (id t) (title t) (is_done t) (priority t) p.

(** A Python dict with integer keys, as its entries in insertion order.
    Keys of a dict are unique; that is the representation invariant
    [NoDup (keys d)]. *)
Definition dict : Type := list (Z * todo).

Definition keys (d : dict) : list Z := map fst d.
Definition values (d : dict) : list todo := map snd d.

Fixpoint dict_get (k : Z) (d : dict) : option todo :=
  match d with
  | [] => None
  | (k', v) :: d' => if k' =? k then Some v else dict_get k d'
  end.

(** [d[k] = v]: an existing key keeps its place, a new key goes last. *)
Fixpoint dict_set (k : Z) (v : todo) (d : dict) : dict :=
  match d with
  | [] => [(k, v)]
  | (k', v') :: d' =>
      if k' =? k then (k', v) :: d' else (k', v') :: dict_set k v d'
  end.

(** [d.pop(k, None)] as the remaining dict. *)
Fixpoint dict_pop (k : Z) (d : dict) : dict :=
  match d with
  | [] => []
  | (k', v') :: d' => if k' =? k then d' else (k', v') :: dict_pop k d'
  end.

(** In-place mutation of the task object stored under [k]: task objects
    are shared between the dict and the local variables that name them
    ([existing], [t]), so an assignment to a field of such a variable is an
    update of the entry it came from. *)
Fixpoint dict_update (k : Z) (f : todo -> todo) (d : dict) : dict :=
  match d with
  | [] => []
  | (k', v') :: d' =>
      if k' =? k then (k', f v') :: d' else (k', v') :: dict_update k f d'
  end.

Record state : Type := mkState {
  TODOS : dict;
  NEXT_ID : Z
}.

Definition initial_state : state := mkState [] 1.

(* ------------------------------------------------------------------ *)
(** ** Responses *)

Inductive error_msg : Type :=
| TodoNotFound
| TitleRequired
| ItemsMustBeList
| FieldsRequired
| IsDoneRequired
| AtLeastOneRequired
| OrderMustBeList
| UnknownIds (missing : list json).

Inductive payload : Type :=
| PHealth
| PTodo (t : todo)
| PTodos (l : list todo)
| PCreated (created : list todo) (count : Z)
| PDeletedId (deleted_id : Z)
| PDeletedIds (deleted_ids : list Z) (completed_only : bool)
| PError (e : error_msg).

(** What a handler returns: [jsonify(body), status]. *)
Definition response : Type := (payload * Z)%type.

(* ------------------------------------------------------------------ *)
(** ** The handler monad *)

Definition M (A : Type) : Type := state -> (exn + A) * state.

Definition ret {A} (a : A) : M A := fun s => (inr a, s).

Definition bind {A B} (m : M A) (f : A -> M B) : M B :=
  fun s =>
    match m s with
    | (inl e, s') => (inl e, s')
    | (inr a, s') => f a s'
    end.

Definition lift {A} (r : exn + A) : M A := fun s => (r, s).

Definition get_TODOS : M dict := fun s => (inr (TODOS s), s).
Definition get_NEXT_ID : M Z := fun s => (inr (NEXT_ID s), s).
Definition modify_TODOS (f : dict -> dict) : M unit :=
  fun s => (inr tt, mkState (f (TODOS s)) (NEXT_ID s)).
Definition set_NEXT_ID (n : Z) : M unit :=
  fun s => (inr tt, mkState (TODOS s) n).

Declare Scope handler_scope.
Delimit Scope handler_scope with handler.
Notation "x <- c1 ;; c2" := (bind c1 (fun x => c2))
  (at level 100, c1 at next level, right associativity) : handler_scope.
Notation "c1 ;; c2" := (bind c1 (fun _ => c2))
  (at level 100, right associativity) : handler_scope.
Open Scope handler_scope.

(** The task object currently stored under [k] ([TODOS[k]]). *)
Definition deref (k : Z) : M todo :=
  d <- get_TODOS ;;
  match dict_get k d with
  | Some t => ret t
  | None => lift (inl KeyError)
  end.

(* ------------------------------------------------------------------ *)
(** ** Sorting by position

    [list.sort] and [sorted] are stable; so is this insertion sort. *)

Fixpoint insert_by_position (x : todo) (l : list todo) : list todo :=
  match l with
  | [] => [x]
  | y :: l' =>
      if position x <=? position y then x :: y :: l'
      else y :: insert_by_position x l'
  end.

Definition sort_by_position (l : list todo) : list todo :=
  fold_right insert_by_position [] l.

(* ------------------------------------------------------------------ *)
(** ** The route handlers *)

Inductive field : Type := F_title | F_is_done | F_priority.

Definition field_name (f : field) : string :=
  match f with
  | F_title => "title"
  | F_is_done => "is_done"
  | F_priority => "priority"
  end.

Definition required_fields : list string := ["title"; "is_done"; "priority"].

(** [tid in TODOS] for a JSON value [tid]: hashing a list or a dict
    raises. *)
Definition py_in_dict (tid : json) (d : dict) : exn + bool :=
  if hashable tid then
    inr (match as_int tid with
         | Some k => match dict_get k d with Some _ => true | None => false end
         | None => false
         end)
  else inl TypeError.

(** [k in order] for an integer [k]: list membership compares with [==]
    and never raises. *)
Definition py_in_list (k : Z) (order : list json) : bool :=
  existsb (fun v => match as_int v with
                    | Some z => z =? k
                    | None => false
                    end) order.

(** [missing = [tid for tid in order if tid not in TODOS]] *)
Fixpoint missing_ids (order : list json) (d : dict) : exn + list json :=
  match order with
  | [] => inr []
  | tid :: rest =>
      match py_in_dict tid d with
      | inl e => inl e
      | inr present =>
          match missing_ids rest d with
          | inl e => inl e
          | inr m => inr (if present then m else tid :: m)
          end
      end
  end.

(** [TODOS[tid]["position"] = idx] *)
Definition assign_position (tid : json) (idx : Z) : M unit :=
  d <- get_TODOS ;;
  if hashable tid then
    match as_int tid with
    | Some k =>
        match dict_get k d with
        | Some _ => modify_TODOS (dict_update k (set_position idx))
        | None => lift (inl KeyError)
        end
    | None => lift (inl KeyError)
    end
  else lift (inl TypeError).

(** [for idx, tid in enumerate(order, start=idx): ...] *)
Fixpoint apply_order (order : list json) (idx : Z) : M unit :=
  match order with
  | [] => ret tt
  | tid :: rest => assign_position tid idx ;; apply_order rest (idx + 1)
  end.

(** [remaining = [t for t in TODOS.values() if t["id"] not in order]],
    each task object named by the key it is stored under. *)
Definition remaining_of (order : list json) (d : dict) : list Z :=
  keys (filter (fun e => negb (py_in_list (id (snd e)) order)) d).

(** [for t in remaining: t["position"] = current_pos; current_pos += 1] *)
Fixpoint assign_remaining (remaining : list Z) (current_pos : Z) : M unit :=
  match remaining with
  | [] => ret tt
  | k :: rest =>
      modify_TODOS (dict_update k (set_position current_pos)) ;;
      assign_remaining rest (current_pos + 1)
  end.

Definition health_check : M response := ret (PHealth, 200).

Definition list_todos (status_arg : option string) : M response :=
  let status := match status_arg with Some s => s | None => "all" end in
  d <- get_TODOS ;;
  let todos := values d in
  let todos :=
    if (status =? "open")%string then filter (fun t => negb (is_done t)) todos
    else if (status =? "done")%string then filter (fun t => is_done t) todos
    else todos in
  ret (PTodos (sort_by_position todos), 200).

Definition get_todo_or_404 (todo_id : Z) : M (response + todo) :=
  d <- get_TODOS ;;
  match dict_get todo_id d with
  | Some t => ret (inr t)
  | None => ret (inl (PError TodoNotFound, 404))
  end.

Definition reorder_todos (body : option json) : M response :=
  let data := get_json_or_empty body in
  order <- lift (py_get data "order" JNull) ;;
  match order with
  | JArr order =>
      d <- get_TODOS ;;
      missing <- lift (missing_ids order d) ;;
      match missing with
      | _ :: _ => ret (PError (UnknownIds missing), 400)
      | [] =>
          apply_order order 1 ;;
          d <- get_TODOS ;;
          let remaining := remaining_of order d in
          assign_remaining remaining (Z.of_nat (List.length order) + 1) ;;
          d <- get_TODOS ;;
          ret (PTodos (sort_by_position (values d)), 200)
      end
  | _ => ret (PError OrderMustBeList, 400)
  end.

Definition delete_todo (todo_id : Z) : M response :=
  d <- get_TODOS ;;
  modify_TODOS (dict_pop todo_id) ;;
  match dict_get todo_id d with
  | None => ret (PError TodoNotFound, 404)
  | Some _ => ret (PDeletedId todo_id, 200)
  end.

Definition completed_only_flag (arg : option string) : bool :=
  (lower (match arg with Some s => s | None => "false" end) =? "true")%string.

Fixpoint pop_all (ks : list Z) : M unit :=
  match ks with
  | [] => ret tt
  | k :: rest => modify_TODOS (dict_pop k) ;; pop_all rest
  end.

Definition delete_many_todos (arg : option string) : M response :=
  if completed_only_flag arg then
    d <- get_TODOS ;;
    let to_delete := keys (filter (fun e => is_done (snd e)) d) in
    pop_all to_delete ;;
    ret (PDeletedIds to_delete true, 200)
  else
    d <- get_TODOS ;;
    let deleted_ids := keys d in
    modify_TODOS (fun _ => []) ;;
    ret (PDeletedIds deleted_ids false, 200).

Definition put_todo_status (todo_id : Z) (body : option json) : M response :=
  existing <- get_todo_or_404 todo_id ;;
  match existing with
  | inl resp => ret resp
  | inr _ =>
      let data := get_json_or_empty body in
      present <- lift (py_in "is_done" data) ;;
      if negb present then ret (PError IsDoneRequired, 400)
      else
        v <- lift (py_getitem data "is_done") ;;
        modify_TODOS (dict_update todo_id (set_is_done (truthy v))) ;;
        existing <- deref todo_id ;;
        modify_TODOS (dict_set todo_id existing) ;;
        ret (PTodo existing, 200)
  end.

Section WithIntOfStr.

(** [int(s)] for a string [s] is the interpreter's; [None] stands for its
    [ValueError]. *)
Variable int_of_str : string -> option Z.

(** [int(v)] *)
Definition py_int (v : json) : exn + Z :=
  match v with
  | JNull => inl TypeError
  | JBool b => inr (if b then 1 else 0)
  | JInt z => inr z
  | JFloat FNan => inl ValueError
  | JFloat (FInf _) => inl OverflowError
  | JFloat (FFinite m e) => inr (float_trunc m e)
  | JStr s => match int_of_str s with Some z => inr z | None => inl ValueError end
  | JArr _ => inl TypeError
  | JObj _ => inl TypeError
  end.

Definition make_todo (title_ is_done_ priority_ : json) : M todo :=
  todo_id <- get_NEXT_ID ;;
  set_NEXT_ID (todo_id + 1) ;;
  p <- lift (py_int priority_) ;;
  ret (mkTodo todo_id title_ (truthy is_done_) p todo_id).

Definition create_todo (body : option json) : M response :=
  let data := get_json_or_empty body in
  title_ <- lift (py_get data "title" JNull) ;;
  if negb (truthy title_) then ret (PError TitleRequired, 400)
  else
    is_done_ <- lift (py_get data "is_done" (JBool false)) ;;
    priority_ <- lift (py_get data "priority" (JInt 1)) ;;
    todo <- make_todo title_ is_done_ priority_ ;;
    modify_TODOS (dict_set (id todo) todo) ;;
    ret (PTodo todo, 201).

(** The loop of [create_todos_bulk]; [created] is kept in reverse. *)
Fixpoint bulk_loop (items : list json) (created : list todo) : M (list todo) :=
  match items with
  | [] => ret (rev created)
  | item :: rest =>
      title_ <- lift (py_get item "title" JNull) ;;
      if negb (truthy title_) then bulk_loop rest created
      else
        is_done_ <- lift (py_get item "is_done" (JBool false)) ;;
        priority_ <- lift (py_get item "priority" (JInt 1)) ;;
        todo <- make_todo title_ is_done_ priority_ ;;
        modify_TODOS (dict_set (id todo) todo) ;;
        bulk_loop rest (todo :: created)
  end.

Definition create_todos_bulk (body : option json) : M response :=
  let data := get_json_or_empty body in
  items <- lift (py_get data "items" JNull) ;;
  match items with
  | JArr items =>
      created <- bulk_loop items [] ;;
      ret (PCreated created (Z.of_nat (List.length created)), 201)
  | _ => ret (PError ItemsMustBeList, 400)
  end.

Definition replace_todo (todo_id : Z) (body : option json) : M response :=
  existing <- get_todo_or_404 todo_id ;;
  match existing with
  | inl resp => ret resp
  | inr existing =>
      let data := get_json_or_empty body in
      ok <- lift (py_all_in required_fields data) ;;
      if negb ok then ret (PError FieldsRequired, 400)
      else
        let position_ := position existing in
        title_ <- lift (py_getitem data "title") ;;
        is_done_ <- lift (py_getitem data "is_done") ;;
        priority_ <- lift (py_getitem data "priority") ;;
        p <- lift (py_int priority_) ;;
        let updated := mkTodo todo_id title_ (truthy is_done_) p position_ in
        modify_TODOS (dict_set todo_id updated) ;;
        ret (PTodo updated, 200)
  end.

(** The loop [for field in allowed_fields: ...] of [patch_todo].
    [allowed_fields] is a set of strings, so the order in which the loop
    visits the three names is the interpreter's choice: it is an argument
    here. *)
Fixpoint patch_loop (fields : list field) (todo_id : Z) (data : json) : M unit :=
  match fields with
  | [] => ret tt
  | f :: rest =>
      present <- lift (py_in (field_name f) data) ;;
      (if present then
         v <- lift (py_getitem data (field_name f)) ;;
         match f with
         | F_is_done =>
             modify_TODOS (dict_update todo_id (set_is_done (truthy v)))
         | F_priority =>
             p <- lift (py_int v) ;;
             modify_TODOS (dict_update todo_id (set_priority p))
         | F_title =>
             modify_TODOS (dict_update todo_id (set_title v))
         end
       else ret tt) ;;
      patch_loop rest todo_id data
  end.

Definition patch_todo (allowed_fields : list field) (todo_id : Z)
    (body : option json) : M response :=
  existing <- get_todo_or_404 todo_id ;;
  match existing with
  | inl resp => ret resp
  | inr _ =>
      let data := get_json_or_empty body in
      some <- lift (py_any_in (map field_name allowed_fields) data) ;;
      if negb some then ret (PError AtLeastOneRequired, 400)
      else
        patch_loop allowed_fields todo_id data ;;
        existing <- deref todo_id ;;
        modify_TODOS (dict_set todo_id existing) ;;
        ret (PTodo existing, 200)
  end.

(** *** The service as a whole *)

Inductive request : Type :=
| GET_health
| GET_todos (status : option string)
| POST_todos (body : option json)
| POST_todos_bulk (body : option json)
| PUT_todo (todo_id : Z) (body : option json)
| PUT_todo_status (todo_id : Z) (body : option json)
| PATCH_todo (allowed_fields : list field) (todo_id : Z) (body : option json)
| PATCH_todos_reorder (body : option json)
| DELETE_todo (todo_id : Z)
| DELETE_todos (completed_only : option string).

Definition handle (r : request) : M response :=
  match r with
  | GET_health => health_check
  | GET_todos status => list_todos status
  | POST_todos body => create_todo body
  | POST_todos_bulk body => create_todos_bulk body
  | PUT_todo k body => replace_todo k body
  | PUT_todo_status k body => put_todo_status k body
  | PATCH_todo fs k body => patch_todo fs k body
  | PATCH_todos_reorder body => reorder_todos body
  | DELETE_todo k => delete_todo k
  | DELETE_todos arg => delete_many_todos arg
  end.

(** Requests are served one after the other on the same globals; a handler
    that raises answers nothing (the framework turns it into a 500) and the
    globals stay as the handler left them. *)
Fixpoint serve (rs : list request) (s : state) : list (exn + response) * state :=
  match rs with
  | [] => ([], s)
  | r :: rest =>
      let (out, s') := handle r s in
      let (outs, s'') := serve rest s' in
      (out :: outs, s'')
  end.

End WithIntOfStr.

(* ------------------------------------------------------------------ *)
(** * Properties *)

(** The store invariant: dict keys are unique and every task is stored
    under its own id. *)
Definition store_ok (d : dict) : Prop :=
  NoDup (keys d) /\ Forall (fun e => id (snd e) = fst e) d.

(** [zseq a n] is [a; a+1; ...; a+n-1]. *)
Fixpoint zseq (a : Z) (n : nat) : list Z :=
  match n with
  | O => []
  | S n' => a :: zseq (a + 1) n'
  end.

Definition by_position (a b : todo) : Prop := position a <= position b.

Ltac break_match :=
  match goal with
  | |- context [match ?x with _ => _ end] =>
      lazymatch x with
      | context [match _ with _ => _ end] => fail
      | _ => destruct x eqn:?
      end
  end.

Ltac run :=
  repeat progress
    (unfold bind, ret, lift, deref, get_TODOS, get_NEXT_ID, modify_TODOS,
       set_NEXT_ID; simpl).

(** ** Dict lemmas *)

Lemma dict_get_In k d t : dict_get k d = Some t -> In (k, t) d.
Proof.
  induction d as [|[k' v] d IH]; simpl; [discriminate|].
  destruct (Z.eqb_spec k' k); intros H.
  - inversion H; subst; now left.
  - right; auto.
Qed.

Lemma dict_get_None k d : dict_get k d = None <-> ~ In k (keys d).
Proof.
  induction d as [|[k' v] d IH]; simpl; [tauto|].
  destruct (Z.eqb_spec k' k); [|tauto].
  split; intros H; [discriminate|]. exfalso; apply H; now left.
Qed.

Lemma dict_get_Some_keys k d : In k (keys d) -> exists t, dict_get k d = Some t.
Proof.
  intros H. destruct (dict_get k d) eqn:E; eauto.
  apply dict_get_None in E; contradiction.
Qed.

Lemma In_dict_get k t d : NoDup (keys d) -> In (k, t) d -> dict_get k d = Some t.
Proof.
  induction d as [|[k' v] d IH]; simpl; [tauto|].
  intros Hnd [H|H]; inversion Hnd; subst.
  - inversion H; subst. now rewrite Z.eqb_refl.
  - destruct (Z.eqb_spec k' k); auto. subst.
    exfalso. apply H2. change k with (fst (k, t)). now apply in_map.
Qed.

Lemma keys_dict_update k f d : keys (dict_update k f d) = keys d.
Proof.
  induction d as [|[k' v] d IH]; simpl; auto.
  destruct (k' =? k); simpl; congruence.
Qed.

Lemma dict_get_update k' k f d :
  dict_get k' (dict_update k f d) =
  if k' =? k then option_map f (dict_get k d) else dict_get k' d.
Proof.
  induction d as [|[k0 v] d IH]; simpl.
  - now destruct (k' =? k).
  - destruct (Z.eqb_spec k0 k); simpl; subst.
    + destruct (Z.eqb_spec k k'); subst.
      * now rewrite Z.eqb_refl.
      * destruct (Z.eqb_spec k' k); congruence.
    + destruct (Z.eqb_spec k0 k'); subst; auto.
      destruct (Z.eqb_spec k' k); congruence.
Qed.

Lemma keys_dict_set_present k v d :
  In k (keys d) -> keys (dict_set k v d) = keys d.
Proof.
  induction d as [|[k' v'] d IH]; simpl; [tauto|].
  destruct (Z.eqb_spec k' k); simpl; intros H; [reflexivity|].
  destruct H; [contradiction|]. now rewrite IH.
Qed.

Lemma dict_set_absent k v d :
  ~ In k (keys d) -> dict_set k v d = d ++ [(k, v)].
Proof.
  induction d as [|[k' v'] d IH]; simpl; intros H; auto.
  destruct (Z.eqb_spec k' k); [exfalso; apply H; now left|].
  rewrite IH; auto.
Qed.

Lemma dict_get_set k' k v d :
  dict_get k' (dict_set k v d) = if k' =? k then Some v else dict_get k' d.
Proof.
  induction d as [|[k0 v0] d IH]; simpl.
  - rewrite (Z.eqb_sym k k'). now destruct (k' =? k).
  - destruct (Z.eqb_spec k0 k); simpl; subst.
    + destruct (Z.eqb_spec k k'); subst.
      * now rewrite Z.eqb_refl.
      * destruct (Z.eqb_spec k' k); congruence.
    + destruct (Z.eqb_spec k0 k'); subst; auto.
      destruct (Z.eqb_spec k' k); congruence.
Qed.

Lemma dict_set_same k t d : dict_get k d = Some t -> dict_set k t d = d.
Proof.
  induction d as [|[k' v'] d IH]; simpl; [discriminate|].
  destruct (Z.eqb_spec k' k); intros H.
  - now inversion H.
  - now rewrite IH.
Qed.

Lemma dict_update_as_set k f t d :
  dict_get k d = Some t -> dict_update k f d = dict_set k (f t) d.
Proof.
  induction d as [|[k' v'] d IH]; simpl; [discriminate|].
  destruct (Z.eqb_spec k' k); intros H.
  - now inversion H.
  - now rewrite IH.
Qed.

Lemma dict_pop_absent k d : ~ In k (keys d) -> dict_pop k d = d.
Proof.
  induction d as [|[k' v'] d IH]; simpl; intros H; auto.
  destruct (Z.eqb_spec k' k); [exfalso; apply H; now left|].
  rewrite IH; auto.
Qed.

Lemma keys_filter_incl p (d : dict) : incl (keys (filter p d)) (keys d).
Proof.
  intros k H. unfold keys in *. apply in_map_iff in H as [e [<- He]].
  apply filter_In in He as [He _]. now apply in_map.
Qed.

(** ** Sorting lemmas *)

Lemma insert_by_position_perm x l :
  Permutation (x :: l) (insert_by_position x l).
Proof.
  induction l as [|y l IH]; simpl; auto.
  destruct (position x <=? position y); auto.
  rewrite perm_swap. now constructor.
Qed.

Lemma sort_by_position_perm l : Permutation l (sort_by_position l).
Proof.
  induction l as [|x l IH]; simpl; auto.
  rewrite <- insert_by_position_perm. now constructor.
Qed.

Lemma insert_by_position_sorted x l :
  Sorted by_position l -> Sorted by_position (insert_by_position x l).
Proof.
  induction 1 as [|y l Hs IH Hhd]; simpl.
  - repeat constructor.
  - destruct (Z.leb_spec (position x) (position y)).
    + repeat constructor; auto.
    + constructor; auto.
      destruct l as [|z l]; simpl in *.
      * constructor. unfold by_position; lia.
      * destruct (Z.leb_spec (position x) (position z));
          constructor; unfold by_position; try lia.
        now inversion Hhd.
Qed.

Lemma sort_by_position_sorted l : Sorted by_position (sort_by_position l).
Proof.
  induction l; simpl; [constructor | now apply insert_by_position_sorted].
Qed.

(** ** Listing *)

(** [list_todos] read as a pure function of the store. *)
Lemma list_todos_run status s :
  list_todos status s =
  (inr (PTodos (sort_by_position
          (let todos := values (TODOS s) in
           let st := match status with Some x => x | None => "all" end in
           if (st =? "open")%string
           then filter (fun t => negb (is_done t)) todos
           else if (st =? "done")%string
                then filter (fun t => is_done t) todos
                else todos)), 200), s).
Proof. reflexivity. Qed.


(** ** Bulk deletion *)

Definition pop_keys (ks : list Z) (d : dict) : dict :=
  fold_left (fun d k => dict_pop k d) ks d.

Lemma pop_all_run ks s :
  pop_all ks s = (inr tt, mkState (pop_keys ks (TODOS s)) (NEXT_ID s)).
Proof.
  revert s. induction ks as [|k ks IH]; intros [d n]; simpl; [reflexivity|].
  run. now rewrite IH.
Qed.

Lemma pop_keys_skip ks k v d :
  ~ In k ks -> pop_keys ks ((k, v) :: d) = (k, v) :: pop_keys ks d.
Proof.
  revert d. induction ks as [|k' ks IH]; intros d H; simpl; [reflexivity|].
  destruct (Z.eqb_spec k k'); [exfalso; apply H; now left|].
  apply IH. intros Hin; apply H; now right.
Qed.

Lemma pop_keys_filter p d :
  NoDup (keys d) ->
  pop_keys (keys (filter p d)) d = filter (fun e => negb (p e)) d.
Proof.
  induction d as [|[k v] d IH]; simpl; intros Hnd; [reflexivity|].
  inversion Hnd as [|? ? Hk Hd]; subst.
  destruct (p (k, v)); simpl.
  - rewrite Z.eqb_refl. now apply IH.
  - rewrite pop_keys_skip; [now rewrite IH|].
    intros Hin. apply Hk. now apply (keys_filter_incl p).
Qed.

Lemma store_ok_ids d : store_ok d -> map id (values d) = keys d.
Proof.
  intros [_ H]. unfold values, keys. rewrite map_map.
  induction H; simpl; congruence.
Qed.

Lemma store_ok_filter p d : store_ok d -> store_ok (filter p d).
Proof.
  intros [Hnd Hid]. split.
  - clear Hid. induction d as [|e d IH]; simpl; [constructor|].
    inversion Hnd; subst. destruct (p e); simpl; auto.
    constructor; auto. intros Hin. now apply keys_filter_incl in Hin.
  - apply Forall_forall. intros e He. apply filter_In in He as [He _].
    rewrite Forall_forall in Hid. auto.
Qed.

Lemma values_filter (p : todo -> bool) (d : dict) :
  values (filter (fun e => p (snd e)) d) = filter p (values d).
Proof.
  induction d as [|e d IH]; simpl; auto.
  destruct (p (snd e)); simpl; congruence.
Qed.

(** C8.  [delete_many_todos] always answers 200.  With the flag set it
    removes exactly the tasks with [is_done = true] and returns their ids;
    what is left are the other entries of the store, untouched and in their
    order.  Without the flag it empties the store and returns every id it
    held.  On an empty store the result is empty.  The id counter is not
    touched. *)
Theorem delete_many_todos_spec (arg : option string) (s : state) :
  store_ok (TODOS s) ->
  exists deleted d',
    delete_many_todos arg s =
      (inr (PDeletedIds deleted (completed_only_flag arg), 200),
       mkState d' (NEXT_ID s))
    /\ (completed_only_flag arg = true ->
        deleted = map id (filter (fun t => is_done t) (values (TODOS s)))
        /\ d' = filter (fun e => negb (is_done (snd e))) (TODOS s))
    /\ (completed_only_flag arg = false ->
        deleted = map id (values (TODOS s)) /\ d' = [])
    /\ (TODOS s = [] -> deleted = [] /\ d' = []).
Proof.
  intros Hok. unfold delete_many_todos.
  destruct (completed_only_flag arg) eqn:Hflag.
  - exists (keys (filter (fun e => is_done (snd e)) (TODOS s))),
      (filter (fun e => negb (is_done (snd e))) (TODOS s)).
    split.
    + run. rewrite pop_all_run. simpl.
      rewrite pop_keys_filter by apply Hok. reflexivity.
    + split; [|split].
      * intros _. split; [|reflexivity].
        rewrite <- values_filter.
        symmetry. apply store_ok_ids. now apply store_ok_filter.
      * discriminate.
      * intros ->. now simpl.
  - exists (keys (TODOS s)), []. split; [reflexivity|].
    split; [discriminate|]. split.
    + intros _. split; [|reflexivity]. symmetry. now apply store_ok_ids.
    + intros ->. now simpl.
Qed.

(** ** Reorder: validation *)

(** Whether a value of [order] is the id of a task of the store. *)
Definition id_exists (tid : json) (d : dict) : bool :=
  match as_int tid with
  | Some k => existsb (Z.eqb k) (keys d)
  | None => false
  end.

Lemma dict_get_existsb k d :
  match dict_get k d with Some _ => true | None => false end =
  existsb (Z.eqb k) (keys d).
Proof.
  induction d as [|[k' v] d IH]; simpl; [reflexivity|].
  rewrite (Z.eqb_sym k k'). destruct (k' =? k); simpl; auto.
Qed.

Lemma py_in_dict_hashable tid d :
  hashable tid = true -> py_in_dict tid d = inr (id_exists tid d).
Proof.
  intros H. unfold py_in_dict, id_exists. rewrite H.
  destruct (as_int tid); [|reflexivity]. now rewrite dict_get_existsb.
Qed.

Lemma missing_ids_hashable order d :
  forallb hashable order = true ->
  missing_ids order d = inr (filter (fun tid => negb (id_exists tid d)) order).
Proof.
  induction order as [|tid order IH]; simpl; [reflexivity|].
  intros H. apply andb_prop in H as [Ht Ho].
  rewrite py_in_dict_hashable, IH by assumption.
  now destruct (id_exists tid d).
Qed.

(** C1.  When some id of [order] is not in the store, [reorder_todos]
    answers 400 with the list of all the unknown ids of [order], and the
    state it returns is the state it was given: no position and no other
    field of any task has changed. *)
Theorem reorder_unknown_ids_rejected
    (body : option json) (order : list json) (s : state) :
  py_get (get_json_or_empty body) "order" JNull = inr (JArr order) ->
  forallb hashable order = true ->
  existsb (fun tid => negb (id_exists tid (TODOS s))) order = true ->
  exists missing,
    missing = filter (fun tid => negb (id_exists tid (TODOS s))) order
    /\ missing <> []
    /\ reorder_todos body s = (inr (PError (UnknownIds missing), 400), s).
Proof.
  intros Hbody Hhash Hsome. eexists. split; [reflexivity|].
  assert (Hne : filter (fun tid => negb (id_exists tid (TODOS s))) order <> []).
  { apply existsb_exists in Hsome as [tid [Hin Ht]].
    intros E. assert (Hf : In tid (filter (fun tid => negb (id_exists tid (TODOS s))) order))
      by (apply filter_In; auto).
    rewrite E in Hf. destruct Hf. }
  split; [assumption|].
  unfold reorder_todos. run. rewrite Hbody. simpl.
  rewrite missing_ids_hashable by assumption.
  destruct (filter _ order); [congruence|reflexivity].
Qed.

(** ** Creation *)

(** The fields of an item as [item.get(...)] reads them. *)
Definition item_title (o : list (string * json)) : json :=
  match lookup "title" o with Some v => v | None => JNull end.
Definition item_is_done (o : list (string * json)) : json :=
  match lookup "is_done" o with Some v => v | None => JBool false end.
Definition item_priority (o : list (string * json)) : json :=
  match lookup "priority" o with Some v => v | None => JInt 1 end.

(** Insertion of freshly made tasks, one [TODOS[todo["id"]] = todo] each. *)
Definition store_all (new : list todo) (d : dict) : dict :=
  fold_left (fun d t => dict_set (id t) t d) new d.

Lemma zseq_length a n : List.length (zseq a n) = n.
Proof. revert a; induction n; simpl; auto. Qed.

Lemma zseq_In a n x : In x (zseq a n) <-> a <= x < a + Z.of_nat n.
Proof.
  revert a. induction n as [|n IH]; intros a; simpl; [lia|].
  rewrite IH. lia.
Qed.

Lemma zseq_app a n m : zseq a (n + m) = zseq a n ++ zseq (a + Z.of_nat n) m.
Proof.
  revert a. induction n as [|n IH]; intros a.
  - simpl. now rewrite Z.add_0_r.
  - cbn [Nat.add zseq app]. rewrite IH. do 3 f_equal. lia.
Qed.

Lemma zseq_sorted a n : StronglySorted Z.lt (zseq a n).
Proof.
  revert a. induction n as [|n IH]; intros a; simpl; constructor; auto.
  apply Forall_forall. intros x Hx. apply zseq_In in Hx. lia.
Qed.

Section Creation.

Variable int_of_str : string -> option Z.


Lemma make_todo_run title_ is_done_ priority_ s :
  make_todo int_of_str title_ is_done_ priority_ s =
  match py_int int_of_str priority_ with
  | inr p =>
      (inr (mkTodo (NEXT_ID s) title_ (truthy is_done_) p (NEXT_ID s)),
       mkState (TODOS s) (NEXT_ID s + 1))
  | inl e => (inl e, mkState (TODOS s) (NEXT_ID s + 1))
  end.
Proof. unfold make_todo. run. now destruct (py_int int_of_str priority_). Qed.

Lemma create_todo_run body o s :
  get_json_or_empty body = JObj o ->
  create_todo int_of_str body s =
  if truthy (item_title o) then
    match py_int int_of_str (item_priority o) with
    | inr p =>
        let t := mkTodo (NEXT_ID s) (item_title o)
                   (truthy (item_is_done o)) p (NEXT_ID s) in
        (inr (PTodo t, 201),
         mkState (dict_set (NEXT_ID s) t (TODOS s)) (NEXT_ID s + 1))
    | inl e => (inl e, mkState (TODOS s) (NEXT_ID s + 1))
    end
  else (inr (PError TitleRequired, 400), s).
Proof.
  intros Hb. unfold create_todo. rewrite Hb.
  unfold bind at 1. unfold lift at 1. cbn [py_get].
  fold (item_title o). destruct (truthy (item_title o)); [|reflexivity].
  cbn [negb]. unfold bind at 1. unfold lift at 1. cbn [py_get].
  unfold bind at 1. unfold lift at 1. cbn [py_get].
  fold (item_is_done o) (item_priority o).
  unfold bind at 1. rewrite make_todo_run.
  destruct (py_int int_of_str (item_priority o)); reflexivity.
Qed.

Lemma bulk_loop_step o items created s :
  bulk_loop int_of_str (JObj o :: items) created s =
  if truthy (item_title o) then
    match py_int int_of_str (item_priority o) with
    | inr p =>
        let t := mkTodo (NEXT_ID s) (item_title o)
                   (truthy (item_is_done o)) p (NEXT_ID s) in
        bulk_loop int_of_str items (t :: created)
          (mkState (dict_set (NEXT_ID s) t (TODOS s)) (NEXT_ID s + 1))
    | inl e => (inl e, mkState (TODOS s) (NEXT_ID s + 1))
    end
  else bulk_loop int_of_str items created s.
Proof.
  cbn [bulk_loop].
  unfold bind at 1. unfold lift at 1. cbn [py_get].
  fold (item_title o). destruct (truthy (item_title o)); [|reflexivity].
  cbn [negb]. unfold bind at 1. unfold lift at 1. cbn [py_get].
  unfold bind at 1. unfold lift at 1. cbn [py_get].
  fold (item_is_done o) (item_priority o).
  unfold bind at 1. rewrite make_todo_run.
  destruct (py_int int_of_str (item_priority o)); reflexivity.
Qed.

(** Whether [t] is the task the source makes from item [o]. *)
Definition made_from (o : list (string * json)) (t : todo) : Prop :=
  title t = item_title o
  /\ is_done t = truthy (item_is_done o)
  /\ py_int int_of_str (item_priority o) = inr (priority t)
  /\ position t = id t.

Lemma bulk_loop_ok objs : forall created s,
  Forall (fun o => truthy (item_title o) = true ->
                   exists p, py_int int_of_str (item_priority o) = inr p) objs ->
  exists new,
    bulk_loop int_of_str (map JObj objs) created s =
      (inr (rev created ++ new),
       mkState (store_all new (TODOS s))
               (NEXT_ID s + Z.of_nat (List.length new)))
    /\ map id new = zseq (NEXT_ID s) (List.length new)
    /\ Forall2 made_from (filter (fun o => truthy (item_title o)) objs) new.
Proof.
  induction objs as [|o objs IH]; intros created s Hall.
  - exists []. simpl. rewrite app_nil_r, Z.add_0_r.
    destruct s; repeat split; constructor.
  - inversion Hall as [|? ? Ho Hrest]; subst.
    cbn [map filter]. rewrite bulk_loop_step.
    destruct (truthy (item_title o)) eqn:Ht.
    + destruct (Ho eq_refl) as [p Hp]. rewrite Hp. cbv zeta.
      set (t := mkTodo (NEXT_ID s) (item_title o)
                  (truthy (item_is_done o)) p (NEXT_ID s)).
      destruct (IH (t :: created)
                  (mkState (dict_set (NEXT_ID s) t (TODOS s)) (NEXT_ID s + 1))
                  Hrest) as [new [Hrun [Hids Hmade]]].
      exists (t :: new). cbn [TODOS NEXT_ID] in *. split; [|split].
      * rewrite Hrun. cbn [rev]. rewrite <- app_assoc. cbn [app].
        cbn [List.length store_all fold_left id]. unfold store_all.
        do 2 f_equal. lia.
      * cbn [map List.length zseq]. now rewrite Hids.
      * constructor; [|assumption]. repeat split; simpl; auto.
    + apply IH. assumption.
Qed.

Lemma create_todos_bulk_run body items s :
  py_get (get_json_or_empty body) "items" JNull = inr (JArr items) ->
  create_todos_bulk int_of_str body s =
  match bulk_loop int_of_str items [] s with
  | (inr created, s') =>
      (inr (PCreated created (Z.of_nat (List.length created)), 201), s')
  | (inl e, s') => (inl e, s')
  end.
Proof.
  intros Hb. unfold create_todos_bulk.
  unfold bind at 1. unfold lift at 1. rewrite Hb.
  unfold bind, ret. now destruct (bulk_loop int_of_str items [] s) as [[e|created] s'].
Qed.

Lemma dict_get_store_all_other k new d :
  ~ In k (map id new) -> dict_get k (store_all new d) = dict_get k d.
Proof.
  revert d. induction new as [|t new IH]; intros d H; simpl; [reflexivity|].
  unfold store_all in *. rewrite IH by (intros Hin; apply H; now right).
  rewrite dict_get_set. destruct (Z.eqb_spec k (id t)); [|reflexivity].
  exfalso. apply H. now left.
Qed.

Lemma dict_get_store_all new d t :
  NoDup (map id new) -> In t new -> dict_get (id t) (store_all new d) = Some t.
Proof.
  revert d. induction new as [|t' new IH]; intros d Hnd Hin; [destruct Hin|].
  inversion Hnd; subst. destruct Hin as [->|Hin].
  - change (store_all (t :: new) d)
      with (store_all new (dict_set (id t) t d)).
    rewrite dict_get_store_all_other by assumption.
    now rewrite dict_get_set, Z.eqb_refl.
  - change (store_all (t' :: new) d)
      with (store_all new (dict_set (id t') t' d)).
    now apply IH.
Qed.

Lemma zseq_NoDup a n : NoDup (zseq a n).
Proof.
  revert a. induction n as [|n IH]; intros a; simpl; constructor; auto.
  rewrite zseq_In. lia.
Qed.

(** C7.  In [create_todos_bulk] every item is looked at on its own: an
    item without a title, or with an empty one, is passed over and the batch
    goes on; the others are created in input order with consecutive ids
    taken from the counter, and each of them is in the store afterwards
    under its id, the entries under other keys being as they were; the
    answer is 201 and its count is the length of its list of created
    tasks. *)
Theorem create_todos_bulk_skips_invalid_items
    (body : option json) (objs : list (list (string * json))) (s : state) :
  py_get (get_json_or_empty body) "items" JNull = inr (JArr (map JObj objs)) ->
  Forall (fun o => truthy (item_title o) = true ->
                   exists p, py_int int_of_str (item_priority o) = inr p) objs ->
  exists created s',
    create_todos_bulk int_of_str body s =
      (inr (PCreated created (Z.of_nat (List.length created)), 201), s')
    /\ NEXT_ID s' = NEXT_ID s + Z.of_nat (List.length created)
    /\ TODOS s' = store_all created (TODOS s)
    /\ Forall2 made_from (filter (fun o => truthy (item_title o)) objs) created
    /\ map id created = zseq (NEXT_ID s) (List.length created)
    /\ (forall t, In t created -> dict_get (id t) (TODOS s') = Some t)
    /\ (forall k, ~ In k (map id created) ->
                  dict_get k (TODOS s') = dict_get k (TODOS s))
    /\ (forall o, lookup "title" o = None \/ lookup "title" o = Some (JStr "") ->
                  truthy (item_title o) = false).
Proof.
  intros Hb Hall.
  destruct (bulk_loop_ok objs [] s Hall) as [new [Hrun [Hids Hmade]]].
  exists new,
    (mkState (store_all new (TODOS s))
       (NEXT_ID s + Z.of_nat (List.length new))).
  rewrite (create_todos_bulk_run _ _ _ Hb), Hrun. cbn [rev app TODOS NEXT_ID].
  split; [reflexivity|]. split; [reflexivity|]. split; [reflexivity|].
  split; [assumption|]. split; [assumption|]. split; [|split].
  - intros t Hin. apply dict_get_store_all; [|assumption].
    cbn [rev app] in Hids. rewrite Hids. apply zseq_NoDup.
  - intros k Hk. now apply dict_get_store_all_other.
  - intros o [H|H]; unfold item_title; now rewrite H.
Qed.

(** C10.  Creation coerces like the partial update does.  A created task
    stores [bool(is_done)] of the supplied (or default) value, so the string
    "false" is stored as true, and [int(priority)] of the supplied (or
    default) value; this holds for [create_todo] and for every task made by
    [create_todos_bulk].  When [int] rejects the priority, [create_todo]
    raises and stores nothing.  The stored fields are a [bool] and an
    integer by the type of [todo]. *)
Theorem creation_coerces_is_done_and_priority :
  truthy (JStr "false") = true
  /\ (forall body o s p,
        get_json_or_empty body = JObj o ->
        truthy (item_title o) = true ->
        py_int int_of_str (item_priority o) = inr p ->
        exists t s',
          create_todo int_of_str body s = (inr (PTodo t, 201), s')
          /\ dict_get (id t) (TODOS s') = Some t
          /\ is_done t = truthy (item_is_done o)
          /\ priority t = p)
  /\ (forall body o s e,
        get_json_or_empty body = JObj o ->
        truthy (item_title o) = true ->
        py_int int_of_str (item_priority o) = inl e ->
        exists s',
          create_todo int_of_str body s = (inl e, s') /\ TODOS s' = TODOS s)
  /\ (forall body objs s,
        py_get (get_json_or_empty body) "items" JNull
          = inr (JArr (map JObj objs)) ->
        Forall (fun o => truthy (item_title o) = true ->
                         exists p, py_int int_of_str (item_priority o) = inr p) objs ->
        exists created s',
          create_todos_bulk int_of_str body s =
            (inr (PCreated created (Z.of_nat (List.length created)), 201), s')
          /\ Forall2 (fun o t =>
                        dict_get (id t) (TODOS s') = Some t
                        /\ is_done t = truthy (item_is_done o)
                        /\ py_int int_of_str (item_priority o) = inr (priority t))
               (filter (fun o => truthy (item_title o)) objs) created).
Proof.
  split; [reflexivity|]. split; [|split].
  - intros body o s p Hb Ht Hp.
    rewrite (create_todo_run _ _ _ Hb), Ht, Hp. cbv zeta.
    do 2 eexists. split; [reflexivity|]. cbn [TODOS id is_done priority].
    now rewrite dict_get_set, Z.eqb_refl.
  - intros body o s e Hb Ht Hp.
    rewrite (create_todo_run _ _ _ Hb), Ht, Hp.
    eexists. split; reflexivity.
  - intros body objs s Hb Hall.
    destruct (bulk_loop_ok objs [] s Hall) as [new [Hrun [Hids Hmade]]].
    exists new. eexists.
    rewrite (create_todos_bulk_run _ _ _ Hb), Hrun. cbn [rev app].
    split; [reflexivity|]. cbn [TODOS].
    assert (Hnd : NoDup (map id new)) by (rewrite Hids; apply zseq_NoDup).
    assert (Hin : forall t, In t new ->
              dict_get (id t) (store_all new (TODOS s)) = Some t)
      by (intros t Ht; now apply dict_get_store_all).
    clear Hrun Hids Hnd.
    generalize dependent (store_all new (TODOS s)). intros D Hin.
    induction Hmade as [|o t objs' new' Hm Hrest IH]; constructor.
    + destruct Hm as [_ [Hd [Hp _]]]. repeat split; auto.
      apply Hin. now left.
    + apply IH. intros t' Ht'. apply Hin. now right.
Qed.

(** ** The id counter *)

(** A computation that never writes [NEXT_ID]. *)
Definition keeps_counter {A} (m : M A) : Prop :=
  forall s, NEXT_ID (snd (m s)) = NEXT_ID s.

Lemma kc_ret {A} (a : A) : keeps_counter (ret a).
Proof. intros s; reflexivity. Qed.

Lemma kc_lift {A} (r : exn + A) : keeps_counter (lift r).
Proof. intros s; reflexivity. Qed.

Lemma kc_get_TODOS : keeps_counter get_TODOS.
Proof. intros s; reflexivity. Qed.

Lemma kc_modify_TODOS f : keeps_counter (modify_TODOS f).
Proof. intros s; reflexivity. Qed.

Lemma kc_bind {A B} (m : M A) (f : A -> M B) :
  keeps_counter m -> (forall a, keeps_counter (f a)) -> keeps_counter (bind m f).
Proof.
  intros Hm Hf s. unfold bind. specialize (Hm s).
  destruct (m s) as [[e|a] s1]; simpl in *; [assumption|].
  now rewrite Hf.
Qed.

Ltac kc :=
  repeat first
    [ apply kc_ret | apply kc_lift | apply kc_get_TODOS
    | apply kc_modify_TODOS | solve [auto]
    | apply kc_bind
    | match goal with
      | |- forall _, _ => intro
      | |- keeps_counter (match ?x with _ => _ end) => destruct x
      | |- keeps_counter (let _ := _ in _) => cbv zeta
      end ].

Lemma kc_deref k : keeps_counter (deref k).
Proof. unfold deref. kc. Qed.

Lemma kc_get_todo_or_404 k : keeps_counter (get_todo_or_404 k).
Proof. unfold get_todo_or_404. kc. Qed.

Lemma kc_apply_order order : forall idx, keeps_counter (apply_order order idx).
Proof.
  induction order as [|tid order IH]; intros idx; simpl; [apply kc_ret|].
  apply kc_bind; [unfold assign_position; kc | intros _; apply IH].
Qed.

Lemma kc_assign_remaining ks : forall pos, keeps_counter (assign_remaining ks pos).
Proof.
  induction ks as [|k ks IH]; intros pos; simpl; [apply kc_ret|].
  apply kc_bind; [apply kc_modify_TODOS | intros _; apply IH].
Qed.

Lemma kc_pop_all ks : keeps_counter (pop_all ks).
Proof.
  induction ks as [|k ks IH]; simpl; [apply kc_ret|].
  apply kc_bind; [apply kc_modify_TODOS | intros _; apply IH].
Qed.

Lemma kc_patch_loop fs k data : keeps_counter (patch_loop int_of_str fs k data).
Proof.
  induction fs as [|f fs IH]; simpl; [apply kc_ret|].
  apply kc_bind; [apply kc_lift|]. intros present.
  apply kc_bind; [|intros _; apply IH].
  destruct present; [|apply kc_ret].
  apply kc_bind; [apply kc_lift|]. intros v. destruct f; kc.
Qed.

Lemma kc_list_todos st : keeps_counter (list_todos st).
Proof. unfold list_todos. kc. Qed.

Lemma kc_reorder_todos body : keeps_counter (reorder_todos body).
Proof.
  pose proof kc_apply_order. pose proof kc_assign_remaining.
  unfold reorder_todos. kc.
Qed.

Lemma kc_delete_todo k : keeps_counter (delete_todo k).
Proof. unfold delete_todo. kc. Qed.

Lemma kc_delete_many_todos arg : keeps_counter (delete_many_todos arg).
Proof. pose proof kc_pop_all. unfold delete_many_todos. kc. Qed.

Lemma kc_put_todo_status k body : keeps_counter (put_todo_status k body).
Proof.
  pose proof kc_deref. pose proof kc_get_todo_or_404.
  unfold put_todo_status. kc.
Qed.

Lemma kc_replace_todo k body : keeps_counter (replace_todo int_of_str k body).
Proof. pose proof kc_get_todo_or_404. unfold replace_todo. kc. Qed.

Lemma kc_patch_todo fs k body : keeps_counter (patch_todo int_of_str fs k body).
Proof.
  pose proof kc_deref. pose proof kc_get_todo_or_404. pose proof kc_patch_loop.
  unfold patch_todo. kc.
Qed.

(** The tasks a request reports as created. *)
Definition created_of (r : request) (out : exn + response) : list todo :=
  match r, out with
  | POST_todos _, inr (PTodo t, _) => [t]
  | POST_todos_bulk _, inr (PCreated created _, _) => created
  | _, _ => []
  end.

(** The ids handed out along a run, in creation order. *)
Fixpoint created_ids (rs : list request) (outs : list (exn + response))
    : list Z :=
  match rs, outs with
  | r :: rs', out :: outs' => map id (created_of r out) ++ created_ids rs' outs'
  | _, _ => []
  end.

(** Whether a request was answered (rather than ending in an exception). *)
Definition answered {A} (out : exn + A) : bool :=
  match out with inr _ => true | inl _ => false end.

(** What one request does to the counter. *)
Definition step_ok (r : request) (s : state) (out : exn + response)
    (s' : state) : Prop :=
  let n := List.length (created_of r out) in
  NEXT_ID s <= NEXT_ID s'
  /\ map id (created_of r out) = zseq (NEXT_ID s) n
  /\ NEXT_ID s + Z.of_nat n <= NEXT_ID s'
  /\ (answered out = true -> NEXT_ID s' = NEXT_ID s + Z.of_nat n).

Lemma bulk_loop_not_object item items created s :
  (forall o, item <> JObj o) ->
  bulk_loop int_of_str (item :: items) created s = (inl AttributeError, s).
Proof. intros H. destruct item; try reflexivity. now destruct (H members). Qed.

Lemma bulk_loop_counter items : forall created s,
  NEXT_ID s <= NEXT_ID (snd (bulk_loop int_of_str items created s))
  /\ (forall l, fst (bulk_loop int_of_str items created s) = inr l ->
        exists new,
          l = rev created ++ new
          /\ map id new = zseq (NEXT_ID s) (List.length new)
          /\ NEXT_ID (snd (bulk_loop int_of_str items created s))
             = NEXT_ID s + Z.of_nat (List.length new)).
Proof.
  induction items as [|item items IH]; intros created s.
  - simpl. split; [lia|]. intros l H. inversion H; subst.
    exists []. rewrite app_nil_r. simpl. repeat split; lia.
  - assert (Hcase : (exists o, item = JObj o) \/ (forall o, item <> JObj o))
      by (destruct item; try (right; intros o; discriminate); left; eauto).
    destruct Hcase as [[o Ho]|Hno]; [subst item|].
    + rewrite bulk_loop_step. destruct (truthy (item_title o)); [|apply IH].
      destruct (py_int int_of_str (item_priority o)) as [e|p];
        [simpl; split; [lia|discriminate]|].
      cbv zeta.
      set (t := mkTodo (NEXT_ID s) (item_title o)
                  (truthy (item_is_done o)) p (NEXT_ID s)).
      destruct (IH (t :: created)
                  (mkState (dict_set (NEXT_ID s) t (TODOS s)) (NEXT_ID s + 1)))
        as [Hle Hres].
      cbn [NEXT_ID] in *. split; [lia|].
      intros l Hl. destruct (Hres l Hl) as [new [Heq [Hids Hn]]]; subst l.
      exists (t :: new). cbn [rev]. rewrite <- app_assoc. cbn [app].
      split; [reflexivity|]. cbn [map List.length zseq id].
      rewrite Hids, Hn. split; [reflexivity|]. lia.
    + rewrite bulk_loop_not_object by assumption. simpl.
      split; [lia|discriminate].
Qed.

Lemma create_todo_step body s :
  step_ok (POST_todos body) s (fst (create_todo int_of_str body s))
    (snd (create_todo int_of_str body s)).
Proof.
  unfold step_ok.
  assert (Hcase : (exists o, get_json_or_empty body = JObj o)
                  \/ create_todo int_of_str body s = (inl AttributeError, s)).
  { unfold create_todo.
    destruct (get_json_or_empty body); try (right; reflexivity). left; eauto. }
  destruct Hcase as [[o Ho]|Hv]; [|rewrite Hv].
  - rewrite (create_todo_run _ _ _ Ho).
    destruct (truthy (item_title o)).
    + destruct (py_int int_of_str (item_priority o)); simpl;
        repeat split; try lia; discriminate.
    + simpl. repeat split; lia.
  - simpl. repeat split; try lia; discriminate.
Qed.

Lemma create_todos_bulk_step body s :
  step_ok (POST_todos_bulk body) s (fst (create_todos_bulk int_of_str body s))
    (snd (create_todos_bulk int_of_str body s)).
Proof.
  unfold step_ok.
  destruct (py_get (get_json_or_empty body) "items" JNull) as [e|v] eqn:Hget.
  - unfold create_todos_bulk. unfold bind at 1. unfold lift at 1.
    rewrite Hget. simpl. repeat split; try lia; discriminate.
  - assert (Hcase : (exists items, v = JArr items)
              \/ create_todos_bulk int_of_str body s
                 = (inr (PError ItemsMustBeList, 400), s)).
    { unfold create_todos_bulk. unfold bind at 1. unfold lift at 1.
      rewrite Hget. destruct v; try (right; reflexivity). left; eauto. }
    destruct Hcase as [[items Hv]|Hv]; [subst v|rewrite Hv; simpl; repeat split; lia].
    rewrite (create_todos_bulk_run _ _ _ Hget).
    destruct (bulk_loop_counter items [] s) as [Hle Hres].
    destruct (bulk_loop int_of_str items [] s) as [[e|created] s1]; simpl in *.
    + repeat split; try lia; discriminate.
    + destruct (Hres created eq_refl) as [new [Heq [Hids Hn]]]; subst created.
      repeat split; try lia; assumption.
Qed.

Lemma handle_step r s :
  step_ok r s (fst (handle int_of_str r s)) (snd (handle int_of_str r s)).
Proof.
  assert (Hkeep : forall m : M response,
            keeps_counter m -> created_of r (fst (m s)) = [] ->
            step_ok r s (fst (m s)) (snd (m s))).
  { intros m Hm Hnil. unfold step_ok. rewrite Hnil, (Hm s). simpl.
    repeat split; lia. }
  destruct r; simpl handle.
  - apply Hkeep; [unfold health_check; apply kc_ret | reflexivity].
  - apply Hkeep; [apply kc_list_todos | reflexivity].
  - apply create_todo_step.
  - apply create_todos_bulk_step.
  - apply Hkeep; [apply kc_replace_todo | reflexivity].
  - apply Hkeep; [apply kc_put_todo_status | reflexivity].
  - apply Hkeep; [apply kc_patch_todo | reflexivity].
  - apply Hkeep; [apply kc_reorder_todos | reflexivity].
  - apply Hkeep; [apply kc_delete_todo | reflexivity].
  - apply Hkeep; [apply kc_delete_many_todos | reflexivity].
Qed.

Lemma serve_cons r rs s :
  serve int_of_str (r :: rs) s =
  (fst (handle int_of_str r s)
     :: fst (serve int_of_str rs (snd (handle int_of_str r s))),
   snd (serve int_of_str rs (snd (handle int_of_str r s)))).
Proof.
  simpl. destruct (handle int_of_str r s) as [out s1]. simpl.
  now destruct (serve int_of_str rs s1).
Qed.

Lemma serve_app rs1 rs2 s :
  snd (serve int_of_str (rs1 ++ rs2) s) =
  snd (serve int_of_str rs2 (snd (serve int_of_str rs1 s))).
Proof.
  revert s. induction rs1 as [|r rs1 IH]; intros s; [reflexivity|].
  cbn [app]. rewrite !serve_cons. cbn [snd]. apply IH.
Qed.

Lemma StronglySorted_app_lt l1 l2 b :
  StronglySorted Z.lt l1 -> StronglySorted Z.lt l2 ->
  Forall (fun x => x < b) l1 -> Forall (fun y => b <= y) l2 ->
  StronglySorted Z.lt (l1 ++ l2).
Proof.
  intros H1 H2 Hb1 Hb2. induction H1 as [|x l1 Hs IH Hx]; simpl; auto.
  inversion Hb1; subst. constructor; auto.
  apply Forall_app. split; auto.
  eapply Forall_impl; [|exact Hb2]. simpl. intros; lia.
Qed.

Lemma serve_counter rs : forall s,
  let outs := fst (serve int_of_str rs s) in
  let s' := snd (serve int_of_str rs s) in
  let ids := created_ids rs outs in
  NEXT_ID s <= NEXT_ID s'
  /\ StronglySorted Z.lt ids
  /\ Forall (fun i => NEXT_ID s <= i < NEXT_ID s') ids
  /\ (forallb answered outs = true ->
      ids = zseq (NEXT_ID s) (List.length ids)
      /\ NEXT_ID s' = NEXT_ID s + Z.of_nat (List.length ids)).
Proof.
  induction rs as [|r rs IH]; intros s.
  - simpl. repeat split; try lia; constructor.
  - cbv zeta. rewrite serve_cons. cbn [fst snd created_ids].
    destruct (handle_step r s) as [Hle [Hids [Hn Hans]]].
    set (out := fst (handle int_of_str r s)) in *.
    set (s1 := snd (handle int_of_str r s)) in *.
    destruct (IH s1) as [Hle' [Hsort [Hrange Hall]]]. cbv zeta in *.
    set (outs := fst (serve int_of_str rs s1)) in *.
    set (s2 := snd (serve int_of_str rs s1)) in *.
    split; [lia|]. split; [|split].
    + apply StronglySorted_app_lt with (b := NEXT_ID s1); auto.
      * rewrite Hids. apply zseq_sorted.
      * rewrite Hids. apply Forall_forall. intros x Hx.
        apply zseq_In in Hx. lia.
      * eapply Forall_impl; [|exact Hrange]. simpl. intros; lia.
    + apply Forall_app. split.
      * rewrite Hids. apply Forall_forall. intros x Hx.
        apply zseq_In in Hx. lia.
      * eapply Forall_impl; [|exact Hrange]. simpl. intros; lia.
    + cbn [forallb]. intros H. apply andb_prop in H as [Ha Hrest].
      destruct (Hall Hrest) as [Hseq Hn2]. specialize (Hans Ha).
      rewrite length_app, length_map. split.
      * rewrite zseq_app, <- Hans, <- Hseq, <- Hids. reflexivity.
      * rewrite Hn2, Hans. lia.
Qed.

(** C2.  Along every sequence of requests served from the initial state
    (creations, bulk creations, deletions and all the others), the ids of
    the created tasks are pairwise distinct and strictly increasing in
    creation order, each of them is at least 1 and below the final counter,
    and the counter never goes down from one prefix of the run to a longer
    one.  The counter starts at 1.  Every request hands out consecutive ids
    starting at the counter value it found, and a request that is answered
    leaves the counter advanced by exactly the number of tasks it created;
    so when every request is answered the ids handed out are 1, 2, ..., n
    and the counter ends at n + 1. *)
Theorem ids_unique_increasing_never_reused (rs : list request) :
  let outs := fst (serve int_of_str rs initial_state) in
  let s' := snd (serve int_of_str rs initial_state) in
  let ids := created_ids rs outs in
  NEXT_ID initial_state = 1
  /\ NoDup ids
  /\ StronglySorted Z.lt ids
  /\ Forall (fun i => 1 <= i < NEXT_ID s') ids
  /\ (forall rs1 rs2, rs = rs1 ++ rs2 ->
        NEXT_ID (snd (serve int_of_str rs1 initial_state)) <= NEXT_ID s')
  /\ (forall r s,
        step_ok r s (fst (handle int_of_str r s)) (snd (handle int_of_str r s)))
  /\ (forallb answered outs = true ->
        ids = zseq 1 (List.length ids)
        /\ NEXT_ID s' = 1 + Z.of_nat (List.length ids)).
Proof.
  cbv zeta.
  destruct (serve_counter rs initial_state) as [Hle [Hsort [Hrange Hall]]].
  cbv zeta in *. change (NEXT_ID initial_state) with 1 in *.
  split; [reflexivity|]. split; [|split; [assumption|split; [assumption|]]].
  - clear -Hsort. induction Hsort as [|x l Hs IH Hx]; constructor; auto.
    intros Hin. rewrite Forall_forall in Hx. specialize (Hx x Hin). lia.
  - split; [|split; [apply handle_step | assumption]].
    intros rs1 rs2 ->. rewrite serve_app.
    destruct (serve_counter rs2 (snd (serve int_of_str rs1 initial_state)))
      as [H _]. exact H.
Qed.

End Creation.

(** ** Single-task updates *)

(** [d'] is [d] with the task under [k] replaced by [t'] and nothing else
    touched: same keys in the same order, same task under every other key. *)
Definition only_changes (k : Z) (t' : todo) (d d' : dict) : Prop :=
  keys d' = keys d
  /\ dict_get k d' = Some t'
  /\ forall k', k' <> k -> dict_get k' d' = dict_get k' d.

Definition field_eqb (f g : field) : bool :=
  match f, g with
  | F_title, F_title | F_is_done, F_is_done | F_priority, F_priority => true
  | _, _ => false
  end.

Definition has (f : field) (fs : list field) : bool := existsb (field_eqb f) fs.

Lemma has_In f fs : In f fs -> has f fs = true.
Proof.
  intros H. apply existsb_exists. exists f. split; [assumption|].
  now destruct f.
Qed.

Lemma dict_get_keys k d t : dict_get k d = Some t -> In k (keys d).
Proof.
  intros H. apply dict_get_In in H. change k with (fst (k, t)).
  now apply in_map.
Qed.

Lemma store_ok_get k d t : store_ok d -> dict_get k d = Some t -> id t = k.
Proof.
  intros [_ Hid] H. apply dict_get_In in H.
  rewrite Forall_forall in Hid. exact (Hid _ H).
Qed.

Lemma only_changes_set k t t' d :
  dict_get k d = Some t -> only_changes k t' d (dict_set k t' d).
Proof.
  intros H. split; [|split].
  - apply keys_dict_set_present. eapply dict_get_keys; eauto.
  - now rewrite dict_get_set, Z.eqb_refl.
  - intros k' Hk. rewrite dict_get_set.
    destruct (Z.eqb_spec k' k); congruence.
Qed.

Lemma dict_set_set k u v d :
  dict_set k v (dict_set k u d) = dict_set k v d.
Proof.
  induction d as [|[k' w] d IH]; simpl.
  - now rewrite Z.eqb_refl.
  - destruct (Z.eqb_spec k' k); simpl.
    + subst. now rewrite Z.eqb_refl.
    + destruct (Z.eqb_spec k' k); [contradiction|]. now rewrite IH.
Qed.

Lemma get_todo_or_404_found k t s :
  dict_get k (TODOS s) = Some t -> get_todo_or_404 k s = (inr (inr t), s).
Proof. intros H. unfold get_todo_or_404. run. now rewrite H. Qed.

Lemma get_todo_or_404_missing k s :
  dict_get k (TODOS s) = None ->
  get_todo_or_404 k s = (inr (inl (PError TodoNotFound, 404)), s).
Proof. intros H. unfold get_todo_or_404. run. now rewrite H. Qed.

Lemma put_todo_status_run k body o t vd s :
  dict_get k (TODOS s) = Some t ->
  get_json_or_empty body = JObj o ->
  lookup "is_done" o = Some vd ->
  put_todo_status k body s =
  (inr (PTodo (set_is_done (truthy vd) t), 200),
   mkState (dict_set k (set_is_done (truthy vd) t) (TODOS s)) (NEXT_ID s)).
Proof.
  intros Hget Hb Hd. unfold put_todo_status.
  unfold bind at 1. rewrite (get_todo_or_404_found _ _ _ Hget), Hb.
  run. rewrite Hd. simpl.
  rewrite (dict_update_as_set _ _ _ _ Hget), dict_get_set, Z.eqb_refl.
  cbn [TODOS NEXT_ID]. now rewrite dict_set_set.
Qed.

Section Updates.

Variable int_of_str : string -> option Z.

Lemma replace_todo_run k body o t vt vd vp s :
  dict_get k (TODOS s) = Some t ->
  get_json_or_empty body = JObj o ->
  lookup "title" o = Some vt ->
  lookup "is_done" o = Some vd ->
  lookup "priority" o = Some vp ->
  replace_todo int_of_str k body s =
  match py_int int_of_str vp with
  | inr p =>
      let updated := mkTodo k vt (truthy vd) p (position t) in
      (inr (PTodo updated, 200),
       mkState (dict_set k updated (TODOS s)) (NEXT_ID s))
  | inl e => (inl e, s)
  end.
Proof.
  intros Hget Hb Ht Hd Hp. unfold replace_todo.
  unfold bind at 1. rewrite (get_todo_or_404_found _ _ _ Hget), Hb.
  run. rewrite Ht, Hd, Hp. simpl.
  now destruct (py_int int_of_str vp).
Qed.

(** The assignment [existing[field] = ...] of the loop of [patch_todo], on
    the task value. *)
Definition assign_field (o : list (string * json)) (f : field) (u : todo)
    : exn + todo :=
  match lookup (field_name f) o with
  | None => inr u
  | Some v =>
      match f with
      | F_title => inr (set_title v u)
      | F_is_done => inr (set_is_done (truthy v) u)
      | F_priority =>
          match py_int int_of_str v with
          | inr p => inr (set_priority p u)
          | inl e => inl e
          end
      end
  end.

Lemma patch_loop_cons f fs k o u s :
  dict_get k (TODOS s) = Some u ->
  patch_loop int_of_str (f :: fs) k (JObj o) s =
  match assign_field o f u with
  | inr u' =>
      patch_loop int_of_str fs k (JObj o)
        (mkState (dict_set k u' (TODOS s)) (NEXT_ID s))
  | inl e => (inl e, s)
  end.
Proof.
  intros Hget. cbn [patch_loop]. unfold assign_field.
  unfold bind at 1. unfold lift at 1. cbn [py_in].
  destruct (lookup (field_name f) o) as [v|] eqn:Hl.
  - unfold bind at 1. unfold bind at 1. unfold lift at 1. cbn [py_getitem].
    rewrite Hl. destruct f.
    + unfold modify_TODOS. now rewrite (dict_update_as_set _ _ _ _ Hget).
    + unfold modify_TODOS. now rewrite (dict_update_as_set _ _ _ _ Hget).
    + unfold bind at 1. unfold lift at 1.
      destruct (py_int int_of_str v); [reflexivity|].
      unfold modify_TODOS. now rewrite (dict_update_as_set _ _ _ _ Hget).
  - unfold bind at 1. unfold ret at 1.
    rewrite (dict_set_same _ _ _ Hget). now destruct s.
Qed.

(** How the task [u'] left by the loop over [fs] relates to the task [u] it
    started from. *)
Definition patched_from (o : list (string * json)) (fs : list field)
    (u u' : todo) : Prop :=
  id u' = id u
  /\ position u' = position u
  /\ title u' = match lookup "title" o with
                | Some v => if has F_title fs then v else title u
                | None => title u
                end
  /\ is_done u' = match lookup "is_done" o with
                  | Some v => if has F_is_done fs then truthy v else is_done u
                  | None => is_done u
                  end
  /\ match lookup "priority" o with
     | Some v => if has F_priority fs
                 then py_int int_of_str v = inr (priority u')
                 else priority u' = priority u
     | None => priority u' = priority u
     end.

Lemma patch_loop_ok k o fs : forall u s,
  dict_get k (TODOS s) = Some u ->
  (forall v, lookup "priority" o = Some v ->
             exists p, py_int int_of_str v = inr p) ->
  exists u',
    patch_loop int_of_str fs k (JObj o) s =
      (inr tt, mkState (dict_set k u' (TODOS s)) (NEXT_ID s))
    /\ patched_from o fs u u'.
Proof.
  induction fs as [|f fs IH]; intros u s Hget Hp.
  - exists u. split.
    + simpl. rewrite (dict_set_same _ _ _ Hget). now destruct s.
    + unfold patched_from. simpl.
      destruct (lookup "title" o), (lookup "is_done" o),
        (lookup "priority" o); auto.
  - rewrite (patch_loop_cons _ _ _ _ _ _ Hget).
    assert (Hstep : exists u1, assign_field o f u = inr u1
                               /\ patched_from o [f] u u1).
    { unfold assign_field, patched_from.
      destruct f; cbn [field_name has existsb field_eqb orb].
      - destruct (lookup "title" o) as [v|]; eexists; (split; [reflexivity|]);
          simpl; destruct (lookup "is_done" o), (lookup "priority" o); auto.
      - destruct (lookup "is_done" o) as [v|]; eexists; (split; [reflexivity|]);
          simpl; destruct (lookup "title" o), (lookup "priority" o); auto.
      - destruct (lookup "priority" o) as [v|] eqn:Hl.
        + destruct (Hp v eq_refl) as [p Hv]. rewrite Hv.
          eexists; split; [reflexivity|]. simpl.
          destruct (lookup "title" o), (lookup "is_done" o); auto.
        + eexists; split; [reflexivity|]. simpl.
          destruct (lookup "title" o), (lookup "is_done" o); auto. }
    destruct Hstep as [u1 [Hassign H1]]. rewrite Hassign.
    destruct (IH u1 (mkState (dict_set k u1 (TODOS s)) (NEXT_ID s)))
      as [u' [Hrun H2]]; [cbn [TODOS]; now rewrite dict_get_set, Z.eqb_refl
                         | assumption |].
    exists u'. cbn [TODOS NEXT_ID] in Hrun. rewrite dict_set_set in Hrun.
    split; [assumption|].
    unfold patched_from in *.
    change (has F_title (f :: fs)) with (field_eqb F_title f || has F_title fs).
    change (has F_is_done (f :: fs))
      with (field_eqb F_is_done f || has F_is_done fs).
    change (has F_priority (f :: fs))
      with (field_eqb F_priority f || has F_priority fs).
    change (has F_title [f]) with (field_eqb F_title f || false) in H1.
    change (has F_is_done [f]) with (field_eqb F_is_done f || false) in H1.
    change (has F_priority [f]) with (field_eqb F_priority f || false) in H1.
    destruct H1 as [Hi1 [Hpos1 [Ht1 [Hd1 Hp1]]]].
    destruct H2 as [Hi2 [Hpos2 [Ht2 [Hd2 Hp2]]]].
    split; [congruence|]. split; [congruence|].
    destruct f;
      destruct (lookup "title" o), (lookup "is_done" o),
        (lookup "priority" o);
      destruct (has F_title fs), (has F_is_done fs), (has F_priority fs);
      cbn [field_eqb orb] in *;
      repeat split; congruence.
Qed.

Lemma py_any_in_lookup fs o f :
  In f fs -> lookup (field_name f) o <> None ->
  py_any_in (map field_name fs) (JObj o) = inr true.
Proof.
  induction fs as [|g fs IH]; intros Hin Hl; [destruct Hin|].
  cbn [map py_any_in py_in].
  destruct (lookup (field_name g) o) eqn:Hg; [reflexivity|].
  destruct Hin as [->|Hin]; [congruence|]. now apply IH.
Qed.

Lemma patch_todo_run fs k body o t s :
  dict_get k (TODOS s) = Some t ->
  get_json_or_empty body = JObj o ->
  (exists f, In f fs /\ lookup (field_name f) o <> None) ->
  (forall v, lookup "priority" o = Some v ->
             exists p, py_int int_of_str v = inr p) ->
  exists t',
    patch_todo int_of_str fs k body s =
      (inr (PTodo t', 200), mkState (dict_set k t' (TODOS s)) (NEXT_ID s))
    /\ patched_from o fs t t'.
Proof.
  intros Hget Hb [f [Hin Hl]] Hp.
  destruct (patch_loop_ok k o fs t s Hget Hp) as [t' [Hrun Hpatched]].
  exists t'. split; [|assumption].
  unfold patch_todo.
  unfold bind at 1. rewrite (get_todo_or_404_found _ _ _ Hget), Hb.
  unfold bind at 1. unfold lift at 1.
  rewrite (py_any_in_lookup _ _ _ Hin Hl). cbn [negb].
  unfold bind at 1. rewrite Hrun. run.
  rewrite dict_get_set, Z.eqb_refl. cbn [TODOS NEXT_ID].
  now rewrite dict_set_set.
Qed.

(** C6.  On an existing task and valid arguments: [replace_todo]
    overwrites title, is_done and priority and keeps position and id;
    [put_todo_status] changes is_done and nothing else; [patch_todo] sets
    the fields that its argument holds and keeps every other field.  In all
    three the other tasks of the store, the order of the store and the id
    counter stay as they were. *)
Theorem updates_touch_only_their_fields :
  (forall k body o t vt vd vp p s,
      store_ok (TODOS s) ->
      dict_get k (TODOS s) = Some t ->
      get_json_or_empty body = JObj o ->
      lookup "title" o = Some vt ->
      lookup "is_done" o = Some vd ->
      lookup "priority" o = Some vp ->
      py_int int_of_str vp = inr p ->
      exists t' d',
        replace_todo int_of_str k body s
          = (inr (PTodo t', 200), mkState d' (NEXT_ID s))
        /\ only_changes k t' (TODOS s) d'
        /\ title t' = vt /\ is_done t' = truthy vd /\ priority t' = p
        /\ position t' = position t /\ id t' = id t)
  /\ (forall k body o t vd s,
        dict_get k (TODOS s) = Some t ->
        get_json_or_empty body = JObj o ->
        lookup "is_done" o = Some vd ->
        exists t' d',
          put_todo_status k body s
            = (inr (PTodo t', 200), mkState d' (NEXT_ID s))
          /\ only_changes k t' (TODOS s) d'
          /\ is_done t' = truthy vd
          /\ id t' = id t /\ title t' = title t
          /\ priority t' = priority t /\ position t' = position t)
  /\ (forall fs k body o t s,
        (forall f, In f fs) ->
        dict_get k (TODOS s) = Some t ->
        get_json_or_empty body = JObj o ->
        (exists f, lookup (field_name f) o <> None) ->
        (forall v, lookup "priority" o = Some v ->
                   exists p, py_int int_of_str v = inr p) ->
        exists t' d',
          patch_todo int_of_str fs k body s
            = (inr (PTodo t', 200), mkState d' (NEXT_ID s))
          /\ only_changes k t' (TODOS s) d'
          /\ id t' = id t /\ position t' = position t
          /\ title t' = match lookup "title" o with
                        | Some v => v
                        | None => title t
                        end
          /\ is_done t' = match lookup "is_done" o with
                          | Some v => truthy v
                          | None => is_done t
                          end
          /\ match lookup "priority" o with
             | Some v => py_int int_of_str v = inr (priority t')
             | None => priority t' = priority t
             end).
Proof.
  split; [|split].
  - intros k body o t vt vd vp p s Hok Hget Hb Ht Hd Hp Hint.
    rewrite (replace_todo_run _ _ _ _ _ _ _ _ Hget Hb Ht Hd Hp), Hint.
    cbv zeta. do 2 eexists. split; [reflexivity|].
    split; [now apply only_changes_set with (t := t)|].
    cbn [title is_done priority position id].
    repeat split. symmetry. eapply store_ok_get; eauto.
  - intros k body o t vd s Hget Hb Hd.
    rewrite (put_todo_status_run _ _ _ _ _ _ Hget Hb Hd).
    do 2 eexists. split; [reflexivity|].
    split; [now apply only_changes_set with (t := t)|].
    repeat split.
  - intros fs k body o t s Hall Hget Hb [f Hf] Hp.
    destruct (patch_todo_run fs k body o t s Hget Hb) as [t' [Hrun Hpatched]];
      [exists f; split; [apply Hall | assumption] | assumption |].
    exists t'. eexists. split; [exact Hrun|].
    split; [now apply only_changes_set with (t := t)|].
    destruct Hpatched as [Hi [Hpos [Ht [Hd Hpr]]]].
    rewrite (has_In F_title fs (Hall _)) in Ht.
    rewrite (has_In F_is_done fs (Hall _)) in Hd.
    rewrite (has_In F_priority fs (Hall _)) in Hpr.
    repeat split; assumption.
Qed.

(** *** Failure of an update *)

(** C4.  [patch_todo] writes the fields one at a time into the stored task.
    When the loop reaches "title" before "priority" and [int] rejects the
    priority, the request ends in an exception with the new title already
    stored. *)
Theorem patch_todo_partial_update :
  let t := mkTodo 1 (JStr "A") false 1 1 in
  let s := mkState [(1, t)] 2 in
  let body := Some (JObj [("title", JStr "x"); ("priority", JNull)]) in
  patch_todo int_of_str [F_title; F_is_done; F_priority] 1 body s
  = (inl TypeError, mkState [(1, set_title (JStr "x") t)] 2).
Proof. reflexivity. Qed.

(** With the same request, a loop that reaches "priority" first raises
    before anything is written. *)
Lemma patch_todo_priority_first :
  let t := mkTodo 1 (JStr "A") false 1 1 in
  let s := mkState [(1, t)] 2 in
  let body := Some (JObj [("title", JStr "x"); ("priority", JNull)]) in
  patch_todo int_of_str [F_priority; F_title; F_is_done] 1 body s
  = (inl TypeError, s).
Proof. reflexivity. Qed.

(** [replace_todo] builds the new task before it stores it: whatever the
    request, if the answer is not the 200 the state is the one it was
    given. *)
Lemma replace_todo_atomic k body s :
  (exists t, fst (replace_todo int_of_str k body s) = inr (PTodo t, 200))
  \/ snd (replace_todo int_of_str k body s) = s.
Proof.
  unfold replace_todo, get_todo_or_404. run.
  repeat (break_match; simpl);
    first [now right | left; eexists; reflexivity].
Qed.

End Updates.

Lemma put_todo_status_atomic k body s :
  (exists t, fst (put_todo_status k body s) = inr (PTodo t, 200))
  \/ snd (put_todo_status k body s) = s.
Proof.
  unfold put_todo_status. unfold bind at 1. unfold get_todo_or_404.
  run. destruct (dict_get k (TODOS s)) eqn:Hget; [|now right].
  simpl. destruct (py_in "is_done" (get_json_or_empty body))
    as [e|[|]]; simpl; try now right.
  destruct (py_getitem (get_json_or_empty body) "is_done"); simpl;
    [now right|].
  rewrite (dict_update_as_set _ _ _ _ Hget), dict_get_set, Z.eqb_refl.
  left. eexists. reflexivity.
Qed.

Lemma delete_todo_atomic k s :
  fst (delete_todo k s) = inr (PDeletedId k, 200)
  \/ (fst (delete_todo k s) = inr (PError TodoNotFound, 404)
      /\ snd (delete_todo k s) = s).
Proof.
  unfold delete_todo. run. destruct (dict_get k (TODOS s)) eqn:Hget.
  - now left.
  - right. split; [reflexivity|].
    rewrite dict_pop_absent by now apply dict_get_None. now destruct s.
Qed.

(** ** Reorder: the new positions *)

(** [tid] is a value of [order] that names the key [k]. *)
Definition names (tid : json) (k : Z) : Prop :=
  hashable tid = true /\ as_int tid = Some k.

(** Both loops of [reorder_todos], on the dict: the keys [ks] get the
    positions [idx], [idx + 1], ... one after the other. *)
Fixpoint positions_from (ks : list Z) (idx : Z) (d : dict) : dict :=
  match ks with
  | [] => d
  | k :: rest => positions_from rest (idx + 1) (dict_update k (set_position idx) d)
  end.

(** The position that [positions_from ks idx] leaves on the task under
    [k], given the position [p] it had. *)
Fixpoint last_pos (k : Z) (ks : list Z) (idx : Z) (p : Z) : Z :=
  match ks with
  | [] => p
  | k' :: rest => last_pos k rest (idx + 1) (if k' =? k then idx else p)
  end.

(** The keys of the store that [ks] does not mention, in store order. *)
Definition unmentioned (ks : list Z) (d : dict) : list Z :=
  filter (fun k => negb (existsb (Z.eqb k) ks)) (keys d).

(** A list of positions without gap or repeat. *)
Definition contiguous (l : list Z) : Prop :=
  exists a, Permutation l (zseq a (List.length l)).

Lemma keys_positions_from ks : forall idx d,
  keys (positions_from ks idx d) = keys d.
Proof.
  induction ks as [|k ks IH]; intros idx d; simpl; [reflexivity|].
  now rewrite IH, keys_dict_update.
Qed.

Lemma assign_remaining_run ks : forall pos s,
  assign_remaining ks pos s =
  (inr tt, mkState (positions_from ks pos (TODOS s)) (NEXT_ID s)).
Proof.
  induction ks as [|k ks IH]; intros pos [d n]; simpl; [reflexivity|].
  unfold bind, modify_TODOS. now rewrite IH.
Qed.

Lemma apply_order_run order ks :
  Forall2 names order ks ->
  forall idx s,
    incl ks (keys (TODOS s)) ->
    apply_order order idx s =
    (inr tt, mkState (positions_from ks idx (TODOS s)) (NEXT_ID s)).
Proof.
  induction 1 as [|tid k order ks [Hh Hk] _ IH]; intros idx [d n] Hincl.
  - reflexivity.
  - cbn [apply_order positions_from TODOS NEXT_ID] in *.
    destruct (dict_get_Some_keys k d) as [t Ht]; [apply Hincl; now left|].
    unfold bind at 1. unfold assign_position.
    unfold bind at 1. unfold get_TODOS at 1. cbn [TODOS].
    rewrite Hh, Hk, Ht. unfold modify_TODOS at 1. cbn [TODOS NEXT_ID].
    rewrite IH; [reflexivity|].
    cbn [TODOS]. rewrite keys_dict_update.
    intros x Hx. apply Hincl. now right.
Qed.

Lemma set_position_same t : set_position (position t) t = t.
Proof. now destruct t. Qed.

Lemma dict_get_positions_from ks : forall idx d k,
  dict_get k (positions_from ks idx d) =
  option_map (fun t => set_position (last_pos k ks idx (position t)) t)
    (dict_get k d).
Proof.
  induction ks as [|a ks IH]; intros idx d k; simpl.
  - destruct (dict_get k d); simpl; [now rewrite set_position_same | reflexivity].
  - rewrite IH, dict_get_update. rewrite (Z.eqb_sym a k).
    destruct (Z.eqb_spec k a); [subst a|reflexivity].
    now destruct (dict_get k d).
Qed.

Lemma last_pos_absent k ks : forall idx p, ~ In k ks -> last_pos k ks idx p = p.
Proof.
  induction ks as [|a ks IH]; intros idx p H; simpl; [reflexivity|].
  rewrite IH by (intros Hin; apply H; now right).
  destruct (Z.eqb_spec a k); [exfalso; apply H; now left | reflexivity].
Qed.


Lemma last_pos_In k ks : forall idx p,
  In k ks ->
  exists i, nth_error ks i = Some k /\ last_pos k ks idx p = idx + Z.of_nat i.
Proof.
  induction ks as [|a ks IH]; intros idx p Hin; [destruct Hin|].
  destruct (in_dec Z.eq_dec k ks) as [Hk|Hk].
  - destruct (IH (idx + 1) (if a =? k then idx else p) Hk) as [i [Hn Hl]].
    exists (S i). simpl. split; [assumption|]. rewrite Hl. lia.
  - destruct Hin as [->|Hin]; [|contradiction].
    exists O. simpl. rewrite Z.eqb_refl, last_pos_absent by assumption.
    split; [reflexivity|lia].
Qed.

Lemma py_in_list_names order ks k :
  Forall2 names order ks -> py_in_list k order = existsb (Z.eqb k) ks.
Proof.
  induction 1 as [|tid k' order ks [_ Hk] _ IH]; simpl; [reflexivity|].
  unfold py_in_list in *. simpl. rewrite Hk, IH, (Z.eqb_sym k' k).
  reflexivity.
Qed.

Lemma existsb_eqb_In k ks : existsb (Z.eqb k) ks = true <-> In k ks.
Proof.
  rewrite existsb_exists. split.
  - intros [x [Hin Hx]]. apply Z.eqb_eq in Hx. now subst.
  - intros Hin. exists k. split; [assumption|apply Z.eqb_refl].
Qed.

Lemma store_ok_dict_update k f d :
  (forall t, id (f t) = id t) -> store_ok d -> store_ok (dict_update k f d).
Proof.
  intros Hf [Hnd Hid]. split; [now rewrite keys_dict_update|].
  clear Hnd. induction Hid as [|[k' v] d Hv Hd IH]; simpl; [constructor|].
  destruct (k' =? k); constructor; simpl in *; auto. now rewrite Hf.
Qed.

Lemma store_ok_positions_from ks : forall idx d,
  store_ok d -> store_ok (positions_from ks idx d).
Proof.
  induction ks as [|k ks IH]; intros idx d H; simpl; [assumption|].
  apply IH. now apply store_ok_dict_update.
Qed.

Lemma keys_filter_by_id (P : Z -> bool) d :
  store_ok d -> keys (filter (fun e => P (id (snd e))) d) = filter P (keys d).
Proof.
  intros [_ Hid]. induction Hid as [|[k v] d Hv Hd IH]; simpl; [reflexivity|].
  simpl in Hv. rewrite Hv. destruct (P k); simpl; now rewrite IH.
Qed.

Lemma remaining_of_positions order ks idx d :
  store_ok d -> Forall2 names order ks ->
  remaining_of order (positions_from ks idx d) = unmentioned ks d.
Proof.
  intros Hok Hn. unfold remaining_of, unmentioned.
  rewrite (keys_filter_by_id (fun k => negb (py_in_list k order)))
    by now apply store_ok_positions_from.
  rewrite keys_positions_from. apply filter_ext. intros k.
  now rewrite (py_in_list_names _ _ _ Hn).
Qed.

Lemma missing_ids_none order ks d :
  Forall2 names order ks -> incl ks (keys d) -> missing_ids order d = inr [].
Proof.
  induction 1 as [|tid k order ks [Hh Hk] _ IH]; intros Hincl; [reflexivity|].
  simpl. rewrite (py_in_dict_hashable _ _ Hh). unfold id_exists. rewrite Hk.
  assert (Hex : existsb (Z.eqb k) (keys d) = true)
    by (apply existsb_eqb_In, Hincl; now left).
  rewrite Hex, IH; [reflexivity|]. intros x Hx. apply Hincl. now right.
Qed.

(** The dict left by a successful [reorder_todos]. *)
Definition reordered (ks : list Z) (d : dict) : dict :=
  positions_from (unmentioned ks d) (Z.of_nat (List.length ks) + 1)
    (positions_from ks 1 d).

Lemma reorder_todos_run body order ks s :
  store_ok (TODOS s) ->
  py_get (get_json_or_empty body) "order" JNull = inr (JArr order) ->
  Forall2 names order ks ->
  incl ks (keys (TODOS s)) ->
  reorder_todos body s =
  (inr (PTodos (sort_by_position (values (reordered ks (TODOS s)))), 200),
   mkState (reordered ks (TODOS s)) (NEXT_ID s)).
Proof.
  intros Hok Hb Hn Hincl. unfold reorder_todos.
  unfold bind at 1. unfold lift at 1. rewrite Hb.
  unfold bind at 1. unfold get_TODOS at 1.
  unfold bind at 1. unfold lift at 1.
  rewrite (missing_ids_none _ _ _ Hn Hincl).
  unfold bind at 1. rewrite (apply_order_run _ _ Hn _ _ Hincl).
  unfold bind at 1. unfold get_TODOS at 1. cbn [TODOS NEXT_ID].
  unfold bind at 1. rewrite assign_remaining_run. cbn [TODOS NEXT_ID].
  rewrite (remaining_of_positions _ _ _ _ Hok Hn).
  rewrite (Forall2_length Hn). reflexivity.
Qed.

Lemma reordered_lookup ks d k t :
  dict_get k d = Some t ->
  dict_get k (reordered ks d) =
  Some (set_position
          (last_pos k (unmentioned ks d) (Z.of_nat (List.length ks) + 1)
             (last_pos k ks 1 (position t))) t).
Proof.
  intros H. unfold reordered. rewrite !dict_get_positions_from, H.
  reflexivity.
Qed.


Lemma unmentioned_In ks d k :
  In k (unmentioned ks d) <-> In k (keys d) /\ ~ In k ks.
Proof.
  unfold unmentioned. rewrite filter_In, negb_true_iff.
  pose proof (existsb_eqb_In k ks) as Hk.
  destruct (existsb (Z.eqb k) ks); split; intros [H1 H2]; split; auto.
  - discriminate.
  - exfalso. apply H2, Hk. reflexivity.
  - intros Hin. apply Hk in Hin. discriminate.
Qed.

Lemma unmentioned_NoDup ks d : NoDup (keys d) -> NoDup (unmentioned ks d).
Proof. apply NoDup_filter. Qed.



(** ** Reorder: the positions as a whole *)

(** The position [reordered ks d] leaves on the task under [k] that had
    position [p]. *)
Definition new_pos (ks : list Z) (d : dict) (k p : Z) : Z :=
  last_pos k (unmentioned ks d) (Z.of_nat (List.length ks) + 1)
    (last_pos k ks 1 p).

Lemma dict_ext d : forall d',
  NoDup (keys d) -> keys d' = keys d ->
  (forall k, dict_get k d' = dict_get k d) -> d' = d.
Proof.
  induction d as [|[k t] d IH]; intros [|[k' t'] d'] Hnd Hkeys Hget;
    try discriminate; [reflexivity|].
  simpl in Hkeys. inversion Hkeys; subst k'. inversion Hnd; subst.
  pose proof (Hget k) as Hk. simpl in Hk. rewrite Z.eqb_refl in Hk.
  inversion Hk; subst t'. f_equal. apply IH; auto.
  intros k0. specialize (Hget k0). simpl in Hget.
  destruct (Z.eqb_spec k k0); [subst k0|assumption].
  transitivity (@None todo); [|symmetry]; apply dict_get_None; congruence.
Qed.

Lemma dict_get_map_values (F : Z -> todo -> todo) d k :
  dict_get k (map (fun e => (fst e, F (fst e) (snd e))) d) =
  option_map (F k) (dict_get k d).
Proof.
  induction d as [|[k' t] d IH]; simpl; [reflexivity|].
  destruct (Z.eqb_spec k' k); [now subst | assumption].
Qed.

Lemma reordered_entries ks d :
  NoDup (keys d) ->
  reordered ks d =
  map (fun e => (fst e,
                 set_position (new_pos ks d (fst e) (position (snd e)))
                   (snd e))) d.
Proof.
  intros Hnd. symmetry. apply dict_ext.
  - unfold reordered. now rewrite !keys_positions_from.
  - unfold reordered. rewrite !keys_positions_from.
    unfold keys. rewrite map_map. reflexivity.
  - intros k.
    rewrite (dict_get_map_values
               (fun k t => set_position (new_pos ks d k (position t)) t)).
    unfold reordered. rewrite !dict_get_positions_from.
    now destruct (dict_get k d).
Qed.

Lemma reordered_positions ks d :
  NoDup (keys d) ->
  map position (values (reordered ks d)) =
  map (fun e => new_pos ks d (fst e) (position (snd e))) d.
Proof.
  intros Hnd. rewrite (reordered_entries _ _ Hnd).
  unfold values. rewrite !map_map. reflexivity.
Qed.

(** Every new position is one more than an index at which the key stands
    in the order followed by the unmentioned keys. *)
Lemma new_pos_index ks d k p :
  In k (keys d) ->
  exists i,
    nth_error (ks ++ unmentioned ks d) i = Some k
    /\ new_pos ks d k p = 1 + Z.of_nat i.
Proof.
  intros Hk. unfold new_pos.
  destruct (in_dec Z.eq_dec k ks) as [Hin|Hnot].
  - rewrite last_pos_absent
      by (rewrite unmentioned_In; intros [_ H]; contradiction).
    destruct (last_pos_In k ks 1 p Hin) as [i [Hn Hl]].
    exists i. split; [|assumption].
    rewrite nth_error_app1; [assumption|].
    apply nth_error_Some. congruence.
  - rewrite (last_pos_absent k ks) by assumption.
    assert (Hu : In k (unmentioned ks d)) by (apply unmentioned_In; auto).
    destruct (last_pos_In k _ (Z.of_nat (List.length ks) + 1) p Hu)
      as [j [Hn Hl]].
    exists (List.length ks + j)%nat. split; [|rewrite Hl; lia].
    rewrite nth_error_app2 by lia.
    now replace (List.length ks + j - List.length ks)%nat with j by lia.
Qed.

Lemma entries_same_key d e1 e2 :
  NoDup (keys d) -> In e1 d -> In e2 d -> fst e1 = fst e2 -> e1 = e2.
Proof.
  intros Hnd H1 H2 Hk. destruct e1 as [k t1], e2 as [k' t2].
  simpl in Hk; subst k'.
  apply (In_dict_get _ _ _ Hnd) in H1. apply (In_dict_get _ _ _ Hnd) in H2.
  congruence.
Qed.

Lemma reordered_positions_NoDup ks d :
  NoDup (keys d) -> NoDup (map position (values (reordered ks d))).
Proof.
  intros Hnd. rewrite (reordered_positions _ _ Hnd).
  apply NoDup_map_NoDup_ForallPairs; [|now apply NoDup_map_inv in Hnd].
  intros e1 e2 H1 H2 Heq. apply (entries_same_key d); auto.
  assert (K1 : In (fst e1) (keys d)) by now apply in_map.
  assert (K2 : In (fst e2) (keys d)) by now apply in_map.
  destruct (new_pos_index ks d _ (position (snd e1)) K1) as [i1 [N1 P1]].
  destruct (new_pos_index ks d _ (position (snd e2)) K2) as [i2 [N2 P2]].
  assert (i1 = i2) by lia. subst i2. congruence.
Qed.

Lemma reordered_positions_range ks d :
  NoDup (keys d) ->
  incl (map position (values (reordered ks d)))
    (zseq 1 (List.length (ks ++ unmentioned ks d))).
Proof.
  intros Hnd p Hp. rewrite (reordered_positions _ _ Hnd) in Hp.
  apply in_map_iff in Hp as [e [<- He]].
  assert (K : In (fst e) (keys d)) by now apply in_map.
  destruct (new_pos_index ks d _ (position (snd e)) K) as [i [Hn Hpos]].
  apply zseq_In. assert (i < List.length (ks ++ unmentioned ks d))%nat
    by (apply nth_error_Some; congruence).
  lia.
Qed.

Lemma mentioned_and_unmentioned ks d :
  NoDup (keys d) -> NoDup ks -> incl ks (keys d) ->
  List.length (ks ++ unmentioned ks d) = List.length d.
Proof.
  intros Hnd Hks Hincl.
  transitivity (List.length (keys d)); [|apply length_map].
  apply Permutation_length, NoDup_Permutation; auto.
  - apply NoDup_app; auto; [now apply unmentioned_NoDup|].
    intros a Ha Hu. apply unmentioned_In in Hu as [_ Hu]. contradiction.
  - intros k. rewrite in_app_iff, unmentioned_In. split.
    + intros [H|[H _]]; auto.
    + intros H. destruct (in_dec Z.eq_dec k ks); auto.
Qed.

Lemma sorted_le_perm_eq l1 : forall l2,
  StronglySorted Z.le l1 -> StronglySorted Z.le l2 -> Permutation l1 l2 ->
  l1 = l2.
Proof.
  induction l1 as [|x l1 IH]; intros l2 H1 H2 Hp.
  - apply Permutation_nil in Hp. now subst.
  - destruct l2 as [|y l2];
      [apply Permutation_sym, Permutation_nil in Hp; discriminate|].
    inversion H1 as [|? ? Hs1 Hx]; subst. inversion H2 as [|? ? Hs2 Hy]; subst.
    assert (x = y).
    { rewrite Forall_forall in Hx, Hy.
      pose proof (Permutation_in x Hp (or_introl eq_refl)) as [->|Hxin];
        [reflexivity|].
      pose proof (Permutation_in y (Permutation_sym Hp) (or_introl eq_refl))
        as [->|Hyin]; [reflexivity|].
      specialize (Hx _ Hyin). specialize (Hy _ Hxin). lia. }
    subst y. f_equal. apply IH; auto. now apply Permutation_cons_inv in Hp.
Qed.

Lemma sorted_positions l :
  Sorted by_position l -> StronglySorted Z.le (map position l).
Proof.
  intros H. apply Sorted_StronglySorted; [intros x y z; apply Z.le_trans|].
  induction H as [|t l Hs IH Hhd]; simpl; constructor; auto.
  destruct Hhd; simpl; constructor. assumption.
Qed.

Lemma zseq_sorted_le a n : StronglySorted Z.le (zseq a n).
Proof.
  revert a. induction n as [|n IH]; intros a; simpl; constructor; auto.
  apply Forall_forall. intros x Hx. apply zseq_In in Hx. lia.
Qed.

(** C5 (the claim fails on this request).  With tasks 1 and 2 in the
    store, the order [1, 2, 2] is accepted and leaves the positions 1 and 3:
    position 2 is a gap. *)
Lemma reorder_repeated_id_leaves_gap :
  let t1 := mkTodo 1 (JStr "A") false 1 1 in
  let t2 := mkTodo 2 (JStr "B") false 1 2 in
  let s := mkState [(1, t1); (2, t2)] 3 in
  let body := Some (JObj [("order", JArr [JInt 1; JInt 2; JInt 2])]) in
  let d' := [(1, set_position 1 t1); (2, set_position 3 t2)] in
  store_ok (TODOS s)
  /\ reorder_todos body s
     = (inr (PTodos (values d'), 200), mkState d' 3)
  /\ ~ contiguous (map position (values d')).
Proof.
  cbv zeta. split; [|split].
  - split; simpl.
    + repeat constructor; simpl; intuition lia.
    + repeat constructor.
  - reflexivity.
  - intros [a Hperm]. simpl in Hperm.
    pose proof (Permutation_in 1 Hperm (or_introl eq_refl)) as H1.
    pose proof (Permutation_in 3 Hperm (or_intror (or_introl eq_refl))) as H3.
    simpl in H1, H3. lia.
Qed.

(** C5 (as amended).  After a successful [reorder_todos] no two tasks of
    the store share a position, and every position lies between 1 and
    [len(order)] plus the number of unmentioned tasks; when no id is
    repeated in the order, the positions of the store are exactly
    1, 2, ..., n for the n tasks of the store. *)
Theorem reorder_todos_positions_contiguous
    (body : option json) (order : list json) (ks : list Z) (s : state) :
  store_ok (TODOS s) ->
  py_get (get_json_or_empty body) "order" JNull = inr (JArr order) ->
  Forall2 names order ks ->
  incl ks (keys (TODOS s)) ->
  exists l d',
    reorder_todos body s = (inr (PTodos l, 200), mkState d' (NEXT_ID s))
    /\ NoDup (map position (values d'))
    /\ incl (map position (values d'))
         (zseq 1 (List.length order
                  + List.length (unmentioned ks (TODOS s))))
    /\ (NoDup ks ->
        Permutation (map position (values d'))
          (zseq 1 (List.length (values d')))
        /\ contiguous (map position (values d'))
        /\ map position l = zseq 1 (List.length l)).
Proof.
  intros Hok Hb Hn Hincl.
  exists (sort_by_position (values (reordered ks (TODOS s)))),
    (reordered ks (TODOS s)).
  destruct Hok as [Hnd Hid].
  split; [apply reorder_todos_run with (order := order) (ks := ks);
          auto; now split|].
  split; [now apply reordered_positions_NoDup|].
  split.
  - rewrite (Forall2_length Hn), <- length_app.
    now apply reordered_positions_range.
  - intros Hks.
    assert (Hlen : List.length (values (reordered ks (TODOS s)))
                   = List.length (TODOS s)).
    { unfold values. rewrite length_map.
      rewrite <- (length_map fst (reordered ks (TODOS s))).
      change (map fst (reordered ks (TODOS s)))
        with (keys (reordered ks (TODOS s))).
      unfold reordered. rewrite !keys_positions_from.
      unfold keys. apply length_map. }
    assert (Hperm : Permutation
                      (map position (values (reordered ks (TODOS s))))
                      (zseq 1 (List.length (values (reordered ks (TODOS s)))))).
    { apply NoDup_Permutation_bis.
      - now apply reordered_positions_NoDup.
      - rewrite zseq_length, length_map. apply Nat.le_refl.
      - rewrite Hlen, <- (mentioned_and_unmentioned ks (TODOS s)) by auto.
        now apply reordered_positions_range. }
    split; [assumption|]. split.
    + exists 1. now rewrite length_map.
    + apply sorted_le_perm_eq.
      * apply sorted_positions, sort_by_position_sorted.
      * apply zseq_sorted_le.
      * rewrite <- (Permutation_length
                      (sort_by_position_perm (values (reordered ks (TODOS s))))).
        rewrite <- Hperm. apply Permutation_map, Permutation_sym,
          sort_by_position_perm.
Qed.

(* ------------------------------------------------------------------ *)
(** * The theorems on concrete requests *)

(** A store with three tasks, the second one done. *)
Definition sample_state : state :=
  mkState [(1, mkTodo 1 (JStr "A") false 1 1);
           (2, mkTodo 2 (JStr "B") true 5 2);
           (3, mkTodo 3 (JStr "C") false 2 3)] 4.

Lemma sample_state_ok : store_ok (TODOS sample_state).
Proof.
  split; simpl.
  - repeat constructor; simpl; intuition lia.
  - repeat constructor.
Defined.

Lemma delete_many_todos_spec_witness :
  exists deleted d',
    delete_many_todos (Some "TRUE") sample_state =
      (inr (PDeletedIds deleted (completed_only_flag (Some "TRUE")), 200),
       mkState d' (NEXT_ID sample_state))
    /\ (completed_only_flag (Some "TRUE") = true ->
        deleted = map id (filter (fun t => is_done t)
                            (values (TODOS sample_state)))
        /\ d' = filter (fun e => negb (is_done (snd e))) (TODOS sample_state))
    /\ (completed_only_flag (Some "TRUE") = false ->
        deleted = map id (values (TODOS sample_state)) /\ d' = [])
    /\ (TODOS sample_state = [] -> deleted = [] /\ d' = []).
Proof.
  apply (delete_many_todos_spec (Some "TRUE") sample_state).
  exact sample_state_ok.
Defined.

Lemma reorder_unknown_ids_rejected_witness :
  let order := [JInt 3; JInt 7; JStr "1"; JBool true] in
  let body := Some (JObj [("order", JArr order)]) in
  exists missing,
    missing = filter (fun tid => negb (id_exists tid (TODOS sample_state)))
                order
    /\ missing <> []
    /\ reorder_todos body sample_state
       = (inr (PError (UnknownIds missing), 400), sample_state).
Proof.
  cbv zeta.
  apply (reorder_unknown_ids_rejected
           (Some (JObj [("order", JArr [JInt 3; JInt 7; JStr "1"; JBool true])]))
           [JInt 3; JInt 7; JStr "1"; JBool true] sample_state);
    reflexivity.
Defined.

(** Four items: a plain one, one without title (and with a priority that
    [int] rejects), one with an empty title, one with string fields. *)
Definition sample_items : list (list (string * json)) :=
  [ [("title", JStr "a")];
    [("priority", JNull)];
    [("title", JStr "")];
    [("title", JStr "b"); ("is_done", JStr "false"); ("priority", JStr "7")] ].

Lemma sample_items_ok :
  Forall (fun o => truthy (item_title o) = true ->
                   exists p, py_int decimal_of_string (item_priority o) = inr p)
    sample_items.
Proof.
  repeat constructor.
  - intros _. exists 1. reflexivity.
  - intros H. discriminate H.
  - intros H. discriminate H.
  - intros _. exists 7. reflexivity.
Defined.

Lemma create_todos_bulk_skips_invalid_items_witness :
  let body := Some (JObj [("items", JArr (map JObj sample_items))]) in
  exists created s',
    create_todos_bulk decimal_of_string body sample_state =
      (inr (PCreated created (Z.of_nat (List.length created)), 201), s')
    /\ NEXT_ID s' = NEXT_ID sample_state + Z.of_nat (List.length created)
    /\ TODOS s' = store_all created (TODOS sample_state)
    /\ Forall2 (made_from decimal_of_string)
         (filter (fun o => truthy (item_title o)) sample_items) created
    /\ map id created = zseq (NEXT_ID sample_state) (List.length created)
    /\ (forall t, In t created -> dict_get (id t) (TODOS s') = Some t)
    /\ (forall k, ~ In k (map id created) ->
                  dict_get k (TODOS s') = dict_get k (TODOS sample_state))
    /\ (forall o, lookup "title" o = None \/ lookup "title" o = Some (JStr "") ->
                  truthy (item_title o) = false).
Proof.
  cbv zeta.
  apply (create_todos_bulk_skips_invalid_items decimal_of_string
           (Some (JObj [("items", JArr (map JObj sample_items))]))
           sample_items sample_state).
  - reflexivity.
  - exact sample_items_ok.
Defined.

Lemma creation_coerces_is_done_and_priority_witness :
  let o := [("title", JStr "b"); ("is_done", JStr "false");
            ("priority", JStr "7")] in
  exists t s',
    create_todo decimal_of_string (Some (JObj o)) sample_state
      = (inr (PTodo t, 201), s')
    /\ dict_get (id t) (TODOS s') = Some t
    /\ is_done t = truthy (item_is_done o)
    /\ priority t = 7.
Proof.
  cbv zeta.
  apply (proj1 (proj2 (creation_coerces_is_done_and_priority
                         decimal_of_string))
           (Some (JObj [("title", JStr "b"); ("is_done", JStr "false");
                        ("priority", JStr "7")]))
           [("title", JStr "b"); ("is_done", JStr "false");
            ("priority", JStr "7")]
           sample_state 7);
    reflexivity.
Defined.

Lemma ids_unique_increasing_never_reused_witness :
  let rs := [POST_todos (Some (JObj [("title", JStr "A")]));
             POST_todos_bulk
               (Some (JObj [("items", JArr (map JObj sample_items))]));
             DELETE_todo 1;
             POST_todos (Some (JObj [("title", JStr "C")]))] in
  let outs := fst (serve decimal_of_string rs initial_state) in
  let s' := snd (serve decimal_of_string rs initial_state) in
  forallb answered outs = true
  /\ created_ids rs outs = zseq 1 (List.length (created_ids rs outs))
  /\ NEXT_ID s' = 1 + Z.of_nat (List.length (created_ids rs outs)).
Proof.
  cbv zeta. split; [reflexivity|].
  apply (ids_unique_increasing_never_reused decimal_of_string
           [POST_todos (Some (JObj [("title", JStr "A")]));
            POST_todos_bulk
              (Some (JObj [("items", JArr (map JObj sample_items))]));
            DELETE_todo 1;
            POST_todos (Some (JObj [("title", JStr "C")]))]).
  reflexivity.
Defined.

Lemma updates_touch_only_their_fields_witness :
  let t := mkTodo 2 (JStr "B") true 5 2 in
  let o := [("priority", JStr "9"); ("title", JStr "B2")] in
  exists t' d',
    patch_todo decimal_of_string [F_priority; F_title; F_is_done] 2
      (Some (JObj o)) sample_state
      = (inr (PTodo t', 200), mkState d' (NEXT_ID sample_state))
    /\ only_changes 2 t' (TODOS sample_state) d'
    /\ id t' = id t /\ position t' = position t
    /\ title t' = match lookup "title" o with
                  | Some v => v
                  | None => title t
                  end
    /\ is_done t' = match lookup "is_done" o with
                    | Some v => truthy v
                    | None => is_done t
                    end
    /\ match lookup "priority" o with
       | Some v => py_int decimal_of_string v = inr (priority t')
       | None => priority t' = priority t
       end.
Proof.
  cbv zeta.
  apply (proj2 (proj2 (updates_touch_only_their_fields decimal_of_string))
           [F_priority; F_title; F_is_done] 2
           (Some (JObj [("priority", JStr "9"); ("title", JStr "B2")]))
           [("priority", JStr "9"); ("title", JStr "B2")]
           (mkTodo 2 (JStr "B") true 5 2) sample_state).
  - intros f. destruct f; simpl; auto.
  - reflexivity.
  - reflexivity.
  - exists F_title. discriminate.
  - intros v H. inversion H; subst. exists 9. reflexivity.
Defined.

Lemma sample_order_names :
  Forall2 names [JInt 3; JBool true] [3; 1].
Proof. repeat constructor. Defined.

Lemma sample_order_incl : incl [3; 1] (keys (TODOS sample_state)).
Proof. intros x [<-|[<-|[]]]; simpl; auto. Defined.


Lemma reorder_todos_positions_contiguous_witness :
  let order := [JInt 3; JBool true] in
  let ks := [3; 1] in
  let body := Some (JObj [("order", JArr order)]) in
  let s := sample_state in
  exists l d',
    reorder_todos body s = (inr (PTodos l, 200), mkState d' (NEXT_ID s))
    /\ NoDup (map position (values d'))
    /\ incl (map position (values d'))
         (zseq 1 (List.length order
                  + List.length (unmentioned ks (TODOS s))))
    /\ (NoDup ks ->
        Permutation (map position (values d'))
          (zseq 1 (List.length (values d')))
        /\ contiguous (map position (values d'))
        /\ map position l = zseq 1 (List.length l)).
Proof.
  cbv zeta.
  apply (reorder_todos_positions_contiguous
           (Some (JObj [("order", JArr [JInt 3; JBool true])]))
           [JInt 3; JBool true] [3; 1] sample_state).
  - exact sample_state_ok.
  - reflexivity.
  - exact sample_order_names.
  - exact sample_order_incl.
Defined.

(* ------------------------------------------------------------------ *)
(** * Further properties of the handlers *)

(** ** What every request keeps: the shape of the store *)

(** The store as every handler leaves it: keys in strictly ascending order
    (so iteration order is id order), every task under its own id, every
    key between 1 and the counter. *)
Definition state_ok (s : state) : Prop :=
  StronglySorted Z.lt (keys (TODOS s))
  /\ Forall (fun e => id (snd e) = fst e) (TODOS s)
  /\ Forall (fun k => 1 <= k < NEXT_ID s) (keys (TODOS s))
  /\ 1 <= NEXT_ID s.

(** How a state may change while requests are served: the counter does not
    go down, the shape of the store is kept, and a key of the new store is
    either a key of the old one or a value the counter has passed in
    between. *)
Definition evolves (s s' : state) : Prop :=
  NEXT_ID s <= NEXT_ID s'
  /\ (state_ok s -> state_ok s')
  /\ (forall k, In k (keys (TODOS s')) ->
                In k (keys (TODOS s)) \/ NEXT_ID s <= k < NEXT_ID s').

(** A computation all of whose writes are of that kind. *)
Definition respects {A} (m : M A) : Prop :=
  forall s, evolves s (snd (m s)).

Lemma StronglySorted_lt_NoDup l : StronglySorted Z.lt l -> NoDup l.
Proof.
  induction 1 as [|x l Hs IH Hx]; constructor; auto.
  intros Hin. rewrite Forall_forall in Hx. specialize (Hx x Hin). lia.
Qed.

Lemma state_ok_store_ok s : state_ok s -> store_ok (TODOS s).
Proof.
  intros [Hs [Hid _]]. split; [now apply StronglySorted_lt_NoDup | assumption].
Qed.

Lemma evolves_refl s : evolves s s.
Proof. split; [lia|]. split; [auto|]. intros k Hk. now left. Qed.

Lemma evolves_trans s1 s2 s3 : evolves s1 s2 -> evolves s2 s3 -> evolves s1 s3.
Proof.
  intros [Hn1 [Hok1 Hk1]] [Hn2 [Hok2 Hk2]]. split; [lia|]. split; [auto|].
  intros k Hk. destruct (Hk2 k Hk) as [H|H]; [|right; lia].
  destruct (Hk1 k H) as [H'|H']; [now left | right; lia].
Qed.

Lemma ids_dict_update k f d :
  (forall t, id (f t) = id t) ->
  Forall (fun e => id (snd e) = fst e) d ->
  Forall (fun e => id (snd e) = fst e) (dict_update k f d).
Proof.
  intros Hf Hid. induction Hid as [|[k' v] d Hv Hd IH]; simpl; [constructor|].
  destruct (k' =? k); constructor; simpl in *; auto. now rewrite Hf.
Qed.

Lemma ids_dict_set k u d :
  id u = k ->
  Forall (fun e => id (snd e) = fst e) d ->
  Forall (fun e => id (snd e) = fst e) (dict_set k u d).
Proof.
  intros Hu Hid. induction Hid as [|[k' v] d Hv Hd IH]; simpl.
  - repeat constructor. assumption.
  - destruct (Z.eqb_spec k' k); constructor; simpl in *; auto. congruence.
Qed.

Lemma dict_pop_incl k d : incl (dict_pop k d) d.
Proof.
  induction d as [|[k' v] d IH]; simpl; [intros x H; exact H|].
  destruct (k' =? k); intros x Hx.
  - now right.
  - destruct Hx as [<-|Hx]; [now left | right; now apply IH].
Qed.

Lemma keys_dict_pop_incl k d : incl (keys (dict_pop k d)) (keys d).
Proof.
  intros x Hx. unfold keys in *. apply in_map_iff in Hx as [e [<- He]].
  apply in_map. now apply (dict_pop_incl k d).
Qed.

Lemma keys_dict_pop_sorted k d :
  StronglySorted Z.lt (keys d) -> StronglySorted Z.lt (keys (dict_pop k d)).
Proof.
  induction d as [|[k' v] d IH]; simpl; intros H; [assumption|].
  inversion H as [|? ? Hs Hx]; subst.
  destruct (k' =? k); [assumption|]. simpl. constructor; [now apply IH|].
  rewrite Forall_forall in *. intros x Hx'. apply Hx.
  now apply (keys_dict_pop_incl k d).
Qed.

Lemma keys_dict_set_cases k u d x :
  In x (keys (dict_set k u d)) -> In x (keys d) \/ x = k.
Proof.
  induction d as [|[k' v] d IH]; simpl.
  - intros [<-|[]]. now right.
  - destruct (Z.eqb_spec k' k); simpl.
    + intros [<-|H]; auto.
    + intros [<-|H]; auto. destruct (IH H); auto.
Qed.

Lemma evolves_update k f d n :
  (forall t, id (f t) = id t) ->
  evolves (mkState d n) (mkState (dict_update k f d) n).
Proof.
  intros Hf. unfold evolves, state_ok. cbn [TODOS NEXT_ID].
  rewrite keys_dict_update. split; [lia|]. split; [|auto].
  intros [Hs [Hid [Hb Hn]]]. repeat split; auto.
  now apply ids_dict_update.
Qed.

Lemma evolves_set_present k t u d n :
  dict_get k d = Some t -> id u = k ->
  evolves (mkState d n) (mkState (dict_set k u d) n).
Proof.
  intros Hget Hu. unfold evolves, state_ok. cbn [TODOS NEXT_ID].
  rewrite keys_dict_set_present by (eapply dict_get_keys; eauto).
  split; [lia|]. split; [|auto].
  intros [Hs [Hid [Hb Hn]]]. repeat split; auto.
  now apply ids_dict_set.
Qed.

Lemma evolves_pop k d n : evolves (mkState d n) (mkState (dict_pop k d) n).
Proof.
  unfold evolves, state_ok. cbn [TODOS NEXT_ID].
  split; [lia|]. split.
  - intros [Hs [Hid [Hb Hn]]]. repeat split; auto.
    + now apply keys_dict_pop_sorted.
    + rewrite Forall_forall in *. intros e He. apply Hid.
      now apply (dict_pop_incl k d).
    + rewrite Forall_forall in *. intros x Hx. apply Hb.
      now apply (keys_dict_pop_incl k d).
  - intros x Hx. left. now apply (keys_dict_pop_incl k d).
Qed.

Lemma evolves_clear d n : evolves (mkState d n) (mkState [] n).
Proof.
  unfold evolves, state_ok. cbn [TODOS NEXT_ID keys map].
  split; [lia|]. split; [|intros k []].
  intros [_ [_ [_ Hn]]]. repeat split; auto; constructor.
Qed.

Lemma evolves_counter d n : evolves (mkState d n) (mkState d (n + 1)).
Proof.
  unfold evolves, state_ok. cbn [TODOS NEXT_ID].
  split; [lia|]. split; [|auto].
  intros [Hs [Hid [Hb Hn]]]. repeat split; auto; try lia.
  eapply Forall_impl; [|exact Hb]. simpl. intros; lia.
Qed.

Lemma evolves_create t d n :
  id t = n -> evolves (mkState d n) (mkState (dict_set n t d) (n + 1)).
Proof.
  intros Ht. unfold evolves, state_ok. cbn [TODOS NEXT_ID].
  split; [lia|]. split.
  - intros [Hs [Hid [Hb Hn]]].
    assert (Hfresh : ~ In n (keys d)).
    { intros Hin. rewrite Forall_forall in Hb. specialize (Hb n Hin). lia. }
    rewrite (dict_set_absent _ _ _ Hfresh). unfold keys. rewrite map_app.
    fold (keys d). cbn [map fst]. repeat split; try lia.
    + apply StronglySorted_app_lt with (b := n); auto.
      * repeat constructor.
      * eapply Forall_impl; [|exact Hb]. simpl. intros; lia.
      * repeat constructor. lia.
    + apply Forall_app. split; [assumption|]. repeat constructor. assumption.
    + apply Forall_app. split.
      * eapply Forall_impl; [|exact Hb]. simpl. intros; lia.
      * repeat constructor; lia.
  - intros x Hx. apply keys_dict_set_cases in Hx as [H| ->]; [now left|].
    right. lia.
Qed.

(** ** The handlers as case analyses *)

Lemma delete_todo_eq k s :
  delete_todo k s =
  match dict_get k (TODOS s) with
  | None => (inr (PError TodoNotFound, 404), s)
  | Some _ =>
      (inr (PDeletedId k, 200), mkState (dict_pop k (TODOS s)) (NEXT_ID s))
  end.
Proof.
  unfold delete_todo. run. destruct (dict_get k (TODOS s)) eqn:Hget.
  - reflexivity.
  - rewrite dict_pop_absent by now apply dict_get_None. now destruct s.
Qed.

Lemma put_todo_status_eq k body s :
  put_todo_status k body s =
  match dict_get k (TODOS s) with
  | None => (inr (PError TodoNotFound, 404), s)
  | Some t =>
      match py_in "is_done" (get_json_or_empty body) with
      | inl e => (inl e, s)
      | inr false => (inr (PError IsDoneRequired, 400), s)
      | inr true =>
          match py_getitem (get_json_or_empty body) "is_done" with
          | inl e => (inl e, s)
          | inr v =>
              (inr (PTodo (set_is_done (truthy v) t), 200),
               mkState (dict_set k (set_is_done (truthy v) t) (TODOS s))
                 (NEXT_ID s))
          end
      end
  end.
Proof.
  unfold put_todo_status, get_todo_or_404. run.
  destruct (dict_get k (TODOS s)) eqn:Hget; [|reflexivity]. simpl.
  destruct (py_in "is_done" (get_json_or_empty body)) as [e|[|]];
    try reflexivity. simpl.
  destruct (py_getitem (get_json_or_empty body) "is_done"); [reflexivity|].
  simpl. rewrite (dict_update_as_set _ _ _ _ Hget), dict_get_set, Z.eqb_refl.
  cbn [TODOS NEXT_ID]. now rewrite dict_set_set.
Qed.

Lemma reorder_todos_eq body s :
  reorder_todos body s =
  match py_get (get_json_or_empty body) "order" JNull with
  | inl e => (inl e, s)
  | inr (JArr order) =>
      match missing_ids order (TODOS s) with
      | inl e => (inl e, s)
      | inr (tid :: rest) => (inr (PError (UnknownIds (tid :: rest)), 400), s)
      | inr [] =>
          match apply_order order 1 s with
          | (inl e, s1) => (inl e, s1)
          | (inr _, s1) =>
              let d' := positions_from (remaining_of order (TODOS s1))
                          (Z.of_nat (List.length order) + 1) (TODOS s1) in
              (inr (PTodos (sort_by_position (values d')), 200),
               mkState d' (NEXT_ID s1))
          end
      end
  | inr _ => (inr (PError OrderMustBeList, 400), s)
  end.
Proof.
  unfold reorder_todos. unfold bind at 1. unfold lift at 1.
  destruct (py_get (get_json_or_empty body) "order" JNull) as [e|v];
    [reflexivity|].
  destruct v; try reflexivity.
  unfold bind at 1. unfold get_TODOS at 1.
  unfold bind at 1. unfold lift at 1.
  destruct (missing_ids items (TODOS s)) as [e|[|tid rest]]; try reflexivity.
  unfold bind at 1.
  destruct (apply_order items 1 s) as [[e|[]] s1]; [reflexivity|].
  unfold bind at 1. unfold get_TODOS at 1.
  unfold bind at 1. rewrite assign_remaining_run. reflexivity.
Qed.

Section HandlersEq.

Variable int_of_str : string -> option Z.

Lemma replace_todo_eq k body s :
  replace_todo int_of_str k body s =
  match dict_get k (TODOS s) with
  | None => (inr (PError TodoNotFound, 404), s)
  | Some t =>
      match py_all_in required_fields (get_json_or_empty body) with
      | inl e => (inl e, s)
      | inr false => (inr (PError FieldsRequired, 400), s)
      | inr true =>
          match py_getitem (get_json_or_empty body) "title" with
          | inl e => (inl e, s)
          | inr a1 =>
              match py_getitem (get_json_or_empty body) "is_done" with
              | inl e => (inl e, s)
              | inr a2 =>
                  match py_getitem (get_json_or_empty body) "priority" with
                  | inl e => (inl e, s)
                  | inr a3 =>
                      match py_int int_of_str a3 with
                      | inl e => (inl e, s)
                      | inr p =>
                          let u := mkTodo k a1 (truthy a2) p (position t) in
                          (inr (PTodo u, 200),
                           mkState (dict_set k u (TODOS s)) (NEXT_ID s))
                      end
                  end
              end
          end
      end
  end.
Proof.
  unfold replace_todo, get_todo_or_404.
  unfold bind at 1. unfold bind at 1. unfold get_TODOS at 1.
  destruct (dict_get k (TODOS s)); [|reflexivity].
  unfold ret at 1. unfold bind at 1. unfold lift at 1.
  destruct (py_all_in required_fields (get_json_or_empty body)) as [e|[|]];
    reflexivity.
Qed.

Lemma patch_todo_eq fs k body s :
  patch_todo int_of_str fs k body s =
  match dict_get k (TODOS s) with
  | None => (inr (PError TodoNotFound, 404), s)
  | Some _ =>
      match py_any_in (map field_name fs) (get_json_or_empty body) with
      | inl e => (inl e, s)
      | inr false => (inr (PError AtLeastOneRequired, 400), s)
      | inr true =>
          match patch_loop int_of_str fs k (get_json_or_empty body) s with
          | (inl e, s1) => (inl e, s1)
          | (inr _, s1) =>
              match dict_get k (TODOS s1) with
              | Some u => (inr (PTodo u, 200), s1)
              | None => (inl KeyError, s1)
              end
          end
      end
  end.
Proof.
  unfold patch_todo, get_todo_or_404.
  unfold bind at 1. unfold bind at 1. unfold get_TODOS at 1.
  destruct (dict_get k (TODOS s)); [|reflexivity].
  unfold ret at 1. unfold bind at 1. unfold lift at 1.
  destruct (py_any_in (map field_name fs) (get_json_or_empty body))
    as [e|[|]]; try reflexivity.
  cbn [negb]. unfold bind at 1.
  destruct (patch_loop int_of_str fs k (get_json_or_empty body) s)
    as [[e|[]] s1]; [reflexivity|].
  run. destruct (dict_get k (TODOS s1)) eqn:Hget; [|reflexivity].
  simpl. rewrite (dict_set_same _ _ _ Hget). now destruct s1.
Qed.

Lemma create_todo_eq body s :
  create_todo int_of_str body s =
  match get_json_or_empty body with
  | JObj o =>
      if truthy (item_title o) then
        match py_int int_of_str (item_priority o) with
        | inr p =>
            let t := mkTodo (NEXT_ID s) (item_title o)
                       (truthy (item_is_done o)) p (NEXT_ID s) in
            (inr (PTodo t, 201),
             mkState (dict_set (NEXT_ID s) t (TODOS s)) (NEXT_ID s + 1))
        | inl e => (inl e, mkState (TODOS s) (NEXT_ID s + 1))
        end
      else (inr (PError TitleRequired, 400), s)
  | _ => (inl AttributeError, s)
  end.
Proof.
  destruct (get_json_or_empty body) eqn:Hb;
    first [ now apply create_todo_run
          | unfold create_todo; rewrite Hb; reflexivity ].
Qed.

Lemma create_todos_bulk_eq body s :
  create_todos_bulk int_of_str body s =
  match py_get (get_json_or_empty body) "items" JNull with
  | inl e => (inl e, s)
  | inr (JArr items) =>
      match bulk_loop int_of_str items [] s with
      | (inr created, s') =>
          (inr (PCreated created (Z.of_nat (List.length created)), 201), s')
      | (inl e, s') => (inl e, s')
      end
  | inr _ => (inr (PError ItemsMustBeList, 400), s)
  end.
Proof.
  destruct (py_get (get_json_or_empty body) "items" JNull) as [e|v] eqn:Hb.
  - unfold create_todos_bulk. unfold bind at 1. unfold lift at 1.
    now rewrite Hb.
  - destruct v;
      first [ now apply create_todos_bulk_run
            | unfold create_todos_bulk; unfold bind at 1;
              unfold lift at 1; rewrite Hb; reflexivity ].
Qed.

End HandlersEq.

(** ** Every handler keeps the shape of the store *)

Lemma rs_ret {A} (a : A) : respects (ret a).
Proof. intros s. apply evolves_refl. Qed.

Lemma rs_lift {A} (r : exn + A) : respects (lift r).
Proof. intros s. apply evolves_refl. Qed.

Lemma rs_get_TODOS : respects get_TODOS.
Proof. intros s. apply evolves_refl. Qed.

Lemma rs_bind {A B} (m : M A) (f : A -> M B) :
  respects m -> (forall a, respects (f a)) -> respects (bind m f).
Proof.
  intros Hm Hf s. unfold bind. specialize (Hm s).
  destruct (m s) as [[e|a] s1]; simpl in *; [assumption|].
  eapply evolves_trans; [exact Hm | apply Hf].
Qed.

Lemma rs_update k f :
  (forall t, id (f t) = id t) -> respects (modify_TODOS (dict_update k f)).
Proof. intros Hf [d n]. now apply evolves_update. Qed.

Ltac rs :=
  repeat first
    [ apply rs_ret | apply rs_lift | apply rs_get_TODOS
    | apply rs_update; intros; reflexivity
    | solve [auto]
    | apply rs_bind
    | match goal with
      | |- forall _, _ => intro
      | |- respects (match ?x with _ => _ end) => destruct x
      | |- respects (let _ := _ in _) => cbv zeta
      end ].

Lemma rs_apply_order order : forall idx, respects (apply_order order idx).
Proof.
  induction order as [|tid order IH]; intros idx; simpl; [apply rs_ret|].
  apply rs_bind; [unfold assign_position; rs | intros _; apply IH].
Qed.

Lemma evolves_positions_from ks : forall idx d n,
  evolves (mkState d n) (mkState (positions_from ks idx d) n).
Proof.
  induction ks as [|k ks IH]; intros idx d n; simpl; [apply evolves_refl|].
  eapply evolves_trans; [|apply IH]. now apply evolves_update.
Qed.

Lemma evolves_pop_keys ks : forall d n,
  evolves (mkState d n) (mkState (pop_keys ks d) n).
Proof.
  induction ks as [|k ks IH]; intros d n; simpl; [apply evolves_refl|].
  eapply evolves_trans; [apply evolves_pop | apply IH].
Qed.

Lemma rs_list_todos st : respects (list_todos st).
Proof. intros s. rewrite list_todos_run. apply evolves_refl. Qed.

Lemma rs_reorder_todos body : respects (reorder_todos body).
Proof.
  intros s. rewrite reorder_todos_eq.
  destruct (py_get (get_json_or_empty body) "order" JNull) as [e|v];
    [apply evolves_refl|].
  destruct v; try apply evolves_refl.
  destruct (missing_ids items (TODOS s)) as [e|[|tid rest]];
    try apply evolves_refl.
  pose proof (rs_apply_order items 1 s) as H.
  destruct (apply_order items 1 s) as [[e|[]] [d1 n1]]; simpl in *;
    [assumption|].
  eapply evolves_trans; [exact H | apply evolves_positions_from].
Qed.

Lemma rs_delete_todo k : respects (delete_todo k).
Proof.
  intros [d n]. rewrite delete_todo_eq. cbn [TODOS NEXT_ID].
  destruct (dict_get k d); [apply evolves_pop | apply evolves_refl].
Qed.

Lemma rs_delete_many_todos arg : respects (delete_many_todos arg).
Proof.
  intros [d n]. unfold delete_many_todos.
  destruct (completed_only_flag arg).
  - run. rewrite pop_all_run. simpl. apply evolves_pop_keys.
  - simpl. apply evolves_clear.
Qed.

Lemma rs_put_todo_status k body : respects (put_todo_status k body).
Proof.
  intros [d n]. rewrite put_todo_status_eq. cbn [TODOS NEXT_ID].
  destruct (dict_get k d) as [t|] eqn:Hget; [|apply evolves_refl].
  destruct (py_in "is_done" (get_json_or_empty body)) as [e|[|]];
    try apply evolves_refl.
  destruct (py_getitem (get_json_or_empty body) "is_done");
    [apply evolves_refl|]. simpl.
  rewrite <- (dict_update_as_set _ (set_is_done (truthy j)) _ _ Hget).
  now apply evolves_update.
Qed.

Section Invariant.

Variable int_of_str : string -> option Z.

Lemma rs_patch_loop fs k data : respects (patch_loop int_of_str fs k data).
Proof.
  induction fs as [|f fs IH]; simpl; [apply rs_ret|].
  apply rs_bind; [apply rs_lift|]. intros present.
  apply rs_bind; [|intros _; apply IH].
  destruct present; [|apply rs_ret].
  apply rs_bind; [apply rs_lift|]. intros v. destruct f; rs.
Qed.

Lemma rs_patch_todo fs k body : respects (patch_todo int_of_str fs k body).
Proof.
  intros s. rewrite patch_todo_eq.
  destruct (dict_get k (TODOS s)); [|apply evolves_refl].
  destruct (py_any_in (map field_name fs) (get_json_or_empty body))
    as [e|[|]]; try apply evolves_refl.
  pose proof (rs_patch_loop fs k (get_json_or_empty body) s) as H.
  destruct (patch_loop int_of_str fs k (get_json_or_empty body) s)
    as [[e|[]] s1]; simpl in *; [assumption|].
  now destruct (dict_get k (TODOS s1)).
Qed.

Lemma rs_replace_todo k body : respects (replace_todo int_of_str k body).
Proof.
  intros [d n]. rewrite replace_todo_eq. cbn [TODOS NEXT_ID].
  destruct (dict_get k d) as [t|] eqn:Hget; [|apply evolves_refl].
  destruct (py_all_in required_fields (get_json_or_empty body)) as [e|[|]];
    try apply evolves_refl.
  destruct (py_getitem (get_json_or_empty body) "title");
    [apply evolves_refl|].
  destruct (py_getitem (get_json_or_empty body) "is_done");
    [apply evolves_refl|].
  destruct (py_getitem (get_json_or_empty body) "priority");
    [apply evolves_refl|].
  destruct (py_int int_of_str j1); [apply evolves_refl|].
  simpl. now apply evolves_set_present with (t := t).
Qed.

Lemma rs_create_todo body : respects (create_todo int_of_str body).
Proof.
  intros [d n]. rewrite create_todo_eq. cbn [TODOS NEXT_ID].
  destruct (get_json_or_empty body); try apply evolves_refl.
  destruct (truthy (item_title members)); [|apply evolves_refl].
  destruct (py_int int_of_str (item_priority members)); simpl.
  - apply evolves_counter.
  - now apply evolves_create.
Qed.

Lemma rs_bulk_loop items : forall created,
  respects (bulk_loop int_of_str items created).
Proof.
  induction items as [|item items IH]; intros created [d n];
    [apply evolves_refl|].
  assert (Hcase : (exists o, item = JObj o) \/ (forall o, item <> JObj o))
    by (destruct item; try (right; intros o; discriminate); left; eauto).
  destruct Hcase as [[o Ho]|Hno]; [subst item|].
  - rewrite bulk_loop_step. cbn [TODOS NEXT_ID].
    destruct (truthy (item_title o)); [|apply IH].
    destruct (py_int int_of_str (item_priority o)); simpl.
    + apply evolves_counter.
    + eapply evolves_trans; [|apply IH]. now apply evolves_create.
  - rewrite bulk_loop_not_object by assumption. apply evolves_refl.
Qed.

Lemma rs_create_todos_bulk body :
  respects (create_todos_bulk int_of_str body).
Proof.
  intros s. rewrite create_todos_bulk_eq.
  destruct (py_get (get_json_or_empty body) "items" JNull) as [e|v];
    [apply evolves_refl|].
  destruct v; try apply evolves_refl.
  pose proof (rs_bulk_loop items [] s) as H.
  now destruct (bulk_loop int_of_str items [] s) as [[e|created] s1].
Qed.

Lemma rs_handle r : respects (handle int_of_str r).
Proof.
  destruct r; simpl.
  - apply rs_ret.
  - apply rs_list_todos.
  - apply rs_create_todo.
  - apply rs_create_todos_bulk.
  - apply rs_replace_todo.
  - apply rs_put_todo_status.
  - apply rs_patch_todo.
  - apply rs_reorder_todos.
  - apply rs_delete_todo.
  - apply rs_delete_many_todos.
Qed.

Lemma evolves_serve rs : forall s,
  evolves s (snd (serve int_of_str rs s)).
Proof.
  induction rs as [|r rs IH]; intros s; [apply evolves_refl|].
  rewrite serve_cons. cbn [snd].
  eapply evolves_trans; [apply rs_handle | apply IH].
Qed.

Lemma initial_state_ok : state_ok initial_state.
Proof. unfold state_ok. simpl. repeat split; try constructor; lia. Qed.

(** X1.  Whatever requests have been served since start-up, with whatever
    bodies and whether they were answered or raised, the store iterates in
    strictly ascending key order, every task is stored under its own id,
    and every key lies between 1 and the id counter. *)
Theorem served_state_ok (rs : list request) :
  state_ok (snd (serve int_of_str rs initial_state)).
Proof.
  destruct (evolves_serve rs initial_state) as [_ [H _]].
  apply H, initial_state_ok.
Qed.

Lemma serve_keeps_out (k : Z) (s : state) (rs : list request) :
  k < NEXT_ID s ->
  ~ In k (keys (TODOS s)) ->
  ~ In k (keys (TODOS (snd (serve int_of_str rs s)))).
Proof.
  intros Hk Hout Hin.
  destruct (evolves_serve rs s) as [_ [_ H]].
  destruct (H k Hin) as [H'|H']; [now apply Hout | lia].
Qed.

(** X2.  An id is never handed out again: a key below the counter that is
    not in the store is in no later store, whatever is requested.  In
    particular the id of a deleted task does not come back. *)
Theorem absent_id_stays_absent (k : Z) (s : state) (rs : list request) :
  k < NEXT_ID s ->
  dict_get k (TODOS s) = None ->
  dict_get k (TODOS (snd (serve int_of_str rs s))) = None.
Proof.
  intros Hk Hnone. apply dict_get_None.
  apply serve_keeps_out; [exact Hk|].
  now apply dict_get_None in Hnone.
Qed.

End Invariant.

(** ** Deleting one task *)

Lemma filter_other_keys k d :
  ~ In k (keys d) -> filter (fun e => negb (fst e =? k)) d = d.
Proof.
  induction d as [|[k' v] d IH]; simpl; intros H; [reflexivity|].
  destruct (Z.eqb_spec k' k); [exfalso; apply H; now left|].
  simpl. rewrite IH; auto.
Qed.

Lemma dict_pop_filter k d :
  NoDup (keys d) -> dict_pop k d = filter (fun e => negb (fst e =? k)) d.
Proof.
  induction d as [|[k' v] d IH]; simpl; intros Hnd; [reflexivity|].
  inversion Hnd; subst. destruct (Z.eqb_spec k' k); simpl.
  - subst. now rewrite filter_other_keys.
  - now rewrite IH.
Qed.

Lemma dict_get_filter_other k d :
  dict_get k (filter (fun e => negb (fst e =? k)) d) = None.
Proof.
  apply dict_get_None. intros Hin. unfold keys in Hin.
  apply in_map_iff in Hin as [e [He Hf]]. apply filter_In in Hf as [_ Hf].
  rewrite He, Z.eqb_refl in Hf. discriminate.
Qed.

Section Deleting.

Variable int_of_str : string -> option Z.

(** X3.  Deleting an existing task answers 200 with its id, removes that
    entry and no other (order and counter kept); deleting it again answers
    404; and whatever requests follow, no task is stored under that id
    again. *)
Theorem delete_todo_removes_for_good
    (k : Z) (t : todo) (s : state) (rs : list request) :
  state_ok s ->
  dict_get k (TODOS s) = Some t ->
  exists s',
    delete_todo k s = (inr (PDeletedId k, 200), s')
    /\ NEXT_ID s' = NEXT_ID s
    /\ TODOS s' = filter (fun e => negb (fst e =? k)) (TODOS s)
    /\ delete_todo k s' = (inr (PError TodoNotFound, 404), s')
    /\ dict_get k (TODOS (snd (serve int_of_str rs s'))) = None.
Proof.
  intros Hok Hget.
  assert (Hnd : NoDup (keys (TODOS s))) by apply (state_ok_store_ok s Hok).
  exists (mkState (filter (fun e => negb (fst e =? k)) (TODOS s)) (NEXT_ID s)).
  split; [rewrite delete_todo_eq, Hget, dict_pop_filter by assumption;
          reflexivity|].
  split; [reflexivity|]. split; [reflexivity|]. split.
  - rewrite delete_todo_eq. cbn [TODOS]. now rewrite dict_get_filter_other.
  - apply dict_get_None. apply serve_keeps_out.
    + cbn [NEXT_ID]. destruct Hok as [_ [_ [Hb _]]].
      rewrite Forall_forall in Hb.
      specialize (Hb k (dict_get_keys _ _ _ Hget)). lia.
    + cbn [TODOS]. apply dict_get_None, dict_get_filter_other.
Qed.

(** ** Requests that are turned down *)

(** X4.  A request that is answered with an error body (a 400 or a 404,
    on any route) has changed nothing: neither the store nor the id
    counter. *)
Theorem error_response_changes_nothing
    (r : request) (s : state) (e : error_msg) (code : Z) :
  fst (handle int_of_str r s) = inr (PError e, code) ->
  snd (handle int_of_str r s) = s.
Proof.
  destruct r; simpl handle.
  - discriminate.
  - rewrite list_todos_run. discriminate.
  - rewrite create_todo_eq.
    destruct (get_json_or_empty body); try discriminate.
    destruct (truthy (item_title members)); [|reflexivity].
    destruct (py_int int_of_str (item_priority members)); discriminate.
  - rewrite create_todos_bulk_eq.
    destruct (py_get (get_json_or_empty body) "items" JNull) as [e'|v];
      [discriminate|].
    destruct v; try reflexivity.
    destruct (bulk_loop int_of_str items [] s) as [[e'|created] s1];
      discriminate.
  - rewrite replace_todo_eq.
    destruct (dict_get todo_id (TODOS s)); [|reflexivity].
    destruct (py_all_in required_fields (get_json_or_empty body))
      as [e'|[|]]; try reflexivity.
    destruct (py_getitem (get_json_or_empty body) "title"); [reflexivity|].
    destruct (py_getitem (get_json_or_empty body) "is_done"); [reflexivity|].
    destruct (py_getitem (get_json_or_empty body) "priority");
      [reflexivity|].
    destruct (py_int int_of_str j1); [reflexivity|discriminate].
  - rewrite put_todo_status_eq.
    destruct (dict_get todo_id (TODOS s)); [|reflexivity].
    destruct (py_in "is_done" (get_json_or_empty body)) as [e'|[|]];
      try reflexivity.
    destruct (py_getitem (get_json_or_empty body) "is_done");
      [reflexivity|discriminate].
  - rewrite patch_todo_eq.
    destruct (dict_get todo_id (TODOS s)); [|reflexivity].
    destruct (py_any_in (map field_name allowed_fields)
                (get_json_or_empty body)) as [e'|[|]]; try reflexivity.
    destruct (patch_loop int_of_str allowed_fields todo_id
                (get_json_or_empty body) s) as [[e'|[]] s1]; [discriminate|].
    destruct (dict_get todo_id (TODOS s1)); discriminate.
  - rewrite reorder_todos_eq.
    destruct (py_get (get_json_or_empty body) "order" JNull) as [e'|v];
      [discriminate|].
    destruct v; try reflexivity.
    destruct (missing_ids items (TODOS s)) as [e'|[|tid rest]];
      try reflexivity.
    destruct (apply_order items 1 s) as [[e'|[]] s1]; discriminate.
  - rewrite delete_todo_eq.
    destruct (dict_get todo_id (TODOS s)); [discriminate|reflexivity].
  - unfold delete_many_todos. destruct (completed_only_flag completed_only).
    + run. rewrite pop_all_run. discriminate.
    + discriminate.
Qed.

(** X5.  On an id that is not in the store, [replace_todo],
    [put_todo_status], [patch_todo] and [delete_todo] answer 404 "Todo not
    found" before they look at the body, and change nothing. *)
Theorem missing_id_is_404
    (k : Z) (body : option json) (fs : list field) (s : state) :
  dict_get k (TODOS s) = None ->
  replace_todo int_of_str k body s = (inr (PError TodoNotFound, 404), s)
  /\ put_todo_status k body s = (inr (PError TodoNotFound, 404), s)
  /\ patch_todo int_of_str fs k body s = (inr (PError TodoNotFound, 404), s)
  /\ delete_todo k s = (inr (PError TodoNotFound, 404), s).
Proof.
  intros H.
  rewrite replace_todo_eq, put_todo_status_eq, patch_todo_eq, delete_todo_eq, H.
  repeat split.
Qed.

Lemma py_any_in_none fs o :
  lookup "title" o = None -> lookup "is_done" o = None ->
  lookup "priority" o = None ->
  py_any_in (map field_name fs) (JObj o) = inr false.
Proof.
  intros Ht Hd Hp. induction fs as [|f fs IH]; [reflexivity|].
  cbn [map py_any_in py_in].
  destruct f; cbn [field_name]; rewrite ?Ht, ?Hd, ?Hp; exact IH.
Qed.

(** X6.  Required fields: with a JSON object as body (an absent or empty
    body counts as the empty object), [create_todo] answers 400 when the
    title is missing or falsy, whatever the store holds; on an existing
    task [replace_todo] answers 400 when one of title, is_done, priority is
    missing, [put_todo_status] when is_done is missing, and [patch_todo]
    when none of the three is there.  Nothing is changed. *)
Theorem missing_fields_are_400
    (body : option json) (o : list (string * json)) (s : state) :
  get_json_or_empty body = JObj o ->
  (truthy (item_title o) = false ->
   create_todo int_of_str body s = (inr (PError TitleRequired, 400), s))
  /\ (forall k t fs,
        dict_get k (TODOS s) = Some t ->
        (lookup "title" o = None \/ lookup "is_done" o = None
         \/ lookup "priority" o = None ->
         replace_todo int_of_str k body s
           = (inr (PError FieldsRequired, 400), s))
        /\ (lookup "is_done" o = None ->
            put_todo_status k body s = (inr (PError IsDoneRequired, 400), s))
        /\ (lookup "title" o = None /\ lookup "is_done" o = None
            /\ lookup "priority" o = None ->
            patch_todo int_of_str fs k body s
              = (inr (PError AtLeastOneRequired, 400), s))).
Proof.
  intros Hb. split.
  - intros Ht. now rewrite create_todo_eq, Hb, Ht.
  - intros k t fs Hget. split; [|split].
    + intros H. rewrite replace_todo_eq, Hget, Hb.
      cbn [required_fields py_all_in py_in].
      destruct (lookup "title" o), (lookup "is_done" o),
        (lookup "priority" o); try reflexivity.
      destruct H as [H|[H|H]]; discriminate.
    + intros H. rewrite put_todo_status_eq, Hget, Hb. cbn [py_in].
      now rewrite H.
    + intros [H1 [H2 H3]]. rewrite patch_todo_eq, Hget, Hb.
      now rewrite py_any_in_none.
Qed.

(** X7.  The collection routes: when "items" is missing or is not a list,
    [create_todos_bulk] answers 400; when "order" is missing or is not a
    list, [reorder_todos] answers 400; a body that is a non-empty JSON
    string, number, array or [true] makes [create_todo],
    [create_todos_bulk] and [reorder_todos] raise [AttributeError].  Nothing
    is changed in any of these cases. *)
Theorem malformed_collection_requests (body : option json) (s : state) :
  (forall o v,
      get_json_or_empty body = JObj o ->
      (v = match lookup "items" o with Some x => x | None => JNull end) ->
      (forall l, v <> JArr l) ->
      create_todos_bulk int_of_str body s
        = (inr (PError ItemsMustBeList, 400), s))
  /\ (forall o v,
      get_json_or_empty body = JObj o ->
      (v = match lookup "order" o with Some x => x | None => JNull end) ->
      (forall l, v <> JArr l) ->
      reorder_todos body s = (inr (PError OrderMustBeList, 400), s))
  /\ ((forall o, get_json_or_empty body <> JObj o) ->
      create_todo int_of_str body s = (inl AttributeError, s)
      /\ create_todos_bulk int_of_str body s = (inl AttributeError, s)
      /\ reorder_todos body s = (inl AttributeError, s)).
Proof.
  split; [|split].
  - intros o v Hb Hv Hno. rewrite create_todos_bulk_eq, Hb. cbn [py_get].
    rewrite <- Hv. destruct v; try reflexivity. now destruct (Hno items).
  - intros o v Hb Hv Hno. rewrite reorder_todos_eq, Hb. cbn [py_get].
    rewrite <- Hv. destruct v; try reflexivity. now destruct (Hno items).
  - intros Hno.
    rewrite create_todo_eq, create_todos_bulk_eq, reorder_todos_eq.
    destruct (get_json_or_empty body); try (repeat split; reflexivity).
    now destruct (Hno members).
Qed.

(** ** Doing an update twice *)

(** X8.  [replace_todo] is idempotent on every input: serving the same
    request again on the state the first one left gives the same answer and
    leaves that state. *)
Theorem replace_todo_idempotent (k : Z) (body : option json) (s : state) :
  replace_todo int_of_str k body (snd (replace_todo int_of_str k body s))
  = replace_todo int_of_str k body s.
Proof.
  rewrite (replace_todo_eq int_of_str k body s).
  destruct (dict_get k (TODOS s)) as [t|] eqn:Hget;
    [|cbn [snd]; now rewrite replace_todo_eq, Hget].
  destruct (py_all_in required_fields (get_json_or_empty body))
    as [e|[|]] eqn:Hall;
    try (cbn [snd]; now rewrite replace_todo_eq, Hget, Hall).
  destruct (py_getitem (get_json_or_empty body) "title") as [e|a1] eqn:H1;
    [cbn [snd]; now rewrite replace_todo_eq, Hget, Hall, H1|].
  destruct (py_getitem (get_json_or_empty body) "is_done") as [e|a2] eqn:H2;
    [cbn [snd]; now rewrite replace_todo_eq, Hget, Hall, H1, H2|].
  destruct (py_getitem (get_json_or_empty body) "priority") as [e|a3] eqn:H3;
    [cbn [snd]; now rewrite replace_todo_eq, Hget, Hall, H1, H2, H3|].
  destruct (py_int int_of_str a3) as [e|p] eqn:H4;
    [cbn [snd]; now rewrite replace_todo_eq, Hget, Hall, H1, H2, H3, H4|].
  cbv zeta. cbn [snd]. rewrite replace_todo_eq. cbn [TODOS NEXT_ID].
  rewrite dict_get_set, Z.eqb_refl, Hall, H1, H2, H3, H4. cbv zeta.
  cbn [position]. now rewrite dict_set_set.
Qed.

End Deleting.

(** X9.  [put_todo_status] is idempotent on every input. *)
Theorem put_todo_status_idempotent (k : Z) (body : option json) (s : state) :
  put_todo_status k body (snd (put_todo_status k body s))
  = put_todo_status k body s.
Proof.
  rewrite (put_todo_status_eq k body s).
  destruct (dict_get k (TODOS s)) as [t|] eqn:Hget;
    [|cbn [snd]; now rewrite put_todo_status_eq, Hget].
  destruct (py_in "is_done" (get_json_or_empty body)) as [e|[|]] eqn:Hin;
    try (cbn [snd]; now rewrite put_todo_status_eq, Hget, Hin).
  destruct (py_getitem (get_json_or_empty body) "is_done") as [e|v] eqn:Hv;
    [cbn [snd]; now rewrite put_todo_status_eq, Hget, Hin, Hv|].
  cbn [snd]. rewrite put_todo_status_eq. cbn [TODOS NEXT_ID].
  rewrite dict_get_set, Z.eqb_refl, Hin, Hv.
  now rewrite dict_set_set.
Qed.

(** ** Reorder, as a whole *)

Lemma missing_ids_nil_names order d :
  missing_ids order d = inr [] ->
  exists ks, Forall2 names order ks /\ incl ks (keys d).
Proof.
  induction order as [|tid order IH]; intros H.
  - exists []. split; [constructor | intros x []].
  - simpl in H. destruct (py_in_dict tid d) as [e|present] eqn:Hp;
      [discriminate|].
    destruct (missing_ids order d) as [e|m]; [discriminate|].
    destruct present; [|discriminate].
    inversion H; subst m. destruct (IH eq_refl) as [ks [Hn Hincl]].
    unfold py_in_dict in Hp. destruct (hashable tid) eqn:Hh; [|discriminate].
    destruct (as_int tid) as [k|] eqn:Hk; [|discriminate].
    destruct (dict_get k d) as [t|] eqn:Hget; [|discriminate].
    exists (k :: ks). split.
    + constructor; [now split | assumption].
    + intros x [<-|Hx]; [eapply dict_get_keys; eauto | now apply Hincl].
Qed.

(** X10.  [reorder_todos] is all or nothing on every body: either it
    answers 200 and the store has the same keys in the same order, or the
    state is exactly the one it was given (also when the validation raises
    on an element of the order that cannot be hashed). *)
Theorem reorder_todos_all_or_nothing (body : option json) (s : state) :
  (exists d',
      reorder_todos body s =
        (inr (PTodos (sort_by_position (values d')), 200),
         mkState d' (NEXT_ID s))
      /\ keys d' = keys (TODOS s))
  \/ snd (reorder_todos body s) = s.
Proof.
  rewrite reorder_todos_eq.
  destruct (py_get (get_json_or_empty body) "order" JNull) as [e|v];
    [now right|].
  destruct v; try now right.
  destruct (missing_ids items (TODOS s)) as [e|[|tid rest]] eqn:Hm;
    try now right.
  destruct (missing_ids_nil_names _ _ Hm) as [ks [Hn Hincl]].
  rewrite (apply_order_run _ _ Hn _ _ Hincl). cbv zeta. cbn [TODOS NEXT_ID].
  left. eexists. split; [reflexivity|].
  now rewrite !keys_positions_from.
Qed.

Lemma last_pos_default k ks : forall idx p q,
  In k ks -> last_pos k ks idx p = last_pos k ks idx q.
Proof.
  induction ks as [|a ks IH]; intros idx p q Hin; [destruct Hin|].
  simpl. destruct (in_dec Z.eq_dec k ks) as [Hk|Hk]; [now apply IH|].
  destruct Hin as [->|Hin]; [|contradiction]. now rewrite Z.eqb_refl.
Qed.

Lemma new_pos_default ks d k p q :
  In k (keys d) -> new_pos ks d k p = new_pos ks d k q.
Proof.
  intros Hk. unfold new_pos.
  destruct (in_dec Z.eq_dec k ks) as [Hin|Hnot].
  - now rewrite (last_pos_default k ks 1 p q Hin).
  - apply last_pos_default. apply unmentioned_In. auto.
Qed.

Lemma unmentioned_same_keys ks d d' :
  keys d' = keys d -> unmentioned ks d' = unmentioned ks d.
Proof. intros H. unfold unmentioned. now rewrite H. Qed.

Lemma keys_reordered ks d : keys (reordered ks d) = keys d.
Proof. unfold reordered. now rewrite !keys_positions_from. Qed.

Lemma reordered_twice ks d :
  NoDup (keys d) -> reordered ks (reordered ks d) = reordered ks d.
Proof.
  intros Hnd. apply dict_ext.
  - now rewrite keys_reordered.
  - now rewrite !keys_reordered.
  - intros k. unfold reordered at 1.
    rewrite !dict_get_positions_from.
    rewrite (unmentioned_same_keys ks d (reordered ks d))
      by apply keys_reordered.
    destruct (dict_get k (reordered ks d)) as [t'|] eqn:Hget; [|reflexivity].
    cbn [option_map]. f_equal.
    assert (Hk : In k (keys d))
      by (rewrite <- (keys_reordered ks d); eapply dict_get_keys; eauto).
    destruct (dict_get_Some_keys k d Hk) as [t Ht].
    rewrite (reordered_lookup ks d k t Ht) in Hget. inversion Hget; subst t'.
    transitivity
      (set_position (new_pos ks d k (new_pos ks d k (position t)))
         (set_position (new_pos ks d k (position t)) t)); [reflexivity|].
    rewrite (new_pos_default ks d k (new_pos ks d k (position t))
               (position t) Hk).
    reflexivity.
Qed.

Lemma store_ok_reordered ks d : store_ok d -> store_ok (reordered ks d).
Proof.
  intros H. unfold reordered. now apply store_ok_positions_from,
    store_ok_positions_from.
Qed.

(** X11.  Reordering is idempotent: on a store and an order of existing
    ids, serving the same reorder again gives the same answer and leaves
    the store as the first one left it. *)
Theorem reorder_todos_idempotent
    (body : option json) (order : list json) (ks : list Z) (s : state) :
  store_ok (TODOS s) ->
  py_get (get_json_or_empty body) "order" JNull = inr (JArr order) ->
  Forall2 names order ks ->
  incl ks (keys (TODOS s)) ->
  reorder_todos body (snd (reorder_todos body s)) = reorder_todos body s.
Proof.
  intros Hok Hb Hn Hincl.
  rewrite (reorder_todos_run body order ks s Hok Hb Hn Hincl). cbn [snd].
  rewrite (reorder_todos_run body order ks _); cbn [TODOS NEXT_ID];
    try assumption.
  - now rewrite reordered_twice by apply Hok.
  - now apply store_ok_reordered.
  - now rewrite keys_reordered.
Qed.

(** ** The order of a listing *)

(** Position first, id to break ties. *)
Definition by_position_then_id (a b : todo) : Prop :=
  position a < position b \/ (position a = position b /\ id a < id b).

Lemma insert_by_position_then_id x l :
  Sorted by_position_then_id l ->
  Forall (fun y => id x < id y) l ->
  Sorted by_position_then_id (insert_by_position x l).
Proof.
  induction 1 as [|y l Hs IH Hhd]; simpl; intros Hx.
  - repeat constructor.
  - inversion Hx as [|? ? Hxy Hxl]; subst.
    destruct (Z.leb_spec (position x) (position y)).
    + constructor; [now constructor|]. constructor.
      unfold by_position_then_id. lia.
    + constructor; [now apply IH|].
      destruct l as [|z l]; simpl in *.
      * constructor. unfold by_position_then_id. lia.
      * destruct (Z.leb_spec (position x) (position z)).
        -- constructor. unfold by_position_then_id. lia.
        -- constructor. now inversion Hhd.
Qed.

Lemma sort_by_position_then_id l :
  StronglySorted Z.lt (map id l) ->
  Sorted by_position_then_id (sort_by_position l).
Proof.
  induction l as [|x l IH]; simpl; intros H; [constructor|].
  inversion H as [|? ? Hs Hx]; subst.
  apply insert_by_position_then_id; [now apply IH|].
  rewrite Forall_forall in *. intros y Hy. apply Hx. apply in_map.
  eapply Permutation_in; [symmetry; apply sort_by_position_perm | exact Hy].
Qed.

Lemma filter_ids_sorted (p : todo -> bool) l :
  StronglySorted Z.lt (map id l) ->
  StronglySorted Z.lt (map id (filter p l)).
Proof.
  induction l as [|x l IH]; simpl; intros H; [constructor|].
  inversion H as [|? ? Hs Hx]; subst.
  destruct (p x); simpl; [|now apply IH]. constructor; [now apply IH|].
  rewrite Forall_forall in *. intros y Hy. apply Hx.
  apply in_map_iff in Hy as [t [<- Ht]]. apply in_map.
  now apply filter_In in Ht as [Ht _].
Qed.

(** X12.  In a store shaped as the handlers leave it, [list_todos]
    returns exactly the selected tasks (the open ones for "open", the done
    ones for "done", all of them otherwise), sorted by position, and tasks
    with the same position in ascending id order: the sort is stable and
    the store iterates in id order.  The state is returned as it was. *)
Theorem list_todos_ties_by_id (status : option string) (s : state) :
  state_ok s ->
  exists l,
    list_todos status s = (inr (PTodos l, 200), s)
    /\ Sorted by_position_then_id l
    /\ (status = Some "open" ->
        Permutation l (filter (fun t => negb (is_done t)) (values (TODOS s))))
    /\ (status = Some "done" ->
        Permutation l (filter (fun t => is_done t) (values (TODOS s))))
    /\ (status <> Some "open" -> status <> Some "done" ->
        Permutation l (values (TODOS s))).
Proof.
  intros Hok. rewrite list_todos_run. eexists. split; [reflexivity|].
  assert (Hids : StronglySorted Z.lt (map id (values (TODOS s)))).
  { rewrite (store_ok_ids _ (state_ok_store_ok _ Hok)). apply Hok. }
  split; [|split; [|split]].
  - apply sort_by_position_then_id. cbv zeta.
    destruct ((_ =? "open")%string); [now apply filter_ids_sorted|].
    destruct ((_ =? "done")%string); [now apply filter_ids_sorted|].
    assumption.
  - intros ->. simpl. symmetry. apply sort_by_position_perm.
  - intros ->. simpl. symmetry. apply sort_by_position_perm.
  - intros Ho Hd. symmetry. cbv zeta.
    destruct status as [x|]; simpl.
    + destruct (String.eqb_spec x "open"); [subst; congruence|].
      destruct (String.eqb_spec x "done"); [subst; congruence|].
      apply sort_by_position_perm.
    + apply sort_by_position_perm.
Qed.

(** ** What a reorder answers *)

Lemma zseq_nth_error a n j :
  (j < n)%nat -> nth_error (zseq a n) j = Some (a + Z.of_nat j).
Proof.
  revert a j. induction n as [|n IH]; intros a j Hj; [lia|].
  destruct j as [|j]; simpl.
  - f_equal. lia.
  - rewrite IH by lia. f_equal. lia.
Qed.

Lemma reordered_sorted_positions ks d :
  NoDup (keys d) -> NoDup ks -> incl ks (keys d) ->
  map position (sort_by_position (values (reordered ks d)))
  = zseq 1 (List.length d).
Proof.
  intros Hnd Hks Hincl.
  assert (Hlen : List.length (values (reordered ks d)) = List.length d).
  { unfold values. rewrite length_map.
    rewrite <- (length_map fst (reordered ks d)).
    change (map fst (reordered ks d)) with (keys (reordered ks d)).
    rewrite keys_reordered. unfold keys. apply length_map. }
  apply sorted_le_perm_eq.
  - apply sorted_positions, sort_by_position_sorted.
  - apply zseq_sorted_le.
  - transitivity (map position (values (reordered ks d))).
    + apply Permutation_map, Permutation_sym, sort_by_position_perm.
    + apply NoDup_Permutation_bis.
      * now apply reordered_positions_NoDup.
      * rewrite zseq_length, length_map, Hlen. apply Nat.le_refl.
      * rewrite <- (mentioned_and_unmentioned ks d) by auto.
        now apply reordered_positions_range.
Qed.

Lemma reordered_values_index ks d t' :
  store_ok d -> In t' (values (reordered ks d)) ->
  exists i,
    nth_error (ks ++ unmentioned ks d) i = Some (id t')
    /\ position t' = 1 + Z.of_nat i.
Proof.
  intros [Hnd Hid] Hin. rewrite (reordered_entries _ _ Hnd) in Hin.
  unfold values in Hin. rewrite map_map in Hin. cbn [snd] in Hin.
  apply in_map_iff in Hin as [e [<- He]].
  rewrite Forall_forall in Hid. cbn [id position set_position].
  rewrite (Hid e He).
  apply new_pos_index. now apply in_map.
Qed.

(** X13.  When the order names existing ids without repeating one, the
    list that [reorder_todos] answers holds the tasks of the order, in that
    order, followed by the tasks it does not mention in store order; and a
    [list_todos] without filter served next answers the same list. *)
Theorem reorder_todos_lists_order_first
    (body : option json) (order : list json) (ks : list Z) (s : state) :
  store_ok (TODOS s) ->
  py_get (get_json_or_empty body) "order" JNull = inr (JArr order) ->
  Forall2 names order ks ->
  incl ks (keys (TODOS s)) ->
  NoDup ks ->
  exists l s',
    reorder_todos body s = (inr (PTodos l, 200), s')
    /\ map id l = ks ++ unmentioned ks (TODOS s)
    /\ list_todos None s' = (inr (PTodos l, 200), s').
Proof.
  intros Hok Hb Hn Hincl Hks.
  rewrite (reorder_todos_run body order ks s Hok Hb Hn Hincl).
  do 2 eexists. split; [reflexivity|]. split; [|reflexivity].
  set (l := sort_by_position (values (reordered ks (TODOS s)))).
  assert (Hpos : map position l = zseq 1 (List.length (TODOS s)))
    by (apply reordered_sorted_positions; auto; apply Hok).
  assert (Hlen : List.length l = List.length (TODOS s))
    by (rewrite <- (length_map position l), Hpos; apply zseq_length).
  assert (Hlen2 : List.length (ks ++ unmentioned ks (TODOS s))
                  = List.length (TODOS s))
    by (apply mentioned_and_unmentioned; auto; apply Hok).
  apply nth_error_ext. intros j.
  destruct (Nat.lt_ge_cases j (List.length (TODOS s))) as [Hj|Hj].
  - rewrite nth_error_map.
    destruct (nth_error l j) as [t'|] eqn:Ht';
      [|apply nth_error_None in Ht'; lia].
    cbn [option_map].
    assert (Hin : In t' (values (reordered ks (TODOS s)))).
    { eapply Permutation_in;
        [symmetry; apply sort_by_position_perm | eapply nth_error_In; eauto]. }
    destruct (reordered_values_index ks _ t' Hok Hin) as [i [Hi Hp]].
    assert (Hpj : nth_error (map position l) j = Some (position t'))
      by (rewrite nth_error_map, Ht'; reflexivity).
    rewrite Hpos, zseq_nth_error in Hpj by assumption.
    assert (Hz : 1 + Z.of_nat j = position t') by congruence.
    assert (i = j) by lia. subst i. now rewrite Hi.
  - transitivity (@None Z); [|symmetry]; apply nth_error_None.
    + rewrite length_map. lia.
    + lia.
Qed.

(** ** Where created tasks go *)

Lemma store_all_appends new : forall d n,
  Forall (fun k => k < n) (keys d) ->
  map id new = zseq n (List.length new) ->
  store_all new d = d ++ map (fun t => (id t, t)) new.
Proof.
  induction new as [|t new IH]; intros d n Hb Hids.
  - simpl. now rewrite app_nil_r.
  - cbn [map List.length zseq] in Hids. injection Hids as Ht Hrest.
    subst n.
    change (store_all (t :: new) d) with (store_all new (dict_set (id t) t d)).
    assert (Hfresh : ~ In (id t) (keys d)).
    { intros Hin. rewrite Forall_forall in Hb. specialize (Hb _ Hin). lia. }
    rewrite (dict_set_absent _ _ _ Hfresh).
    rewrite (IH _ (id t + 1)).
    + rewrite <- app_assoc. reflexivity.
    + unfold keys. rewrite map_app. apply Forall_app. split.
      * eapply Forall_impl; [|exact Hb]. simpl. intros; lia.
      * repeat constructor. simpl. lia.
    + exact Hrest.
Qed.

Lemma state_ok_keys_below s :
  state_ok s -> Forall (fun k => k < NEXT_ID s) (keys (TODOS s)).
Proof.
  intros [_ [_ [Hb _]]]. eapply Forall_impl; [|exact Hb]. simpl. intros; lia.
Qed.

Section Creating.

Variable int_of_str : string -> option Z.

(** X14.  In a store shaped as the handlers leave it, a successful
    [create_todo] puts the new task after all the others, under the id the
    counter had, with that id as position too, an id larger than every id
    in the store; the entries that were there are as they were, and the
    counter has advanced by one. *)
Theorem create_todo_appends
    (body : option json) (o : list (string * json)) (p : Z) (s : state) :
  state_ok s ->
  get_json_or_empty body = JObj o ->
  truthy (item_title o) = true ->
  py_int int_of_str (item_priority o) = inr p ->
  exists t,
    create_todo int_of_str body s =
      (inr (PTodo t, 201),
       mkState (TODOS s ++ [(NEXT_ID s, t)]) (NEXT_ID s + 1))
    /\ t = mkTodo (NEXT_ID s) (item_title o) (truthy (item_is_done o)) p
             (NEXT_ID s)
    /\ Forall (fun k => k < id t) (keys (TODOS s))
    /\ state_ok (mkState (TODOS s ++ [(NEXT_ID s, t)]) (NEXT_ID s + 1)).
Proof.
  intros Hok Hb Ht Hp. eexists.
  pose proof (state_ok_keys_below s Hok) as Hbelow.
  assert (Hfresh : ~ In (NEXT_ID s) (keys (TODOS s))).
  { intros Hin. rewrite Forall_forall in Hbelow. specialize (Hbelow _ Hin).
    lia. }
  assert (Hrun : create_todo int_of_str body s =
    (inr (PTodo (mkTodo (NEXT_ID s) (item_title o)
                   (truthy (item_is_done o)) p (NEXT_ID s)), 201),
     mkState (TODOS s ++ [(NEXT_ID s,
                mkTodo (NEXT_ID s) (item_title o)
                  (truthy (item_is_done o)) p (NEXT_ID s))])
       (NEXT_ID s + 1))).
  { rewrite create_todo_eq, Hb, Ht, Hp. cbv zeta.
    now rewrite (dict_set_absent _ _ _ Hfresh). }
  split; [exact Hrun|]. split; [reflexivity|]. split; [exact Hbelow|].
  pose proof (rs_create_todo int_of_str body s) as [_ [Hkeep _]].
  rewrite Hrun in Hkeep. now apply Hkeep.
Qed.

Lemma bulk_loop_prefix objs : forall rest created s,
  Forall (fun o => truthy (item_title o) = true ->
                   exists p, py_int int_of_str (item_priority o) = inr p)
    objs ->
  exists new,
    bulk_loop int_of_str (map JObj objs ++ rest) created s =
      bulk_loop int_of_str rest (rev new ++ created)
        (mkState (store_all new (TODOS s))
           (NEXT_ID s + Z.of_nat (List.length new)))
    /\ map id new = zseq (NEXT_ID s) (List.length new)
    /\ Forall2 (made_from int_of_str)
         (filter (fun o => truthy (item_title o)) objs) new.
Proof.
  induction objs as [|o objs IH]; intros rest created s Hall.
  - exists []. simpl. rewrite Z.add_0_r.
    destruct s; repeat split; constructor.
  - inversion Hall as [|? ? Ho Hrest]; subst.
    cbn [map app filter]. rewrite bulk_loop_step.
    destruct (truthy (item_title o)) eqn:Ht.
    + destruct (Ho eq_refl) as [p Hp]. rewrite Hp. cbv zeta.
      set (t := mkTodo (NEXT_ID s) (item_title o)
                  (truthy (item_is_done o)) p (NEXT_ID s)).
      destruct (IH rest (t :: created)
                  (mkState (dict_set (NEXT_ID s) t (TODOS s)) (NEXT_ID s + 1))
                  Hrest) as [new [Hrun [Hids Hmade]]].
      exists (t :: new). cbn [TODOS NEXT_ID] in *. split; [|split].
      * rewrite Hrun. cbn [rev]. rewrite <- app_assoc. cbn [app].
        cbn [List.length]. unfold store_all. cbn [fold_left id].
        do 2 f_equal. lia.
      * cbn [map List.length zseq]. now rewrite Hids.
      * constructor; [|assumption]. repeat split; simpl; auto.
    + apply IH. assumption.
Qed.

(** X15.  A bulk creation that is answered makes one task from each item
    with a title, in input order and with consecutive ids from the counter,
    and adds them after the tasks of the store in that order; it touches no
    other entry. *)
Theorem create_todos_bulk_appends
    (body : option json) (objs : list (list (string * json))) (s : state) :
  state_ok s ->
  py_get (get_json_or_empty body) "items" JNull = inr (JArr (map JObj objs)) ->
  Forall (fun o => truthy (item_title o) = true ->
                   exists p, py_int int_of_str (item_priority o) = inr p)
    objs ->
  exists created,
    create_todos_bulk int_of_str body s =
      (inr (PCreated created (Z.of_nat (List.length created)), 201),
       mkState (TODOS s ++ map (fun t => (id t, t)) created)
               (NEXT_ID s + Z.of_nat (List.length created)))
    /\ Forall2 (made_from int_of_str)
         (filter (fun o => truthy (item_title o)) objs) created
    /\ map id created = zseq (NEXT_ID s) (List.length created)
    /\ map position created = map id created
    /\ Forall (fun t => Forall (fun k => k < id t) (keys (TODOS s))) created.
Proof.
  intros Hok Hb Hall.
  destruct (bulk_loop_ok int_of_str objs [] s Hall) as [new [Hrun [Hids Hmade]]].
  exists new. rewrite (create_todos_bulk_run _ _ _ _ Hb), Hrun. cbn [rev app].
  pose proof (state_ok_keys_below s Hok) as Hbelow.
  rewrite (store_all_appends new _ (NEXT_ID s)) by assumption.
  split; [reflexivity|]. split; [assumption|]. split; [assumption|]. split.
  - clear -Hmade. induction Hmade as [|o t objs' new' Hm _ IH];
      [reflexivity|].
    cbn [map]. destruct Hm as [_ [_ [_ Hpos]]]. now rewrite Hpos, IH.
  - apply Forall_forall. intros t Ht.
    assert (Hin : In (id t) (zseq (NEXT_ID s) (List.length new)))
      by (rewrite <- Hids; now apply in_map).
    apply zseq_In in Hin.
    eapply Forall_impl; [|exact Hbelow]. simpl. intros; lia.
Qed.

(** The tasks [new] are in [d'] under their ids, and the other keys of
    [d'] hold what they hold in [d]. *)
Definition stores_new (new : list todo) (d d' : dict) : Prop :=
  (forall t, In t new -> dict_get (id t) d' = Some t)
  /\ (forall k, ~ In k (map id new) -> dict_get k d' = dict_get k d).

Lemma store_all_stores_new new d :
  NoDup (map id new) -> stores_new new d (store_all new d).
Proof.
  intros Hnd. split.
  - intros t Hin. now apply dict_get_store_all.
  - intros k Hk. now apply dict_get_store_all_other.
Qed.

(** X16.  A bulk creation is not undone when it fails: if the items
    before a bad one are objects that can be created, and the bad item is
    not an object, the request raises [AttributeError] and the tasks made
    from the earlier items are in the store afterwards, each under its id,
    the counter staying advanced past their ids; if the bad item is an
    object with a title whose priority [int] rejects, the request raises
    that error, the earlier tasks are in the store as well, and the counter
    has also consumed the id of the bad item. *)
Theorem create_todos_bulk_keeps_earlier_items
    (body : option json) (objs : list (list (string * json)))
    (bad : json) (rest : list json) (s : state) :
  py_get (get_json_or_empty body) "items" JNull
    = inr (JArr (map JObj objs ++ bad :: rest)) ->
  Forall (fun o => truthy (item_title o) = true ->
                   exists p, py_int int_of_str (item_priority o) = inr p)
    objs ->
  exists new,
    Forall2 (made_from int_of_str)
      (filter (fun o => truthy (item_title o)) objs) new
    /\ map id new = zseq (NEXT_ID s) (List.length new)
    /\ ((forall o, bad <> JObj o) ->
        exists s',
          create_todos_bulk int_of_str body s = (inl AttributeError, s')
          /\ NEXT_ID s' = NEXT_ID s + Z.of_nat (List.length new)
          /\ TODOS s' = store_all new (TODOS s)
          /\ stores_new new (TODOS s) (TODOS s'))
    /\ (forall o e,
          bad = JObj o -> truthy (item_title o) = true ->
          py_int int_of_str (item_priority o) = inl e ->
          exists s',
            create_todos_bulk int_of_str body s = (inl e, s')
            /\ NEXT_ID s' = NEXT_ID s + Z.of_nat (List.length new) + 1
            /\ TODOS s' = store_all new (TODOS s)
            /\ stores_new new (TODOS s) (TODOS s')).
Proof.
  intros Hb Hall.
  destruct (bulk_loop_prefix objs (bad :: rest) [] s Hall)
    as [new [Hrun [Hids Hmade]]].
  assert (Hst : stores_new new (TODOS s) (store_all new (TODOS s))).
  { apply store_all_stores_new. rewrite Hids. apply zseq_NoDup. }
  exists new. split; [assumption|]. split; [assumption|].
  rewrite (create_todos_bulk_run _ _ _ _ Hb), Hrun. split.
  - intros Hno. rewrite bulk_loop_not_object by assumption.
    eexists. split; [reflexivity|]. cbn [TODOS NEXT_ID].
    split; [reflexivity|]. split; [reflexivity|]. exact Hst.
  - intros o e Hbad Ht Hp. subst bad. rewrite bulk_loop_step, Ht, Hp.
    eexists. split; [reflexivity|]. cbn [TODOS NEXT_ID].
    split; [reflexivity|]. split; [reflexivity|]. exact Hst.
Qed.

(** ** The order of the loop in a partial update *)

Lemma patched_from_all o fs t u1 u2 :
  (forall f, In f fs) ->
  patched_from int_of_str o fs t u1 ->
  forall fs', (forall f, In f fs') ->
  patched_from int_of_str o fs' t u2 ->
  u1 = u2.
Proof.
  intros Hall [Hi1 [Hp1 [Ht1 [Hd1 Hr1]]]] fs' Hall' [Hi2 [Hp2 [Ht2 [Hd2 Hr2]]]].
  rewrite (has_In F_title fs (Hall _)) in Ht1.
  rewrite (has_In F_is_done fs (Hall _)) in Hd1.
  rewrite (has_In F_priority fs (Hall _)) in Hr1.
  rewrite (has_In F_title fs' (Hall' _)) in Ht2.
  rewrite (has_In F_is_done fs' (Hall' _)) in Hd2.
  rewrite (has_In F_priority fs' (Hall' _)) in Hr2.
  assert (Hpr : priority u1 = priority u2)
    by (destruct (lookup "priority" o); congruence).
  destruct u1, u2; simpl in *. f_equal; congruence.
Qed.

(** X17.  On valid arguments the answer and the effect of [patch_todo]
    do not depend on the order in which its loop visits the three field
    names. *)
Theorem patch_todo_order_irrelevant
    (fs fs' : list field) (k : Z) (body : option json)
    (o : list (string * json)) (t : todo) (s : state) :
  (forall f, In f fs) ->
  (forall f, In f fs') ->
  dict_get k (TODOS s) = Some t ->
  get_json_or_empty body = JObj o ->
  (exists f, lookup (field_name f) o <> None) ->
  (forall v, lookup "priority" o = Some v ->
             exists p, py_int int_of_str v = inr p) ->
  patch_todo int_of_str fs k body s = patch_todo int_of_str fs' k body s.
Proof.
  intros Hall Hall' Hget Hb [f Hf] Hp.
  destruct (patch_todo_run int_of_str fs k body o t s Hget Hb)
    as [u1 [Hrun1 H1]]; [exists f; split; [apply Hall|assumption] | assumption |].
  destruct (patch_todo_run int_of_str fs' k body o t s Hget Hb)
    as [u2 [Hrun2 H2]]; [exists f; split; [apply Hall'|assumption] | assumption |].
  rewrite Hrun1, Hrun2.
  now rewrite (patched_from_all o fs t u1 u2 Hall H1 fs' Hall' H2).
Qed.

End Creating.

(* ------------------------------------------------------------------ *)
(** * The further properties on concrete requests *)

Lemma sample_state_shape : state_ok sample_state.
Proof.
  unfold state_ok, sample_state. cbn [TODOS NEXT_ID keys map fst].
  repeat split; try lia.
  - repeat constructor; lia.
  - repeat constructor.
  - repeat constructor; lia.
Defined.

Lemma absent_id_stays_absent_witness :
  let s := mkState [(1, mkTodo 1 (JStr "A") false 1 1);
                    (3, mkTodo 3 (JStr "C") false 2 3)] 4 in
  let rs := [POST_todos (Some (JObj [("title", JStr "D")]));
             PUT_todo 2 (Some (JObj [("title", JStr "B"); ("is_done", JBool true);
                                     ("priority", JInt 1)]));
             DELETE_todo 1] in
  dict_get 2 (TODOS (snd (serve decimal_of_string rs s))) = None.
Proof.
  cbv zeta.
  apply (absent_id_stays_absent decimal_of_string 2
           (mkState [(1, mkTodo 1 (JStr "A") false 1 1);
                     (3, mkTodo 3 (JStr "C") false 2 3)] 4)).
  - simpl. lia.
  - reflexivity.
Defined.

Lemma delete_todo_removes_for_good_witness :
  let rs := [POST_todos (Some (JObj [("title", JStr "D")]));
             PATCH_todos_reorder (Some (JObj [("order", JArr [JInt 2])]))] in
  exists s',
    delete_todo 2 sample_state = (inr (PDeletedId 2, 200), s')
    /\ NEXT_ID s' = NEXT_ID sample_state
    /\ TODOS s' = filter (fun e => negb (fst e =? 2)) (TODOS sample_state)
    /\ delete_todo 2 s' = (inr (PError TodoNotFound, 404), s')
    /\ dict_get 2 (TODOS (snd (serve decimal_of_string rs s'))) = None.
Proof.
  cbv zeta.
  apply (delete_todo_removes_for_good decimal_of_string 2
           (mkTodo 2 (JStr "B") true 5 2) sample_state).
  - exact sample_state_shape.
  - reflexivity.
Defined.

Lemma error_response_changes_nothing_witness :
  snd (handle decimal_of_string
         (PATCH_todos_reorder (Some (JObj [("order", JArr [JInt 9])])))
         sample_state) = sample_state.
Proof.
  apply (error_response_changes_nothing decimal_of_string
           (PATCH_todos_reorder (Some (JObj [("order", JArr [JInt 9])])))
           sample_state (UnknownIds [JInt 9]) 400).
  reflexivity.
Defined.

Lemma missing_id_is_404_witness :
  let body := Some (JObj [("title", JStr "x")]) in
  let fs := [F_is_done; F_title; F_priority] in
  replace_todo decimal_of_string 9 body sample_state
    = (inr (PError TodoNotFound, 404), sample_state)
  /\ put_todo_status 9 body sample_state
     = (inr (PError TodoNotFound, 404), sample_state)
  /\ patch_todo decimal_of_string fs 9 body sample_state
     = (inr (PError TodoNotFound, 404), sample_state)
  /\ delete_todo 9 sample_state
     = (inr (PError TodoNotFound, 404), sample_state).
Proof.
  cbv zeta.
  apply (missing_id_is_404 decimal_of_string 9
           (Some (JObj [("title", JStr "x")]))
           [F_is_done; F_title; F_priority] sample_state).
  reflexivity.
Defined.

Lemma missing_fields_are_400_witness :
  let body := Some (JObj [("note", JStr "n")]) in
  let fs := [F_is_done; F_title; F_priority] in
  create_todo decimal_of_string body initial_state
    = (inr (PError TitleRequired, 400), initial_state)
  /\ create_todo decimal_of_string body sample_state
     = (inr (PError TitleRequired, 400), sample_state)
  /\ replace_todo decimal_of_string 2 body sample_state
     = (inr (PError FieldsRequired, 400), sample_state)
  /\ put_todo_status 2 body sample_state
     = (inr (PError IsDoneRequired, 400), sample_state)
  /\ patch_todo decimal_of_string fs 2 body sample_state
     = (inr (PError AtLeastOneRequired, 400), sample_state).
Proof.
  cbv zeta.
  pose proof (missing_fields_are_400 decimal_of_string
                (Some (JObj [("note", JStr "n")])) [("note", JStr "n")]
                initial_state eq_refl) as [Hempty _].
  pose proof (missing_fields_are_400 decimal_of_string
                (Some (JObj [("note", JStr "n")])) [("note", JStr "n")]
                sample_state eq_refl) as [Hcreate Hrest].
  destruct (Hrest 2 (mkTodo 2 (JStr "B") true 5 2)
              [F_is_done; F_title; F_priority] eq_refl)
    as [Hreplace [Hstatus Hpatch]].
  split; [apply Hempty; reflexivity|].
  split; [apply Hcreate; reflexivity|].
  split; [apply Hreplace; left; reflexivity|].
  split; [apply Hstatus; reflexivity|].
  apply Hpatch. repeat split.
Defined.

Lemma malformed_collection_requests_witness :
  create_todos_bulk decimal_of_string
    (Some (JObj [("items", JStr "abc")])) sample_state
  = (inr (PError ItemsMustBeList, 400), sample_state).
Proof.
  apply (proj1 (malformed_collection_requests decimal_of_string
                  (Some (JObj [("items", JStr "abc")])) sample_state)
           [("items", JStr "abc")] (JStr "abc")).
  - reflexivity.
  - reflexivity.
  - intros l H. discriminate H.
Defined.

Lemma reorder_todos_idempotent_witness :
  let body := Some (JObj [("order", JArr [JInt 3; JBool true])]) in
  reorder_todos body (snd (reorder_todos body sample_state))
  = reorder_todos body sample_state.
Proof.
  cbv zeta.
  apply (reorder_todos_idempotent
           (Some (JObj [("order", JArr [JInt 3; JBool true])]))
           [JInt 3; JBool true] [3; 1] sample_state).
  - exact sample_state_ok.
  - reflexivity.
  - exact sample_order_names.
  - exact sample_order_incl.
Defined.

(** Three tasks, the first and the third with the same position, as
    left by a reorder that names a task twice and a creation after it. *)
Definition tied_state : state :=
  mkState [(1, mkTodo 1 (JStr "A") false 1 3);
           (2, mkTodo 2 (JStr "B") true 5 4);
           (3, mkTodo 3 (JStr "C") false 2 3)] 4.

Lemma tied_state_shape : state_ok tied_state.
Proof.
  unfold state_ok, tied_state. cbn [TODOS NEXT_ID keys map fst].
  split; [repeat constructor|].
  split; [repeat constructor|].
  split; [repeat constructor; lia | lia].
Defined.

Lemma list_todos_ties_by_id_witness :
  list_todos (Some "open") tied_state
    = (inr (PTodos [mkTodo 1 (JStr "A") false 1 3;
                    mkTodo 3 (JStr "C") false 2 3], 200), tied_state)
  /\ exists l,
       list_todos (Some "open") tied_state = (inr (PTodos l, 200), tied_state)
       /\ Sorted by_position_then_id l
       /\ (Some "open" = Some "open" ->
           Permutation l
             (filter (fun t => negb (is_done t)) (values (TODOS tied_state))))
       /\ (Some "open" = Some "done" ->
           Permutation l
             (filter (fun t => is_done t) (values (TODOS tied_state))))
       /\ (Some "open" <> Some "open" -> Some "open" <> Some "done" ->
           Permutation l (values (TODOS tied_state))).
Proof.
  split; [reflexivity|].
  apply (list_todos_ties_by_id (Some "open") tied_state).
  exact tied_state_shape.
Defined.

Lemma sample_order_NoDup : NoDup [3; 1].
Proof. repeat constructor; simpl; intuition lia. Defined.

Lemma reorder_todos_lists_order_first_witness :
  let body := Some (JObj [("order", JArr [JInt 3; JBool true])]) in
  exists l s',
    reorder_todos body sample_state = (inr (PTodos l, 200), s')
    /\ map id l = [3; 1] ++ unmentioned [3; 1] (TODOS sample_state)
    /\ list_todos None s' = (inr (PTodos l, 200), s').
Proof.
  cbv zeta.
  apply (reorder_todos_lists_order_first
           (Some (JObj [("order", JArr [JInt 3; JBool true])]))
           [JInt 3; JBool true] [3; 1] sample_state).
  - exact sample_state_ok.
  - reflexivity.
  - exact sample_order_names.
  - exact sample_order_incl.
  - exact sample_order_NoDup.
Defined.

Lemma create_todo_appends_witness :
  let o := [("title", JStr "D"); ("priority", JStr "-3")] in
  let s := sample_state in
  exists t,
    create_todo decimal_of_string (Some (JObj o)) s =
      (inr (PTodo t, 201),
       mkState (TODOS s ++ [(NEXT_ID s, t)]) (NEXT_ID s + 1))
    /\ t = mkTodo (NEXT_ID s) (item_title o) (truthy (item_is_done o)) (-3)
             (NEXT_ID s)
    /\ Forall (fun k => k < id t) (keys (TODOS s))
    /\ state_ok (mkState (TODOS s ++ [(NEXT_ID s, t)]) (NEXT_ID s + 1)).
Proof.
  cbv zeta.
  apply (create_todo_appends decimal_of_string
           (Some (JObj [("title", JStr "D"); ("priority", JStr "-3")]))
           [("title", JStr "D"); ("priority", JStr "-3")] (-3) sample_state).
  - exact sample_state_shape.
  - reflexivity.
  - reflexivity.
  - reflexivity.
Defined.

Lemma create_todos_bulk_appends_witness :
  let body := Some (JObj [("items", JArr (map JObj sample_items))]) in
  let s := sample_state in
  exists created,
    create_todos_bulk decimal_of_string body s =
      (inr (PCreated created (Z.of_nat (List.length created)), 201),
       mkState (TODOS s ++ map (fun t => (id t, t)) created)
               (NEXT_ID s + Z.of_nat (List.length created)))
    /\ Forall2 (made_from decimal_of_string)
         (filter (fun o => truthy (item_title o)) sample_items) created
    /\ map id created = zseq (NEXT_ID s) (List.length created)
    /\ map position created = map id created
    /\ Forall (fun t => Forall (fun k => k < id t) (keys (TODOS s))) created.
Proof.
  cbv zeta.
  apply (create_todos_bulk_appends decimal_of_string
           (Some (JObj [("items", JArr (map JObj sample_items))]))
           sample_items sample_state).
  - exact sample_state_shape.
  - reflexivity.
  - exact sample_items_ok.
Defined.

Lemma create_todos_bulk_keeps_earlier_items_witness :
  let s := sample_state in
  let late := JObj [("title", JStr "z")] in
  let unparsed := [("title", JStr "c"); ("priority", JNull)] in
  (exists new s',
      Forall2 (made_from decimal_of_string)
        (filter (fun o => truthy (item_title o)) sample_items) new
      /\ map id new = zseq (NEXT_ID s) (List.length new)
      /\ create_todos_bulk decimal_of_string
           (Some (JObj [("items",
                         JArr (map JObj sample_items
                               ++ [JStr "oops"; late]))])) s
         = (inl AttributeError, s')
      /\ NEXT_ID s' = NEXT_ID s + Z.of_nat (List.length new)
      /\ TODOS s' = store_all new (TODOS s)
      /\ stores_new new (TODOS s) (TODOS s'))
  /\ (exists new s',
      Forall2 (made_from decimal_of_string)
        (filter (fun o => truthy (item_title o)) sample_items) new
      /\ map id new = zseq (NEXT_ID s) (List.length new)
      /\ create_todos_bulk decimal_of_string
           (Some (JObj [("items",
                         JArr (map JObj sample_items
                               ++ [JObj unparsed; late]))])) s
         = (inl TypeError, s')
      /\ NEXT_ID s' = NEXT_ID s + Z.of_nat (List.length new) + 1
      /\ TODOS s' = store_all new (TODOS s)
      /\ stores_new new (TODOS s) (TODOS s')).
Proof.
  cbv zeta. split.
  - destruct (create_todos_bulk_keeps_earlier_items decimal_of_string
                (Some (JObj [("items",
                   JArr (map JObj sample_items
                         ++ [JStr "oops"; JObj [("title", JStr "z")]]))]))
                sample_items (JStr "oops") [JObj [("title", JStr "z")]]
                sample_state eq_refl sample_items_ok)
      as [new [Hmade [Hids [Hnot _]]]].
    destruct Hnot as [s' Hs']; [intros o; discriminate|].
    exists new, s'. split; [exact Hmade|]. split; [exact Hids|]. exact Hs'.
  - destruct (create_todos_bulk_keeps_earlier_items decimal_of_string
                (Some (JObj [("items",
                   JArr (map JObj sample_items
                         ++ [JObj [("title", JStr "c"); ("priority", JNull)];
                             JObj [("title", JStr "z")]]))]))
                sample_items
                (JObj [("title", JStr "c"); ("priority", JNull)])
                [JObj [("title", JStr "z")]]
                sample_state eq_refl sample_items_ok)
      as [new [Hmade [Hids [_ Hbad]]]].
    destruct (Hbad [("title", JStr "c"); ("priority", JNull)] TypeError
                eq_refl eq_refl eq_refl) as [s' Hs'].
    exists new, s'. split; [exact Hmade|]. split; [exact Hids|]. exact Hs'.
Defined.

Lemma patch_todo_order_irrelevant_witness :
  let body := Some (JObj [("priority", JStr "9"); ("title", JStr "B2")]) in
  patch_todo decimal_of_string [F_priority; F_title; F_is_done] 2 body
    sample_state
  = patch_todo decimal_of_string [F_title; F_is_done; F_priority] 2 body
      sample_state.
Proof.
  cbv zeta.
  apply (patch_todo_order_irrelevant decimal_of_string
           [F_priority; F_title; F_is_done] [F_title; F_is_done; F_priority] 2
           (Some (JObj [("priority", JStr "9"); ("title", JStr "B2")]))
           [("priority", JStr "9"); ("title", JStr "B2")]
           (mkTodo 2 (JStr "B") true 5 2) sample_state).
  - intros f. destruct f; simpl; auto.
  - intros f. destruct f; simpl; auto.
  - reflexivity.
  - reflexivity.
  - exists F_title. discriminate.
  - intros v H. inversion H; subst. exists 9. reflexivity.
Defined.

(* ------------------------------------------------------------------ *)
(** * What the updates never do *)

Lemma delete_many_todos_eq arg s :
  NoDup (keys (TODOS s)) ->
  delete_many_todos arg s =
  if completed_only_flag arg then
    (inr (PDeletedIds (keys (filter (fun e => is_done (snd e)) (TODOS s)))
            true, 200),
     mkState (filter (fun e => negb (is_done (snd e))) (TODOS s)) (NEXT_ID s))
  else
    (inr (PDeletedIds (keys (TODOS s)) false, 200), mkState [] (NEXT_ID s)).
Proof.
  intros Hnd. unfold delete_many_todos.
  destruct (completed_only_flag arg); [|reflexivity].
  run. rewrite pop_all_run. simpl. now rewrite pop_keys_filter.
Qed.

Lemma filter_done_of_open (d : dict) :
  filter (fun e => is_done (snd e))
    (filter (fun e => negb (is_done (snd e))) d) = [].
Proof.
  induction d as [|e d IH]; simpl; [reflexivity|].
  destruct (is_done (snd e)) eqn:He; simpl; [assumption|].
  now rewrite He.
Qed.

Lemma filter_open_of_open (d : dict) :
  filter (fun e => negb (is_done (snd e)))
    (filter (fun e => negb (is_done (snd e))) d)
  = filter (fun e => negb (is_done (snd e))) d.
Proof.
  induction d as [|e d IH]; simpl; [reflexivity|].
  destruct (is_done (snd e)) eqn:He; simpl; [assumption|].
  now rewrite He, IH.
Qed.

Lemma keys_filter_NoDup p (d : dict) :
  NoDup (keys d) -> NoDup (keys (filter p d)).
Proof.
  induction d as [|e d IH]; simpl; intros Hnd; [constructor|].
  inversion Hnd; subst. destruct (p e); simpl; auto.
  constructor; auto. intros Hin. now apply keys_filter_incl in Hin.
Qed.

(** X18.  Serving the same bulk deletion a second time deletes nothing:
    it answers 200 with an empty list of ids and leaves the state the first
    one left. *)
Theorem delete_many_todos_twice (arg : option string) (s : state) :
  NoDup (keys (TODOS s)) ->
  delete_many_todos arg (snd (delete_many_todos arg s))
  = (inr (PDeletedIds [] (completed_only_flag arg), 200),
     snd (delete_many_todos arg s)).
Proof.
  intros Hnd. rewrite (delete_many_todos_eq arg s Hnd).
  destruct (completed_only_flag arg) eqn:Hflag; cbn [snd].
  - rewrite delete_many_todos_eq, Hflag; cbn [TODOS NEXT_ID].
    + now rewrite filter_done_of_open, filter_open_of_open.
    + now apply keys_filter_NoDup.
  - rewrite delete_many_todos_eq, Hflag; [reflexivity | constructor].
Qed.

Lemma dict_update_same k d : dict_update k (fun t => t) d = d.
Proof.
  induction d as [|[k' v] d IH]; simpl; [reflexivity|].
  destruct (k' =? k); [reflexivity | now rewrite IH].
Qed.

Lemma dict_update_twice k g1 g2 d :
  dict_update k g2 (dict_update k g1 d) = dict_update k (fun t => g2 (g1 t)) d.
Proof.
  induction d as [|[k' v] d IH]; simpl; [reflexivity|].
  destruct (Z.eqb_spec k' k); simpl.
  - subst. now rewrite Z.eqb_refl.
  - destruct (Z.eqb_spec k' k); [contradiction | now rewrite IH].
Qed.

(** A change of a task that leaves its id and its position alone. *)
Definition keeps_id_and_position (g : todo -> todo) : Prop :=
  forall t, id (g t) = id t /\ position (g t) = position t.

Section Patching.

Variable int_of_str : string -> option Z.

Lemma unchanged_is_an_update k (s : state) :
  exists g,
    keeps_id_and_position g
    /\ s = mkState (dict_update k g (TODOS s)) (NEXT_ID s).
Proof.
  exists (fun t => t). split; [intros t; now split|].
  rewrite dict_update_same. now destruct s.
Qed.

Lemma patch_loop_changes k data fs : forall s,
  exists g,
    keeps_id_and_position g
    /\ snd (patch_loop int_of_str fs k data s)
       = mkState (dict_update k g (TODOS s)) (NEXT_ID s).
Proof.
  induction fs as [|f fs IH]; intros s.
  - apply unchanged_is_an_update.
  - assert (Hstep : forall g1, keeps_id_and_position g1 ->
              exists g, keeps_id_and_position g
                /\ snd (patch_loop int_of_str fs k data
                          (mkState (dict_update k g1 (TODOS s)) (NEXT_ID s)))
                   = mkState (dict_update k g (TODOS s)) (NEXT_ID s)).
    { intros g1 H1.
      destruct (IH (mkState (dict_update k g1 (TODOS s)) (NEXT_ID s)))
        as [g [Hg Hrun]]. exists (fun t => g (g1 t)). split.
      - intros t. destruct (Hg (g1 t)) as [A B]. destruct (H1 t) as [C D].
        split; congruence.
      - cbn [TODOS NEXT_ID] in Hrun. now rewrite Hrun, dict_update_twice. }
    cbn [patch_loop]. unfold bind at 1. unfold lift at 1.
    destruct (py_in (field_name f) data) as [e|[|]];
      [apply unchanged_is_an_update| |].
    + unfold bind at 1. unfold bind at 1. unfold lift at 1.
      destruct (py_getitem data (field_name f)) as [e|v];
        [apply unchanged_is_an_update|].
      destruct f.
      * unfold modify_TODOS at 1.
        apply (Hstep (set_title v)). intros t; now split.
      * unfold modify_TODOS at 1.
        apply (Hstep (set_is_done (truthy v))). intros t; now split.
      * unfold bind at 1. unfold lift at 1.
        destruct (py_int int_of_str v) as [e|p];
          [apply unchanged_is_an_update|].
        unfold modify_TODOS at 1.
        apply (Hstep (set_priority p)). intros t; now split.
    + unfold bind at 1. unfold ret at 1. apply IH.
Qed.

(** X19. Whatever the body, the iteration order of [allowed_fields] and
    the way the request ends (200, 400, 404 or an exception part-way
    through the loop), [patch_todo] changes at most the task it was
    asked to patch, and never that task's id or position: the counter,
    the keys of the store and their order, and every other task are as
    before. *)
Theorem patch_todo_touches_only_its_task fs k body s :
  exists g,
    keeps_id_and_position g
    /\ NEXT_ID (snd (patch_todo int_of_str fs k body s)) = NEXT_ID s
    /\ keys (TODOS (snd (patch_todo int_of_str fs k body s)))
       = keys (TODOS s)
    /\ forall k',
         dict_get k' (TODOS (snd (patch_todo int_of_str fs k body s)))
         = if k' =? k then option_map g (dict_get k (TODOS s))
           else dict_get k' (TODOS s).
Proof.
  assert (Hshape : exists g, keeps_id_and_position g
            /\ snd (patch_todo int_of_str fs k body s)
               = mkState (dict_update k g (TODOS s)) (NEXT_ID s)).
  { rewrite (patch_todo_eq int_of_str fs k body s).
    destruct (dict_get k (TODOS s)); [|apply unchanged_is_an_update].
    destruct (py_any_in (map field_name fs) (get_json_or_empty body))
      as [e|[|]]; try apply unchanged_is_an_update.
    destruct (patch_loop_changes k (get_json_or_empty body) fs s)
      as [g [Hg Hrun]].
    exists g. split; [exact Hg|].
    destruct (patch_loop int_of_str fs k (get_json_or_empty body) s)
      as [[e|u] s1]; simpl in Hrun; subst s1; [reflexivity|].
    cbn [TODOS].
    now destruct (dict_get k (dict_update k g (TODOS s))). }
  destruct Hshape as [g [Hg Hs]]. exists g. rewrite Hs. cbn [TODOS NEXT_ID].
  split; [exact Hg|]. split; [reflexivity|].
  split; [apply keys_dict_update|].
  intros k'. apply dict_get_update.
Qed.

End Patching.

(** X20. [replace_todo], [put_todo_status] and [delete_todo] are
    all-or-nothing on every input: either the answer is the 200, or the
    state is exactly the one the request found, also when the body makes
    the handler raise. *)
Theorem single_task_writes_all_or_nothing
    (int_of_str : string -> option Z) k body s :
  ((exists t, fst (replace_todo int_of_str k body s) = inr (PTodo t, 200))
   \/ snd (replace_todo int_of_str k body s) = s)
  /\ ((exists t, fst (put_todo_status k body s) = inr (PTodo t, 200))
      \/ snd (put_todo_status k body s) = s)
  /\ (fst (delete_todo k s) = inr (PDeletedId k, 200)
      \/ snd (delete_todo k s) = s).
Proof.
  split; [apply replace_todo_atomic|].
  split; [apply put_todo_status_atomic|].
  destruct (delete_todo_atomic k s) as [H|[_ H]]; [now left | now right].
Qed.

(** X21. A [create_todo] that raises stores nothing, but may already
    have taken an id: the store is unchanged and the counter is where it
    was or one further. *)
Theorem create_todo_failure_stores_nothing
    (int_of_str : string -> option Z) body s e :
  fst (create_todo int_of_str body s) = inl e ->
  TODOS (snd (create_todo int_of_str body s)) = TODOS s
  /\ NEXT_ID s <= NEXT_ID (snd (create_todo int_of_str body s))
     <= NEXT_ID s + 1.
Proof.
  rewrite (create_todo_eq int_of_str body s).
  destruct (get_json_or_empty body) as [| | | | | |o];
    try (intros _; simpl; split; [reflexivity | lia]).
  destruct (truthy (item_title o)); [|discriminate].
  destruct (py_int int_of_str (item_priority o)); [|discriminate].
  intros _. simpl. split; [reflexivity | lia].
Qed.

Lemma create_todo_failure_stores_nothing_witness :
  let body := Some (JObj [("title", JStr "x"); ("priority", JNull)]) in
  fst (create_todo decimal_of_string body sample_state) = inl TypeError
  /\ TODOS (snd (create_todo decimal_of_string body sample_state))
     = TODOS sample_state
  /\ NEXT_ID sample_state
     <= NEXT_ID (snd (create_todo decimal_of_string body sample_state))
     <= NEXT_ID sample_state + 1.
Proof.
  split; [reflexivity|].
  apply (create_todo_failure_stores_nothing decimal_of_string
           (Some (JObj [("title", JStr "x"); ("priority", JNull)]))
           sample_state TypeError).
  reflexivity.
Defined.

Lemma delete_many_todos_twice_witness :
  NoDup (keys (TODOS sample_state))
  /\ delete_many_todos (Some "true")
       (snd (delete_many_todos (Some "true") sample_state))
     = (inr (PDeletedIds [] (completed_only_flag (Some "true")), 200),
        snd (delete_many_todos (Some "true") sample_state)).
Proof.
  assert (H : NoDup (keys (TODOS sample_state))).
  { simpl. repeat constructor; simpl; intuition lia. }
  split; [exact H|].
  apply (delete_many_todos_twice (Some "true") sample_state H).
Defined.
